(** * SDL_gpu: the command-buffer pass state machine and backend dispatch

    A shallow embedding of [src/SDL_gpu.c] (and of the entry point of
    [src/SDL_gpu_spirv.c]) together with the properties of the
    command-recording contract.

    Conventions of the embedding.
    - A C pointer is an [option]: [None] is [NULL].  Opaque handles
      (textures, buffers, pipelines, binding arrays, windows, ...) are
      addresses [N] that the core never looks behind.
    - A command buffer lives in a heap [gmap N CommandBufferCommonHeader];
      a pointer to one of its three embedded pass trackers is represented
      by the address of the command buffer that embeds it, the static C
      type ([SDL_GpuRenderPass*], [SDL_GpuComputePass*], [SDL_GpuCopyPass*])
      saying which tracker is meant.
    - Every call through the device's function table is recorded in a trace
      and answered by the device's [driver] function over an abstract
      [World] and over the headers of the command buffers as they are at
      the moment of the call.  The common header is the head of the block
      that the backend allocated for the command buffer, so the backend
      can read it; whether a function of the core assigns to the header
      before or after it calls the backend therefore shows in what the
      backend is answered over.  The log calls [SDL_LogError] /
      [SDL_LogWarn] are recorded in the same trace.
    - A failed [SDL_assert] and a dereference of [NULL] end the run in
      [Crash], which keeps the state the run had reached; what the
      process does from there (the assertion handler, the signal) is not
      part of the embedding.
    - The backend is taken not to write to the common header of a command
      buffer: only the core's own assignments change the heap. *)

From stdpp Require Import gmap strings list.

Open Scope string_scope.
Open Scope Z_scope.

(** ** Plain C types *)

Abbreviation ptr := (option N).
Abbreviation Uint32 := Z.
Abbreviation SDL_bool := bool.
Abbreviation SDL_GpuBackend := Z.

(** The enumerators of [SDL_GpuTextureFormat] that the sources name: the
    colour formats of [SDL_GpuTextureFormatTexelBlockSize] and the five
    depth formats of the negotiation switch. *)
Inductive SDL_GpuTextureFormat :=
| SDL_GPU_TEXTUREFORMAT_R8G8B8A8
| SDL_GPU_TEXTUREFORMAT_B8G8R8A8
| SDL_GPU_TEXTUREFORMAT_R5G6B5
| SDL_GPU_TEXTUREFORMAT_A1R5G5B5
| SDL_GPU_TEXTUREFORMAT_B4G4R4A4
| SDL_GPU_TEXTUREFORMAT_A2R10G10B10
| SDL_GPU_TEXTUREFORMAT_R16G16B16A16
| SDL_GPU_TEXTUREFORMAT_R8
| SDL_GPU_TEXTUREFORMAT_A8
| SDL_GPU_TEXTUREFORMAT_BC1
| SDL_GPU_TEXTUREFORMAT_BC2
| SDL_GPU_TEXTUREFORMAT_BC3
| SDL_GPU_TEXTUREFORMAT_BC7
| SDL_GPU_TEXTUREFORMAT_R8G8_SNORM
| SDL_GPU_TEXTUREFORMAT_R8G8B8A8_SNORM
| SDL_GPU_TEXTUREFORMAT_R16_SFLOAT
| SDL_GPU_TEXTUREFORMAT_R16G16_SFLOAT
| SDL_GPU_TEXTUREFORMAT_R16G16B16A16_SFLOAT
| SDL_GPU_TEXTUREFORMAT_R32_SFLOAT
| SDL_GPU_TEXTUREFORMAT_R32G32_SFLOAT
| SDL_GPU_TEXTUREFORMAT_R32G32B32A32_SFLOAT
| SDL_GPU_TEXTUREFORMAT_R8_UINT
| SDL_GPU_TEXTUREFORMAT_R8G8_UINT
| SDL_GPU_TEXTUREFORMAT_R8G8B8A8_UINT
| SDL_GPU_TEXTUREFORMAT_R16_UINT
| SDL_GPU_TEXTUREFORMAT_R16G16_UINT
| SDL_GPU_TEXTUREFORMAT_R16G16B16A16_UINT
| SDL_GPU_TEXTUREFORMAT_R8G8B8A8_SRGB
| SDL_GPU_TEXTUREFORMAT_B8G8R8A8_SRGB
| SDL_GPU_TEXTUREFORMAT_BC3_SRGB
| SDL_GPU_TEXTUREFORMAT_BC7_SRGB
| SDL_GPU_TEXTUREFORMAT_D16_UNORM
| SDL_GPU_TEXTUREFORMAT_D24_UNORM
| SDL_GPU_TEXTUREFORMAT_D32_SFLOAT
| SDL_GPU_TEXTUREFORMAT_D24_UNORM_S8_UINT
| SDL_GPU_TEXTUREFORMAT_D32_SFLOAT_S8_UINT.

#[global]
Instance SDL_GpuTextureFormat_eq_dec : EqDecision SDL_GpuTextureFormat.
Proof. solve_decision. Defined.

Inductive SDL_GpuTextureType :=
| SDL_GPU_TEXTURETYPE_2D
| SDL_GPU_TEXTURETYPE_CUBE.

(** What the sources take from headers that are not part of them
    ([SDL_gpu.h], [SDL_gpu_driver.h], [SDL_assert.h]): the backend and
    shader-format constants, the usage bit of the pipeline probe, the
    [IsDepthFormat] predicate and the assertion level of the build
    ([SDL_assert] is compiled in from level 2 on). *)
Class SDL_gpu_h := {
  SDL_GPU_BACKEND_INVALID : SDL_GpuBackend;
  SDL_GPU_BACKEND_VULKAN : SDL_GpuBackend;
  SDL_GPU_BACKEND_D3D11 : SDL_GpuBackend;
  SDL_GPU_BACKEND_METAL : SDL_GpuBackend;
  SDL_GPU_SHADERFORMAT_SPIRV : Z;
  SDL_GPU_TEXTUREUSAGE_DEPTH_STENCIL_TARGET_BIT : Z;
  IsDepthFormat : SDL_GpuTextureFormat -> bool;
  SDL_ASSERT_LEVEL : Z
}.

(** ** Create-info structures

    Only the fields the core reads or writes are named; [Blob] stands for
    the remaining members, which the core passes along untouched. *)
Section Structs.
Context {Blob : Type}.

Record SDL_GpuTextureCreateInfo := {
  format : SDL_GpuTextureFormat;
  usageFlags : Z;
  textureRest : Blob
}.

Record SDL_GpuGraphicsPipelineAttachmentInfo := {
  hasDepthStencilAttachment : SDL_bool;
  depthStencilFormat : SDL_GpuTextureFormat;
  attachmentRest : Blob
}.

Record SDL_GpuGraphicsPipelineCreateInfo := {
  attachmentInfo : SDL_GpuGraphicsPipelineAttachmentInfo;
  pipelineRest : Blob
}.

Record SDL_GpuShaderCreateInfo := {
  shaderFormat : Z;
  stage : Z;
  entryPointName : string;
  code : ptr;
  codeSize : Z
}.

(** [textureCreateInfo->format = newFormat] *)
Definition set_format (info : SDL_GpuTextureCreateInfo)
    (newFormat : SDL_GpuTextureFormat) : SDL_GpuTextureCreateInfo :=
  {| format := newFormat;
     usageFlags := usageFlags info;
     textureRest := textureRest info |}.

(** [graphicsPipelineCreateInfo->attachmentInfo.depthStencilFormat = newFormat] *)
Definition set_depthStencilFormat (info : SDL_GpuGraphicsPipelineCreateInfo)
    (newFormat : SDL_GpuTextureFormat) : SDL_GpuGraphicsPipelineCreateInfo :=
  {| attachmentInfo :=
       {| hasDepthStencilAttachment :=
            hasDepthStencilAttachment (attachmentInfo info);
          depthStencilFormat := newFormat;
          attachmentRest := attachmentRest (attachmentInfo info) |};
     pipelineRest := pipelineRest info |}.

(** ** The device's function table

    One constructor per entry of the table that [SDL_gpu.c] calls, indexed
    by the C return type.  The arguments are those of the C call, in
    order. *)
Inductive DriverCall : Type -> Type :=
| IsTextureFormatSupported (driverData : ptr) (fmt : SDL_GpuTextureFormat)
    (type : SDL_GpuTextureType) (usage : Z) : DriverCall bool
| CreateComputePipeline (driverData info : ptr) : DriverCall ptr
| CreateGraphicsPipeline (driverData : ptr)
    (info : SDL_GpuGraphicsPipelineCreateInfo) : DriverCall ptr
| CreateSampler (driverData info : ptr) : DriverCall ptr
| CreateShader (driverData : ptr) (info : SDL_GpuShaderCreateInfo)
    : DriverCall ptr
| CompileFromSPIRVCross (driverData : ptr) (shaderStage : Z)
    (entryPoint translated : string) : DriverCall ptr
| CreateTexture (driverData : ptr) (info : SDL_GpuTextureCreateInfo)
    : DriverCall ptr
| CreateBuffer (driverData : ptr) (usage : Z) (sizeInBytes : Uint32)
    : DriverCall ptr
| CreateTransferBuffer (driverData : ptr) (usage mapFlags : Z)
    (sizeInBytes : Uint32) : DriverCall ptr
| CreateOcclusionQuery (driverData : ptr) : DriverCall ptr
| ReleaseTexture (driverData texture : ptr) : DriverCall unit
| ReleaseSampler (driverData sampler : ptr) : DriverCall unit
| ReleaseBuffer (driverData buffer : ptr) : DriverCall unit
| ReleaseTransferBuffer (driverData transferBuffer : ptr) : DriverCall unit
| ReleaseShader (driverData shader : ptr) : DriverCall unit
| ReleaseComputePipeline (driverData computePipeline : ptr) : DriverCall unit
| ReleaseGraphicsPipeline (driverData graphicsPipeline : ptr)
    : DriverCall unit
| ReleaseOcclusionQuery (driverData query : ptr) : DriverCall unit
| ReleaseFence (driverData fence : ptr) : DriverCall unit
| BeginRenderPass (cb colorAttachmentInfos : ptr)
    (colorAttachmentCount : Uint32) (depthStencilAttachmentInfo : ptr)
    : DriverCall unit
| BindGraphicsPipeline (cb graphicsPipeline : ptr) : DriverCall unit
| SetViewport (cb viewport : ptr) : DriverCall unit
| SetScissor (cb scissor : ptr) : DriverCall unit
| BindVertexBuffers (cb : ptr) (firstBinding : Uint32) (pBindings : ptr)
    (bindingCount : Uint32) : DriverCall unit
| BindIndexBuffer (cb pBinding : ptr) (indexElementSize : Z)
    : DriverCall unit
| BindVertexSamplers (cb : ptr) (firstSlot : Uint32) (bindings : ptr)
    (bindingCount : Uint32) : DriverCall unit
| BindVertexStorageTextures (cb : ptr) (firstSlot : Uint32) (slices : ptr)
    (bindingCount : Uint32) : DriverCall unit
| BindVertexStorageBuffers (cb : ptr) (firstSlot : Uint32) (buffers : ptr)
    (bindingCount : Uint32) : DriverCall unit
| BindFragmentSamplers (cb : ptr) (firstSlot : Uint32) (bindings : ptr)
    (bindingCount : Uint32) : DriverCall unit
| BindFragmentStorageTextures (cb : ptr) (firstSlot : Uint32) (slices : ptr)
    (bindingCount : Uint32) : DriverCall unit
| BindFragmentStorageBuffers (cb : ptr) (firstSlot : Uint32) (buffers : ptr)
    (bindingCount : Uint32) : DriverCall unit
| PushVertexUniformData (cb : ptr) (slotIndex : Uint32) (data : ptr)
    (dataLengthInBytes : Uint32) : DriverCall unit
| PushFragmentUniformData (cb : ptr) (slotIndex : Uint32) (data : ptr)
    (dataLengthInBytes : Uint32) : DriverCall unit
| DrawIndexedPrimitives (cb : ptr)
    (baseVertex startIndex primitiveCount instanceCount : Uint32)
    : DriverCall unit
| DrawPrimitives (cb : ptr) (vertexStart primitiveCount : Uint32)
    : DriverCall unit
| DrawPrimitivesIndirect (cb buffer : ptr)
    (offsetInBytes drawCount stride : Uint32) : DriverCall unit
| DrawIndexedPrimitivesIndirect (cb buffer : ptr)
    (offsetInBytes drawCount stride : Uint32) : DriverCall unit
| EndRenderPass (cb : ptr) : DriverCall unit
| BeginComputePass (cb storageTextureBindings : ptr)
    (storageTextureBindingCount : Uint32) (storageBufferBindings : ptr)
    (storageBufferBindingCount : Uint32) : DriverCall unit
| BindComputePipeline (cb computePipeline : ptr) : DriverCall unit
| BindComputeStorageTextures (cb : ptr) (firstSlot : Uint32) (slices : ptr)
    (bindingCount : Uint32) : DriverCall unit
| BindComputeStorageBuffers (cb : ptr) (firstSlot : Uint32) (buffers : ptr)
    (bindingCount : Uint32) : DriverCall unit
| PushComputeUniformData (cb : ptr) (slotIndex : Uint32) (data : ptr)
    (dataLengthInBytes : Uint32) : DriverCall unit
| DispatchCompute (cb : ptr) (groupCountX groupCountY groupCountZ : Uint32)
    : DriverCall unit
| EndComputePass (cb : ptr) : DriverCall unit
| BeginCopyPass (cb : ptr) : DriverCall unit
| UploadToTexture (cb transferBuffer textureRegion copyParams : ptr)
    (cycle : SDL_bool) : DriverCall unit
| UploadToBuffer (cb transferBuffer buffer copyParams : ptr)
    (cycle : SDL_bool) : DriverCall unit
| CopyTextureToTexture (cb source destination : ptr) (cycle : SDL_bool)
    : DriverCall unit
| CopyBufferToBuffer (cb source destination copyParams : ptr)
    (cycle : SDL_bool) : DriverCall unit
| GenerateMipmaps (cb texture : ptr) : DriverCall unit
| DownloadFromTexture (cb textureRegion transferBuffer copyParams : ptr)
    : DriverCall unit
| DownloadFromBuffer (cb buffer transferBuffer copyParams : ptr)
    : DriverCall unit
| EndCopyPass (cb : ptr) : DriverCall unit
| SetStringMarker (cb : ptr) (text : string) : DriverCall unit
| Blit (cb source destination : ptr) (filterMode : Z) (cycle : SDL_bool)
    : DriverCall unit
| AcquireCommandBuffer (driverData : ptr) : DriverCall ptr
| AcquireSwapchainTexture (cb window pWidth pHeight : ptr) : DriverCall ptr
| Submit (cb : ptr) : DriverCall unit
| SubmitAndAcquireFence (cb : ptr) : DriverCall ptr
| OcclusionQueryBegin (cb query : ptr) : DriverCall unit
| OcclusionQueryEnd (cb query : ptr) : DriverCall unit.

End Structs.

Arguments SDL_GpuTextureCreateInfo : clear implicits.
Arguments SDL_GpuGraphicsPipelineAttachmentInfo : clear implicits.
Arguments SDL_GpuGraphicsPipelineCreateInfo : clear implicits.
Arguments DriverCall : clear implicits.

(** ** Devices, command buffers and the state of a run *)
Section Core.
Context {hdr : SDL_gpu_h} {World Blob : Type}.

(** [struct Pass], embedded three times in the common header. *)
Record Pass := {
  commandBuffer : ptr;
  inProgress : SDL_bool
}.

(** What a backend reads of a command buffer.  The common header is the
    head of the block that the backend itself allocated and is handed
    back as [commandBuffer]: every member after [device] is in its
    reach. *)
Record HeaderView := {
  viewRenderPass : Pass;
  viewGraphicsPipelineBound : SDL_bool;
  viewComputePass : Pass;
  viewComputePipelineBound : SDL_bool;
  viewCopyPass : Pass;
  viewSubmitted : SDL_bool
}.

(** [struct SDL_GpuDevice]: the backend tag written by
    [SDL_GpuCreateDevice], the driver's private data and the function
    table, answered over the headers of the command buffers as they are
    when the entry is called and over the [World] the driver lives in. *)
Record SDL_GpuDevice := {
  backend : SDL_GpuBackend;
  driverData : ptr;
  driver :
    forall R, DriverCall Blob R -> gmap N HeaderView -> World -> R * World
}.

(** [struct CommandBufferCommonHeader], with the members the core names. *)
Record CommandBufferCommonHeader := {
  device : option SDL_GpuDevice;
  renderPass : Pass;
  graphicsPipelineBound : SDL_bool;
  computePass : Pass;
  computePipelineBound : SDL_bool;
  copyPass : Pass;
  submitted : SDL_bool
}.

(** What a run leaves behind in its trace. *)
Inductive Event :=
| EvLogError (msg : string)
| EvLogWarn (msg : string) (args : list SDL_GpuTextureFormat)
| EvSetError (msg : string)
| EvPrepareDriver (name : string) (ok : bool)
| EvCreateDevice (name : string) (debugMode : SDL_bool)
| EvCall (dev : SDL_GpuDevice) {R : Type} (call : DriverCall Blob R) (res : R).

Record State := {
  world : World;
  heap : gmap N CommandBufferCommonHeader;
  trace : list Event
}.

Inductive Fault :=
| AssertionFailure (condition : string)
| NullDereference
| InvalidPointer (a : N).

Inductive Outcome (A : Type) :=
| Ok (a : A) (s : State)
| Crash (f : Fault) (s : State).
Arguments Ok {A} a s.
Arguments Crash {A} f s.

(** The monad of the embedding: state passing with faults. *)
Definition M (A : Type) : Type := State -> Outcome A.

Definition ret {A} (a : A) : M A := fun s => Ok a s.

Definition bind {A B} (m : M A) (k : A -> M B) : M B :=
  fun s => match m s with
           | Ok a s' => k a s'
           | Crash f s' => Crash f s'
           end.

Notation "'let*' x := m 'in' k" := (bind m (fun x => k))
  (at level 10, x name, m at level 100, k at level 200, only parsing).
Notation "m ;;; k" := (bind m (fun _ => k))
  (at level 100, k at level 200, right associativity, only parsing).

(** The state after one more traced event. *)
Definition logged (e : Event) (s : State) : State :=
  {| world := world s; heap := heap s; trace := trace s ++ [e] |}.

Definition emit (e : Event) : M unit := fun s => Ok tt (logged e s).

Definition SDL_LogError (msg : string) : M unit := emit (EvLogError msg).

Definition SDL_LogWarn (msg : string) (args : list SDL_GpuTextureFormat)
    : M unit :=
  emit (EvLogWarn msg args).

Definition SDL_SetError (msg : string) : M unit := emit (EvSetError msg).

(** [SDL_assert(condition)]: compiled in from assertion level 2 on, where
    a false condition ends the run; compiled out below. *)
Definition SDL_assert (condition : bool) (text : string) : M unit :=
  fun s => if (2 <=? SDL_ASSERT_LEVEL) && negb condition
           then Crash (AssertionFailure text) s
           else Ok tt s.

(** [#define NULL_ASSERT(name) SDL_assert(name != NULL);] *)
Definition NULL_ASSERT {A} (name : option A) (text : string) : M unit :=
  SDL_assert (bool_decide (name <> None)) text.

(** [p->member] for [p] a device pointer. *)
Definition deref {A} (p : option A) : M A :=
  fun s => match p with
           | Some d => Ok d s
           | None => Crash NullDereference s
           end.

(** [*(CommandBufferCommonHeader* ) p] *)
Definition load (p : ptr) : M CommandBufferCommonHeader :=
  fun s => match p with
           | None => Crash NullDereference s
           | Some a => match heap s !! a with
                       | Some h => Ok h s
                       | None => Crash (InvalidPointer a) s
                       end
           end.

(** [p->member = v], as an update [f] of the header behind [p]. *)
Definition modify (p : ptr)
    (f : CommandBufferCommonHeader -> CommandBufferCommonHeader) : M unit :=
  fun s => match p with
           | None => Crash NullDereference s
           | Some a => match heap s !! a with
                       | Some h => Ok tt {| world := world s;
                                            heap := <[a := f h]> (heap s);
                                            trace := trace s |}
                       | None => Crash (InvalidPointer a) s
                       end
           end.

(** The header as the backend reads it. *)
Definition view (h : CommandBufferCommonHeader) : HeaderView :=
  {| viewRenderPass := renderPass h;
     viewGraphicsPipelineBound := graphicsPipelineBound h;
     viewComputePass := computePass h;
     viewComputePipelineBound := computePipelineBound h;
     viewCopyPass := copyPass h;
     viewSubmitted := submitted h |}.

(** The command buffers as a backend called in [s] reads them. *)
Definition headers (s : State) : gmap N HeaderView := view <$> heap s.

(** [dev->Entry(args)]: the driver answers and the call is traced. *)
(** The state after the driver of [dev] has answered [c]. *)
Definition called {R} (dev : SDL_GpuDevice) (c : DriverCall Blob R)
    (s : State) : State :=
  {| world := snd (driver dev R c (headers s) (world s));
     heap := heap s;
     trace := trace s
              ++ [EvCall dev c (fst (driver dev R c (headers s) (world s)))] |}.

Definition call {R} (dev : SDL_GpuDevice) (c : DriverCall Blob R) : M R :=
  fun s => Ok (fst (driver dev R c (headers s) (world s))) (called dev c s).

(** Assignments to the members of the header. *)
Definition set_inProgress (p : Pass) (b : SDL_bool) : Pass :=
  {| commandBuffer := commandBuffer p; inProgress := b |}.

Definition set_renderPass_inProgress (b : SDL_bool)
    (h : CommandBufferCommonHeader) : CommandBufferCommonHeader :=
  {| device := device h;
     renderPass := set_inProgress (renderPass h) b;
     graphicsPipelineBound := graphicsPipelineBound h;
     computePass := computePass h;
     computePipelineBound := computePipelineBound h;
     copyPass := copyPass h;
     submitted := submitted h |}.

Definition set_computePass_inProgress (b : SDL_bool)
    (h : CommandBufferCommonHeader) : CommandBufferCommonHeader :=
  {| device := device h;
     renderPass := renderPass h;
     graphicsPipelineBound := graphicsPipelineBound h;
     computePass := set_inProgress (computePass h) b;
     computePipelineBound := computePipelineBound h;
     copyPass := copyPass h;
     submitted := submitted h |}.

Definition set_copyPass_inProgress (b : SDL_bool)
    (h : CommandBufferCommonHeader) : CommandBufferCommonHeader :=
  {| device := device h;
     renderPass := renderPass h;
     graphicsPipelineBound := graphicsPipelineBound h;
     computePass := computePass h;
     computePipelineBound := computePipelineBound h;
     copyPass := set_inProgress (copyPass h) b;
     submitted := submitted h |}.

Definition set_graphicsPipelineBound (b : SDL_bool)
    (h : CommandBufferCommonHeader) : CommandBufferCommonHeader :=
  {| device := device h;
     renderPass := renderPass h;
     graphicsPipelineBound := b;
     computePass := computePass h;
     computePipelineBound := computePipelineBound h;
     copyPass := copyPass h;
     submitted := submitted h |}.

Definition set_computePipelineBound (b : SDL_bool)
    (h : CommandBufferCommonHeader) : CommandBufferCommonHeader :=
  {| device := device h;
     renderPass := renderPass h;
     graphicsPipelineBound := graphicsPipelineBound h;
     computePass := computePass h;
     computePipelineBound := b;
     copyPass := copyPass h;
     submitted := submitted h |}.

Definition set_submitted (b : SDL_bool)
    (h : CommandBufferCommonHeader) : CommandBufferCommonHeader :=
  {| device := device h;
     renderPass := renderPass h;
     graphicsPipelineBound := graphicsPipelineBound h;
     computePass := computePass h;
     computePipelineBound := computePipelineBound h;
     copyPass := copyPass h;
     submitted := b |}.

(** ** The validation macros

    A macro that may [return] from the function that uses it takes the
    rest of that function as its continuation [k]. *)

Definition CHECK_COMMAND_BUFFER (commandBuffer : ptr) (k : M unit) : M unit :=
  match commandBuffer with
  | None => ret tt
  | Some _ =>
      let* h := load commandBuffer in
      if submitted h
      then SDL_LogError "Command buffer already submitted!"
      else k
  end.

Definition CHECK_COMMAND_BUFFER_RETURN_NULL {A} (commandBuffer : ptr)
    (k : M (option A)) : M (option A) :=
  match commandBuffer with
  | None => ret None
  | Some _ =>
      let* h := load commandBuffer in
      if submitted h
      then SDL_LogError "Command buffer already submitted!" ;;; ret None
      else k
  end.

Definition CHECK_ANY_PASS_IN_PROGRESS {A} (commandBuffer : ptr)
    (k : M (option A)) : M (option A) :=
  let* h := load commandBuffer in
  if inProgress (renderPass h) || inProgress (computePass h)
     || inProgress (copyPass h)
  then SDL_LogError "Pass already in progress!" ;;; ret None
  else k.

Definition CHECK_RENDERPASS (renderPass' : ptr) (k : M unit) : M unit :=
  let* h := load renderPass' in
  if negb (inProgress (renderPass h))
  then SDL_LogError "Render pass not in progress!"
  else k.

Definition RENDERPASS_COMMAND_BUFFER (renderPass' : ptr) : M ptr :=
  let* h := load renderPass' in ret (commandBuffer (renderPass h)).

Definition CHECK_GRAPHICS_PIPELINE_BOUND (renderPass' : ptr) (k : M unit)
    : M unit :=
  let* cb := RENDERPASS_COMMAND_BUFFER renderPass' in
  let* h := load cb in
  if negb (graphicsPipelineBound h)
  then SDL_LogError "Graphics pipeline not bound!"
  else k.

Definition CHECK_COMPUTEPASS (computePass' : ptr) (k : M unit) : M unit :=
  let* h := load computePass' in
  if negb (inProgress (computePass h))
  then SDL_LogError "Compute pass not in progress!"
  else k.

Definition COMPUTEPASS_COMMAND_BUFFER (computePass' : ptr) : M ptr :=
  let* h := load computePass' in ret (commandBuffer (computePass h)).

Definition CHECK_COMPUTE_PIPELINE_BOUND (computePass' : ptr) (k : M unit)
    : M unit :=
  let* cb := COMPUTEPASS_COMMAND_BUFFER computePass' in
  let* h := load cb in
  if negb (computePipelineBound h)
  then SDL_LogError "Compute pipeline not bound!"
  else k.

Definition CHECK_COPYPASS (copyPass' : ptr) (k : M unit) : M unit :=
  let* h := load copyPass' in
  if negb (inProgress (copyPass h))
  then SDL_LogError "Copy pass not in progress!"
  else k.

Definition COPYPASS_COMMAND_BUFFER (copyPass' : ptr) : M ptr :=
  let* h := load copyPass' in ret (commandBuffer (copyPass h)).

Definition COMMAND_BUFFER_DEVICE (commandBuffer : ptr) : M SDL_GpuDevice :=
  let* h := load commandBuffer in deref (device h).

Definition RENDERPASS_DEVICE (renderPass' : ptr) : M SDL_GpuDevice :=
  let* cb := RENDERPASS_COMMAND_BUFFER renderPass' in
  COMMAND_BUFFER_DEVICE cb.

Definition COMPUTEPASS_DEVICE (computePass' : ptr) : M SDL_GpuDevice :=
  let* cb := COMPUTEPASS_COMMAND_BUFFER computePass' in
  COMMAND_BUFFER_DEVICE cb.

Definition COPYPASS_DEVICE (copyPass' : ptr) : M SDL_GpuDevice :=
  let* cb := COPYPASS_COMMAND_BUFFER copyPass' in
  COMMAND_BUFFER_DEVICE cb.

(** ** Driver functions *)

(** [SDL_GpuGetBackend] *)
Definition SDL_GpuGetBackend (device : option SDL_GpuDevice) : SDL_GpuBackend :=
  match device with
  | None => SDL_GPU_BACKEND_INVALID
  | Some dev => backend dev
  end.

(** [SDL_GpuIsTextureFormatSupported] *)
Definition SDL_GpuIsTextureFormatSupported (device : option SDL_GpuDevice)
    (fmt : SDL_GpuTextureFormat) (type : SDL_GpuTextureType) (usage : Z)
    : M bool :=
  match device with
  | None => ret false
  | Some dev => call dev
      (IsTextureFormatSupported (driverData dev) fmt type usage)
  end.

(** ** State creation *)

Definition SDL_GpuCreateComputePipeline (device : option SDL_GpuDevice)
    (computePipelineCreateInfo : ptr) : M ptr :=
  NULL_ASSERT device "device != NULL" ;;;
  let* dev := deref device in
  call dev (CreateComputePipeline (driverData dev) computePipelineCreateInfo).

(** [SDL_GpuCreateGraphicsPipeline]: the create-info is passed by pointer
    and may be written to, so the function returns it next to the
    pipeline. *)
Definition SDL_GpuCreateGraphicsPipeline (device : option SDL_GpuDevice)
    (graphicsPipelineCreateInfo : SDL_GpuGraphicsPipelineCreateInfo Blob)
    : M (ptr * SDL_GpuGraphicsPipelineCreateInfo Blob) :=
  NULL_ASSERT device "device != NULL" ;;;
  let* info :=
    (let requested :=
       depthStencilFormat (attachmentInfo graphicsPipelineCreateInfo) in
     if hasDepthStencilAttachment (attachmentInfo graphicsPipelineCreateInfo)
     then
       let* dev := deref device in
       let* supported :=
         call dev (IsTextureFormatSupported (driverData dev) requested
                     SDL_GPU_TEXTURETYPE_2D
                     SDL_GPU_TEXTUREUSAGE_DEPTH_STENCIL_TARGET_BIT) in
       if negb supported
       then
         let newFormat :=
           match requested with
           | SDL_GPU_TEXTUREFORMAT_D24_UNORM => SDL_GPU_TEXTUREFORMAT_D32_SFLOAT
           | SDL_GPU_TEXTUREFORMAT_D32_SFLOAT => SDL_GPU_TEXTUREFORMAT_D24_UNORM
           | SDL_GPU_TEXTUREFORMAT_D24_UNORM_S8_UINT =>
               SDL_GPU_TEXTUREFORMAT_D32_SFLOAT_S8_UINT
           | SDL_GPU_TEXTUREFORMAT_D32_SFLOAT_S8_UINT =>
               SDL_GPU_TEXTUREFORMAT_D24_UNORM_S8_UINT
           | _ => SDL_GPU_TEXTUREFORMAT_D16_UNORM
           end in
         SDL_LogWarn
           "Requested unsupported depth format %d, falling back to format %d!"
           [requested; newFormat] ;;;
         ret (set_depthStencilFormat graphicsPipelineCreateInfo newFormat)
       else ret graphicsPipelineCreateInfo
     else ret graphicsPipelineCreateInfo) in
  let* dev := deref device in
  let* pipeline := call dev (CreateGraphicsPipeline (driverData dev) info) in
  ret (pipeline, info).

Definition SDL_GpuCreateSampler (device : option SDL_GpuDevice)
    (samplerStateInfo : ptr) : M ptr :=
  NULL_ASSERT device "device != NULL" ;;;
  let* dev := deref device in
  call dev (CreateSampler (driverData dev) samplerStateInfo).

(** The two targets of the translation shim. *)
Inductive spvc_backend :=
| SPVC_BACKEND_HLSL
| SPVC_BACKEND_MSL.

(** The SPIRV-Cross library behind [SDL_CreateShaderFromSPIRV]: loading the
    shared object and its nine entry points, creating the context, parsing
    the IR, creating and configuring the compiler and compiling are one
    external step here, which yields the translated source or fails (the
    C function returns [NULL] at the first failing step). *)
Context
    (spirv_cross : spvc_backend -> ptr -> Z -> World -> option string * World).

Definition translate (target : spvc_backend)
    (createInfo : SDL_GpuShaderCreateInfo) : M (option string) :=
  fun s => let rw := spirv_cross target (code createInfo)
                       (codeSize createInfo) (world s) in
           Ok (fst rw) {| world := snd rw; heap := heap s; trace := trace s |}.

(** [SDL_CreateShaderFromSPIRV] of [SDL_gpu_spirv.c] *)
Definition SDL_CreateShaderFromSPIRV (device : option SDL_GpuDevice)
    (createInfo : SDL_GpuShaderCreateInfo) : M ptr :=
  let target :=
    if SDL_GpuGetBackend device =? SDL_GPU_BACKEND_D3D11
    then Some SPVC_BACKEND_HLSL
    else if SDL_GpuGetBackend device =? SDL_GPU_BACKEND_METAL
    then Some SPVC_BACKEND_MSL
    else None in
  match target with
  | None =>
      SDL_SetError "SDL_CreateShaderFromSPIRV: Unexpected SDL_GpuBackend" ;;;
      ret None
  | Some target =>
      let* translated := translate target createInfo in
      match translated with
      | None => ret None
      | Some translated =>
          let* dev := deref device in
          call dev (CompileFromSPIRVCross (driverData dev) (stage createInfo)
                      (entryPointName createInfo) translated)
      end
  end.

(** [SDL_GpuCreateShader]: no assertion on [device] here. *)
Definition SDL_GpuCreateShader (device : option SDL_GpuDevice)
    (shaderCreateInfo : SDL_GpuShaderCreateInfo) : M ptr :=
  let* reroute :=
    (if shaderFormat shaderCreateInfo =? SDL_GPU_SHADERFORMAT_SPIRV
     then let* dev := deref device in
          ret (negb (backend dev =? SDL_GPU_BACKEND_VULKAN))
     else ret false) in
  if reroute
  then SDL_CreateShaderFromSPIRV device shaderCreateInfo
  else
    let* dev := deref device in
    call dev (CreateShader (driverData dev) shaderCreateInfo).

(** [SDL_GpuCreateTexture]: returns the create-info next to the texture,
    as [SDL_GpuCreateGraphicsPipeline] does. *)
Definition SDL_GpuCreateTexture (device : option SDL_GpuDevice)
    (textureCreateInfo : SDL_GpuTextureCreateInfo Blob)
    : M (ptr * SDL_GpuTextureCreateInfo Blob) :=
  NULL_ASSERT device "device != NULL" ;;;
  let* info :=
    (let requested := format textureCreateInfo in
     if IsDepthFormat requested
     then
       let* dev := deref device in
       let* supported :=
         call dev (IsTextureFormatSupported (driverData dev) requested
                     SDL_GPU_TEXTURETYPE_2D (usageFlags textureCreateInfo)) in
       if negb supported
       then
         let newFormat :=
           match requested with
           | SDL_GPU_TEXTUREFORMAT_D24_UNORM => SDL_GPU_TEXTUREFORMAT_D32_SFLOAT
           | SDL_GPU_TEXTUREFORMAT_D32_SFLOAT => SDL_GPU_TEXTUREFORMAT_D24_UNORM
           | SDL_GPU_TEXTUREFORMAT_D24_UNORM_S8_UINT =>
               SDL_GPU_TEXTUREFORMAT_D32_SFLOAT_S8_UINT
           | SDL_GPU_TEXTUREFORMAT_D32_SFLOAT_S8_UINT =>
               SDL_GPU_TEXTUREFORMAT_D24_UNORM_S8_UINT
           | _ => SDL_GPU_TEXTUREFORMAT_D16_UNORM
           end in
         SDL_LogWarn
           "Requested unsupported depth format %d, falling back to format %d!"
           [requested; newFormat] ;;;
         ret (set_format textureCreateInfo newFormat)
       else ret textureCreateInfo
     else ret textureCreateInfo) in
  let* dev := deref device in
  let* texture := call dev (CreateTexture (driverData dev) info) in
  ret (texture, info).

Definition SDL_GpuCreateBuffer (device : option SDL_GpuDevice)
    (usageFlags : Z) (sizeInBytes : Uint32) : M ptr :=
  NULL_ASSERT device "device != NULL" ;;;
  let* dev := deref device in
  call dev (CreateBuffer (driverData dev) usageFlags sizeInBytes).

Definition SDL_GpuCreateTransferBuffer (device : option SDL_GpuDevice)
    (usage mapFlags : Z) (sizeInBytes : Uint32) : M ptr :=
  NULL_ASSERT device "device != NULL" ;;;
  let* dev := deref device in
  call dev (CreateTransferBuffer (driverData dev) usage mapFlags sizeInBytes).

Definition SDL_GpuCreateOcclusionQuery (device : option SDL_GpuDevice) : M ptr
    :=
  NULL_ASSERT device "device != NULL" ;;;
  let* dev := deref device in
  call dev (CreateOcclusionQuery (driverData dev)).

(** [SDL_GpuSetStringMarker] *)
Definition SDL_GpuSetStringMarker (commandBuffer : ptr) (text : string)
    : M unit :=
  CHECK_COMMAND_BUFFER commandBuffer (
    let* dev := COMMAND_BUFFER_DEVICE commandBuffer in
    call dev (SetStringMarker commandBuffer text)).

(** ** Disposal *)

Definition SDL_GpuReleaseTexture (device : option SDL_GpuDevice) (texture : ptr)
    : M unit :=
  NULL_ASSERT device "device != NULL" ;;;
  let* dev := deref device in
  call dev (ReleaseTexture (driverData dev) texture).

Definition SDL_GpuReleaseSampler (device : option SDL_GpuDevice) (sampler : ptr)
    : M unit :=
  NULL_ASSERT device "device != NULL" ;;;
  let* dev := deref device in
  call dev (ReleaseSampler (driverData dev) sampler).

Definition SDL_GpuReleaseBuffer (device : option SDL_GpuDevice) (buffer : ptr)
    : M unit :=
  NULL_ASSERT device "device != NULL" ;;;
  let* dev := deref device in
  call dev (ReleaseBuffer (driverData dev) buffer).

Definition SDL_GpuReleaseTransferBuffer (device : option SDL_GpuDevice)
    (transferBuffer : ptr)
    : M unit :=
  NULL_ASSERT device "device != NULL" ;;;
  let* dev := deref device in
  call dev (ReleaseTransferBuffer (driverData dev) transferBuffer).

Definition SDL_GpuReleaseShader (device : option SDL_GpuDevice) (shader : ptr)
    : M unit :=
  NULL_ASSERT device "device != NULL" ;;;
  let* dev := deref device in
  call dev (ReleaseShader (driverData dev) shader).

Definition SDL_GpuReleaseComputePipeline (device : option SDL_GpuDevice)
    (computePipeline : ptr)
    : M unit :=
  NULL_ASSERT device "device != NULL" ;;;
  let* dev := deref device in
  call dev (ReleaseComputePipeline (driverData dev) computePipeline).

Definition SDL_GpuReleaseGraphicsPipeline (device : option SDL_GpuDevice)
    (graphicsPipeline : ptr)
    : M unit :=
  NULL_ASSERT device "device != NULL" ;;;
  let* dev := deref device in
  call dev (ReleaseGraphicsPipeline (driverData dev) graphicsPipeline).

Definition SDL_GpuReleaseOcclusionQuery (device : option SDL_GpuDevice)
    (query : ptr)
    : M unit :=
  NULL_ASSERT device "device != NULL" ;;;
  let* dev := deref device in
  call dev (ReleaseOcclusionQuery (driverData dev) query).

(** ** Render pass *)

Definition SDL_GpuBeginRenderPass (commandBuffer colorAttachmentInfos : ptr)
    (colorAttachmentCount : Uint32) (depthStencilAttachmentInfo : ptr)
    : M ptr :=
  CHECK_COMMAND_BUFFER_RETURN_NULL commandBuffer (
  CHECK_ANY_PASS_IN_PROGRESS commandBuffer (
    let* dev := COMMAND_BUFFER_DEVICE commandBuffer in
    call dev (BeginRenderPass commandBuffer colorAttachmentInfos
                colorAttachmentCount depthStencilAttachmentInfo) ;;;
    modify commandBuffer (set_renderPass_inProgress true) ;;;
    ret commandBuffer)).

(** [SDL_GpuBindGraphicsPipeline]: no [CHECK_RENDERPASS] here. *)
Definition SDL_GpuBindGraphicsPipeline (renderPass graphicsPipeline : ptr)
    : M unit :=
  NULL_ASSERT renderPass "renderPass != NULL" ;;;
  let* dev := RENDERPASS_DEVICE renderPass in
  let* cb := RENDERPASS_COMMAND_BUFFER renderPass in
  call dev (BindGraphicsPipeline cb graphicsPipeline) ;;;
  let* commandBufferHeader := RENDERPASS_COMMAND_BUFFER renderPass in
  modify commandBufferHeader (set_graphicsPipelineBound true).

Definition SDL_GpuSetViewport (renderPass viewport : ptr) : M unit :=
  NULL_ASSERT renderPass "renderPass != NULL" ;;;
  CHECK_RENDERPASS renderPass (
    let* dev := RENDERPASS_DEVICE renderPass in
    let* cb := RENDERPASS_COMMAND_BUFFER renderPass in
    call dev (SetViewport cb viewport)).

Definition SDL_GpuSetScissor (renderPass scissor : ptr) : M unit :=
  NULL_ASSERT renderPass "renderPass != NULL" ;;;
  CHECK_RENDERPASS renderPass (
    let* dev := RENDERPASS_DEVICE renderPass in
    let* cb := RENDERPASS_COMMAND_BUFFER renderPass in
    call dev (SetScissor cb scissor)).

Definition SDL_GpuBindVertexBuffers (renderPass : ptr) (firstBinding : Uint32)
    (pBindings : ptr)
    (bindingCount : Uint32) : M unit :=
  NULL_ASSERT renderPass "renderPass != NULL" ;;;
  CHECK_RENDERPASS renderPass (
  CHECK_GRAPHICS_PIPELINE_BOUND renderPass (
    let* dev := RENDERPASS_DEVICE renderPass in
    let* cb := RENDERPASS_COMMAND_BUFFER renderPass in
    call dev (BindVertexBuffers cb firstBinding pBindings bindingCount))).

Definition SDL_GpuBindIndexBuffer (renderPass : ptr) (pBinding : ptr)
    (indexElementSize : Z) : M unit :=
  NULL_ASSERT renderPass "renderPass != NULL" ;;;
  CHECK_RENDERPASS renderPass (
  CHECK_GRAPHICS_PIPELINE_BOUND renderPass (
    let* dev := RENDERPASS_DEVICE renderPass in
    let* cb := RENDERPASS_COMMAND_BUFFER renderPass in
    call dev (BindIndexBuffer cb pBinding indexElementSize))).

Definition SDL_GpuBindVertexSamplers (renderPass : ptr) (firstSlot : Uint32)
    (textureSamplerBindings : ptr) (bindingCount : Uint32) : M unit :=
  NULL_ASSERT renderPass "renderPass != NULL" ;;;
  CHECK_RENDERPASS renderPass (
  CHECK_GRAPHICS_PIPELINE_BOUND renderPass (
    let* dev := RENDERPASS_DEVICE renderPass in
    let* cb := RENDERPASS_COMMAND_BUFFER renderPass in
    call dev (BindVertexSamplers cb firstSlot textureSamplerBindings
                bindingCount))).

Definition SDL_GpuBindVertexStorageTextures (renderPass : ptr)
    (firstSlot : Uint32)
    (storageTextureSlices : ptr) (bindingCount : Uint32) : M unit :=
  NULL_ASSERT renderPass "renderPass != NULL" ;;;
  CHECK_RENDERPASS renderPass (
  CHECK_GRAPHICS_PIPELINE_BOUND renderPass (
    let* dev := RENDERPASS_DEVICE renderPass in
    let* cb := RENDERPASS_COMMAND_BUFFER renderPass in
    call dev (BindVertexStorageTextures cb firstSlot storageTextureSlices
                bindingCount))).

Definition SDL_GpuBindVertexStorageBuffers (renderPass : ptr)
    (firstSlot : Uint32)
    (storageBuffers : ptr) (bindingCount : Uint32) : M unit :=
  NULL_ASSERT renderPass "renderPass != NULL" ;;;
  CHECK_RENDERPASS renderPass (
  CHECK_GRAPHICS_PIPELINE_BOUND renderPass (
    let* dev := RENDERPASS_DEVICE renderPass in
    let* cb := RENDERPASS_COMMAND_BUFFER renderPass in
    call dev (BindVertexStorageBuffers cb firstSlot storageBuffers
                bindingCount))).

Definition SDL_GpuBindFragmentSamplers (renderPass : ptr) (firstSlot : Uint32)
    (textureSamplerBindings : ptr) (bindingCount : Uint32) : M unit :=
  NULL_ASSERT renderPass "renderPass != NULL" ;;;
  CHECK_RENDERPASS renderPass (
  CHECK_GRAPHICS_PIPELINE_BOUND renderPass (
    let* dev := RENDERPASS_DEVICE renderPass in
    let* cb := RENDERPASS_COMMAND_BUFFER renderPass in
    call dev (BindFragmentSamplers cb firstSlot textureSamplerBindings
                bindingCount))).

Definition SDL_GpuBindFragmentStorageTextures (renderPass : ptr)
    (firstSlot : Uint32)
    (storageTextureSlices : ptr) (bindingCount : Uint32) : M unit :=
  NULL_ASSERT renderPass "renderPass != NULL" ;;;
  CHECK_RENDERPASS renderPass (
  CHECK_GRAPHICS_PIPELINE_BOUND renderPass (
    let* dev := RENDERPASS_DEVICE renderPass in
    let* cb := RENDERPASS_COMMAND_BUFFER renderPass in
    call dev (BindFragmentStorageTextures cb firstSlot storageTextureSlices
                bindingCount))).

Definition SDL_GpuBindFragmentStorageBuffers (renderPass : ptr)
    (firstSlot : Uint32)
    (storageBuffers : ptr) (bindingCount : Uint32) : M unit :=
  NULL_ASSERT renderPass "renderPass != NULL" ;;;
  CHECK_RENDERPASS renderPass (
  CHECK_GRAPHICS_PIPELINE_BOUND renderPass (
    let* dev := RENDERPASS_DEVICE renderPass in
    let* cb := RENDERPASS_COMMAND_BUFFER renderPass in
    call dev (BindFragmentStorageBuffers cb firstSlot storageBuffers
                bindingCount))).

Definition SDL_GpuPushVertexUniformData (renderPass : ptr)
    (slotIndex : Uint32) (data : ptr)
    (dataLengthInBytes : Uint32) : M unit :=
  NULL_ASSERT renderPass "renderPass != NULL" ;;;
  CHECK_RENDERPASS renderPass (
  CHECK_GRAPHICS_PIPELINE_BOUND renderPass (
    let* dev := RENDERPASS_DEVICE renderPass in
    let* cb := RENDERPASS_COMMAND_BUFFER renderPass in
    call dev (PushVertexUniformData cb slotIndex data dataLengthInBytes))).

Definition SDL_GpuPushFragmentUniformData (renderPass : ptr)
    (slotIndex : Uint32) (data : ptr)
    (dataLengthInBytes : Uint32) : M unit :=
  NULL_ASSERT renderPass "renderPass != NULL" ;;;
  CHECK_RENDERPASS renderPass (
  CHECK_GRAPHICS_PIPELINE_BOUND renderPass (
    let* dev := RENDERPASS_DEVICE renderPass in
    let* cb := RENDERPASS_COMMAND_BUFFER renderPass in
    call dev (PushFragmentUniformData cb slotIndex data dataLengthInBytes))).

Definition SDL_GpuDrawIndexedPrimitives (renderPass : ptr) 
    (baseVertex startIndex primitiveCount instanceCount : Uint32) : M unit :=
  NULL_ASSERT renderPass "renderPass != NULL" ;;;
  CHECK_RENDERPASS renderPass (
  CHECK_GRAPHICS_PIPELINE_BOUND renderPass (
    let* dev := RENDERPASS_DEVICE renderPass in
    let* cb := RENDERPASS_COMMAND_BUFFER renderPass in
    call dev (DrawIndexedPrimitives cb baseVertex startIndex primitiveCount
                instanceCount))).

Definition SDL_GpuDrawPrimitives (renderPass : ptr) 
    (vertexStart primitiveCount : Uint32) : M unit :=
  NULL_ASSERT renderPass "renderPass != NULL" ;;;
  CHECK_RENDERPASS renderPass (
  CHECK_GRAPHICS_PIPELINE_BOUND renderPass (
    let* dev := RENDERPASS_DEVICE renderPass in
    let* cb := RENDERPASS_COMMAND_BUFFER renderPass in
    call dev (DrawPrimitives cb vertexStart primitiveCount))).

Definition SDL_GpuDrawPrimitivesIndirect (renderPass : ptr) (buffer : ptr)
    (offsetInBytes drawCount stride : Uint32) : M unit :=
  NULL_ASSERT renderPass "renderPass != NULL" ;;;
  CHECK_RENDERPASS renderPass (
  CHECK_GRAPHICS_PIPELINE_BOUND renderPass (
    let* dev := RENDERPASS_DEVICE renderPass in
    let* cb := RENDERPASS_COMMAND_BUFFER renderPass in
    call dev
        (DrawPrimitivesIndirect cb buffer offsetInBytes drawCount stride))).

Definition SDL_GpuDrawIndexedPrimitivesIndirect (renderPass : ptr)
    (buffer : ptr)
    (offsetInBytes drawCount stride : Uint32) : M unit :=
  NULL_ASSERT renderPass "renderPass != NULL" ;;;
  CHECK_RENDERPASS renderPass (
  CHECK_GRAPHICS_PIPELINE_BOUND renderPass (
    let* dev := RENDERPASS_DEVICE renderPass in
    let* cb := RENDERPASS_COMMAND_BUFFER renderPass in
    call dev (DrawIndexedPrimitivesIndirect cb buffer offsetInBytes drawCount
                stride))).

Definition SDL_GpuEndRenderPass (renderPass : ptr) : M unit :=
  NULL_ASSERT renderPass "renderPass != NULL" ;;;
  CHECK_RENDERPASS renderPass (
    let* dev := RENDERPASS_DEVICE renderPass in
    let* cb := RENDERPASS_COMMAND_BUFFER renderPass in
    call dev (EndRenderPass cb) ;;;
    let* commandBufferCommonHeader := RENDERPASS_COMMAND_BUFFER renderPass in
    modify commandBufferCommonHeader (set_renderPass_inProgress false) ;;;
    modify commandBufferCommonHeader (set_graphicsPipelineBound false)).

(** ** Compute pass *)

Definition SDL_GpuBeginComputePass (commandBuffer storageTextureBindings : ptr)
    (storageTextureBindingCount : Uint32) (storageBufferBindings : ptr)
    (storageBufferBindingCount : Uint32) : M ptr :=
  CHECK_COMMAND_BUFFER_RETURN_NULL commandBuffer (
  CHECK_ANY_PASS_IN_PROGRESS commandBuffer (
    let* dev := COMMAND_BUFFER_DEVICE commandBuffer in
    call dev (BeginComputePass commandBuffer storageTextureBindings
                storageTextureBindingCount storageBufferBindings
                storageBufferBindingCount) ;;;
    modify commandBuffer (set_computePass_inProgress true) ;;;
    ret commandBuffer)).

Definition SDL_GpuBindComputePipeline (computePass computePipeline : ptr)
    : M unit :=
  NULL_ASSERT computePass "computePass != NULL" ;;;
  CHECK_COMPUTEPASS computePass (
    let* dev := COMPUTEPASS_DEVICE computePass in
    let* cb := COMPUTEPASS_COMMAND_BUFFER computePass in
    call dev (BindComputePipeline cb computePipeline) ;;;
    let* commandBufferHeader := COMPUTEPASS_COMMAND_BUFFER computePass in
    modify commandBufferHeader (set_computePipelineBound true)).

Definition SDL_GpuBindComputeStorageTextures (computePass : ptr)
    (firstSlot : Uint32)
    (storageTextureSlices : ptr) (bindingCount : Uint32) : M unit :=
  NULL_ASSERT computePass "computePass != NULL" ;;;
  CHECK_COMPUTEPASS computePass (
  CHECK_COMPUTE_PIPELINE_BOUND computePass (
    let* dev := COMPUTEPASS_DEVICE computePass in
    let* cb := COMPUTEPASS_COMMAND_BUFFER computePass in
    call dev (BindComputeStorageTextures cb firstSlot storageTextureSlices
                bindingCount))).

Definition SDL_GpuBindComputeStorageBuffers (computePass : ptr)
    (firstSlot : Uint32)
    (storageBuffers : ptr) (bindingCount : Uint32) : M unit :=
  NULL_ASSERT computePass "computePass != NULL" ;;;
  CHECK_COMPUTEPASS computePass (
  CHECK_COMPUTE_PIPELINE_BOUND computePass (
    let* dev := COMPUTEPASS_DEVICE computePass in
    let* cb := COMPUTEPASS_COMMAND_BUFFER computePass in
    call dev (BindComputeStorageBuffers cb firstSlot storageBuffers
                bindingCount))).

Definition SDL_GpuPushComputeUniformData (computePass : ptr)
    (slotIndex : Uint32) (data : ptr)
    (dataLengthInBytes : Uint32) : M unit :=
  NULL_ASSERT computePass "computePass != NULL" ;;;
  CHECK_COMPUTEPASS computePass (
  CHECK_COMPUTE_PIPELINE_BOUND computePass (
    let* dev := COMPUTEPASS_DEVICE computePass in
    let* cb := COMPUTEPASS_COMMAND_BUFFER computePass in
    call dev (PushComputeUniformData cb slotIndex data dataLengthInBytes))).

Definition SDL_GpuDispatchCompute (computePass : ptr) 
    (groupCountX groupCountY groupCountZ : Uint32) : M unit :=
  NULL_ASSERT computePass "computePass != NULL" ;;;
  CHECK_COMPUTEPASS computePass (
  CHECK_COMPUTE_PIPELINE_BOUND computePass (
    let* dev := COMPUTEPASS_DEVICE computePass in
    let* cb := COMPUTEPASS_COMMAND_BUFFER computePass in
    call dev (DispatchCompute cb groupCountX groupCountY groupCountZ))).

Definition SDL_GpuEndComputePass (computePass : ptr) : M unit :=
  NULL_ASSERT computePass "computePass != NULL" ;;;
  CHECK_COMPUTEPASS computePass (
    let* dev := COMPUTEPASS_DEVICE computePass in
    let* cb := COMPUTEPASS_COMMAND_BUFFER computePass in
    call dev (EndComputePass cb) ;;;
    let* commandBufferCommonHeader := COMPUTEPASS_COMMAND_BUFFER computePass in
    modify commandBufferCommonHeader (set_computePass_inProgress false) ;;;
    modify commandBufferCommonHeader (set_computePipelineBound false)).

(** ** Copy pass *)

Definition SDL_GpuBeginCopyPass (commandBuffer : ptr) : M ptr :=
  CHECK_COMMAND_BUFFER_RETURN_NULL commandBuffer (
  CHECK_ANY_PASS_IN_PROGRESS commandBuffer (
    let* dev := COMMAND_BUFFER_DEVICE commandBuffer in
    call dev (BeginCopyPass commandBuffer) ;;;
    modify commandBuffer (set_copyPass_inProgress true) ;;;
    ret commandBuffer)).

(** The one transfer that carries [CHECK_COPYPASS]. *)
Definition SDL_GpuUploadToTexture (copyPass transferBuffer textureRegion
    copyParams : ptr) (cycle : SDL_bool) : M unit :=
  NULL_ASSERT copyPass "copyPass != NULL" ;;;
  CHECK_COPYPASS copyPass (
    let* dev := COPYPASS_DEVICE copyPass in
    let* cb := COPYPASS_COMMAND_BUFFER copyPass in
    call dev (UploadToTexture cb transferBuffer textureRegion copyParams
                cycle)).

Definition SDL_GpuUploadToBuffer (copyPass : ptr)
    (transferBuffer buffer copyParams : ptr)
    (cycle : SDL_bool) : M unit :=
  NULL_ASSERT copyPass "copyPass != NULL" ;;;
  let* dev := COPYPASS_DEVICE copyPass in
  let* cb := COPYPASS_COMMAND_BUFFER copyPass in
  call dev (UploadToBuffer cb transferBuffer buffer copyParams cycle).

Definition SDL_GpuCopyTextureToTexture (copyPass : ptr)
    (source destination : ptr)
    (cycle : SDL_bool) : M unit :=
  NULL_ASSERT copyPass "copyPass != NULL" ;;;
  let* dev := COPYPASS_DEVICE copyPass in
  let* cb := COPYPASS_COMMAND_BUFFER copyPass in
  call dev (CopyTextureToTexture cb source destination cycle).

Definition SDL_GpuCopyBufferToBuffer (copyPass : ptr)
    (source destination copyParams : ptr)
    (cycle : SDL_bool) : M unit :=
  NULL_ASSERT copyPass "copyPass != NULL" ;;;
  let* dev := COPYPASS_DEVICE copyPass in
  let* cb := COPYPASS_COMMAND_BUFFER copyPass in
  call dev (CopyBufferToBuffer cb source destination copyParams cycle).

Definition SDL_GpuGenerateMipmaps (copyPass : ptr) (texture : ptr) : M unit :=
  NULL_ASSERT copyPass "copyPass != NULL" ;;;
  let* dev := COPYPASS_DEVICE copyPass in
  let* cb := COPYPASS_COMMAND_BUFFER copyPass in
  call dev (GenerateMipmaps cb texture).

Definition SDL_GpuDownloadFromTexture (copyPass : ptr)
    (textureRegion transferBuffer copyParams : ptr) : M unit :=
  NULL_ASSERT copyPass "copyPass != NULL" ;;;
  let* dev := COPYPASS_DEVICE copyPass in
  let* cb := COPYPASS_COMMAND_BUFFER copyPass in
  call dev (DownloadFromTexture cb textureRegion transferBuffer copyParams).

Definition SDL_GpuDownloadFromBuffer (copyPass : ptr)
    (buffer transferBuffer copyParams : ptr) : M unit :=
  NULL_ASSERT copyPass "copyPass != NULL" ;;;
  let* dev := COPYPASS_DEVICE copyPass in
  let* cb := COPYPASS_COMMAND_BUFFER copyPass in
  call dev (DownloadFromBuffer cb buffer transferBuffer copyParams).

Definition SDL_GpuEndCopyPass (copyPass : ptr) : M unit :=
  NULL_ASSERT copyPass "copyPass != NULL" ;;;
  CHECK_COPYPASS copyPass (
    let* dev := COPYPASS_DEVICE copyPass in
    let* cb := COPYPASS_COMMAND_BUFFER copyPass in
    call dev (EndCopyPass cb) ;;;
    let* header := COPYPASS_COMMAND_BUFFER copyPass in
    modify header (set_copyPass_inProgress false)).

Definition SDL_GpuBlit (commandBuffer source destination : ptr)
    (filterMode : Z) (cycle : SDL_bool) : M unit :=
  CHECK_COMMAND_BUFFER commandBuffer (
    let* dev := COMMAND_BUFFER_DEVICE commandBuffer in
    call dev (Blit commandBuffer source destination filterMode cycle)).

(** ** Submission *)

(** The ten assignments of [SDL_GpuAcquireCommandBuffer]: they write every
    member of the header. *)
Definition fresh_header (dev : option SDL_GpuDevice) (cb : ptr)
    : CommandBufferCommonHeader :=
  {| device := dev;
     renderPass := {| commandBuffer := cb; inProgress := false |};
     graphicsPipelineBound := false;
     computePass := {| commandBuffer := cb; inProgress := false |};
     computePipelineBound := false;
     copyPass := {| commandBuffer := cb; inProgress := false |};
     submitted := false |}.

(** The header is the head of the block the backend returned, whatever
    that memory held before. *)
Definition init_header (a : N) (dev : option SDL_GpuDevice) : M unit :=
  fun s => Ok tt {| world := world s;
                    heap := <[a := fresh_header dev (Some a)]> (heap s);
                    trace := trace s |}.

Definition SDL_GpuAcquireCommandBuffer (device : option SDL_GpuDevice) : M ptr
    :=
  NULL_ASSERT device "device != NULL" ;;;
  let* dev := deref device in
  let* commandBuffer := call dev (AcquireCommandBuffer (driverData dev)) in
  match commandBuffer with
  | None => ret None
  | Some a => init_header a device ;;; ret commandBuffer
  end.

Definition SDL_GpuAcquireSwapchainTexture (commandBuffer window pWidth
    pHeight : ptr) : M ptr :=
  CHECK_COMMAND_BUFFER_RETURN_NULL commandBuffer (
    let* dev := COMMAND_BUFFER_DEVICE commandBuffer in
    call dev (AcquireSwapchainTexture commandBuffer window pWidth pHeight)).

Definition SDL_GpuSubmit (commandBuffer : ptr) : M unit :=
  CHECK_COMMAND_BUFFER commandBuffer (
    let* commandBufferHeader := load commandBuffer in
    if inProgress (renderPass commandBufferHeader)
       || inProgress (computePass commandBufferHeader)
       || inProgress (copyPass commandBufferHeader)
    then SDL_LogError
           "Cannot submit command buffer while a pass is in progress!"
    else
      modify commandBuffer (set_submitted true) ;;;
      let* dev := COMMAND_BUFFER_DEVICE commandBuffer in
      call dev (Submit commandBuffer)).

Definition SDL_GpuSubmitAndAcquireFence (commandBuffer : ptr) : M ptr :=
  CHECK_COMMAND_BUFFER_RETURN_NULL commandBuffer (
    let* commandBufferHeader := load commandBuffer in
    if inProgress (renderPass commandBufferHeader)
       || inProgress (computePass commandBufferHeader)
       || inProgress (copyPass commandBufferHeader)
    then
      SDL_LogError
        "Cannot submit command buffer while a pass is in progress!" ;;;
      ret None
    else
      modify commandBuffer (set_submitted true) ;;;
      let* dev := COMMAND_BUFFER_DEVICE commandBuffer in
      call dev (SubmitAndAcquireFence commandBuffer)).

Definition SDL_GpuReleaseFence (device : option SDL_GpuDevice) (fence : ptr)
    : M unit :=
  NULL_ASSERT device "device != NULL" ;;;
  let* dev := deref device in
  call dev (ReleaseFence (driverData dev) fence).

Definition SDL_GpuOcclusionQueryBegin (commandBuffer query : ptr) : M unit :=
  NULL_ASSERT commandBuffer "commandBuffer != NULL" ;;;
  let* dev := COMMAND_BUFFER_DEVICE commandBuffer in
  call dev (OcclusionQueryBegin commandBuffer query).

Definition SDL_GpuOcclusionQueryEnd (commandBuffer query : ptr) : M unit :=
  NULL_ASSERT commandBuffer "commandBuffer != NULL" ;;;
  let* dev := COMMAND_BUFFER_DEVICE commandBuffer in
  call dev (OcclusionQueryEnd commandBuffer query).

(** ** Backend selection and device creation *)

(** [struct SDL_GpuDriver]: an entry of the registry. *)
Record SDL_GpuDriver := {
  Name : string;
  backendflag : SDL_GpuBackend;
  PrepareDriver : World -> bool * World;
  CreateDevice : SDL_bool -> World -> option SDL_GpuDevice * World
}.

(** The registry [backends[]] (its members depend on the build), the hint
    table read by [SDL_GetHint] and the library's [SDL_strcasecmp]. *)
Context (backends : list SDL_GpuDriver).
Context (SDL_GetHint : string -> option string).
Context (SDL_strcasecmp : string -> string -> Z).

(** [backends[i]->PrepareDriver()] *)
Definition prepare (b : SDL_GpuDriver) : M bool :=
  fun s => let r := PrepareDriver b (world s) in
           Ok (fst r) {| world := snd r; heap := heap s;
                         trace := trace s ++ [EvPrepareDriver (Name b)
                             (fst r)] |}.

(** [backends[i]->CreateDevice(debugMode)] *)
Definition create (b : SDL_GpuDriver) (debugMode : SDL_bool)
    : M (option SDL_GpuDevice) :=
  fun s => let r := CreateDevice b debugMode (world s) in
           Ok (fst r) {| world := snd r; heap := heap s;
                         trace := trace s ++ [EvCreateDevice (Name b)
                             debugMode] |}.

(** The loop shared by the three strategies of [SDL_GpuSelectBackend]:
    [for (i = 0; backends[i]; i += 1)
       if (eligible && backends[i]->PrepareDriver())
         return backends[i]->backendflag;]
    with [None] for falling out of the loop.  The probe runs only on an
    eligible entry ([&&] is lazy). *)
Fixpoint first_prepared (eligible : SDL_GpuDriver -> bool)
    (bs : list SDL_GpuDriver) : M (option SDL_GpuBackend) :=
  match bs with
  | [] => ret None
  | b :: rest =>
      if eligible b
      then let* ok := prepare b in
           if ok then ret (Some (backendflag b))
           else first_prepared eligible rest
      else first_prepared eligible rest
  end.

(** [SDL_strcasecmp(gpudriver, backends[i]->Name) == 0] *)
Definition named (gpudriver : string) (b : SDL_GpuDriver) : bool :=
  SDL_strcasecmp gpudriver (Name b) =? 0.

(** [preferredBackends & backends[i]->backendflag] *)
Definition preferred (preferredBackends : SDL_GpuBackend) (b : SDL_GpuDriver)
    : bool :=
  negb (Z.land preferredBackends (backendflag b) =? 0).

Definition SDL_GpuSelectBackend (preferredBackends : SDL_GpuBackend)
    : M SDL_GpuBackend :=
  match SDL_GetHint "SDL_HINT_GPU_BACKEND" with
  | Some gpudriver =>
      (* Environment override... *)
      let* found := first_prepared (named gpudriver) backends in
      match found with
      | Some flag => ret flag
      | None =>
          SDL_LogError ("SDL_HINT_GPU_BACKEND " ++ gpudriver ++ " unsupported!") ;;;
          ret SDL_GPU_BACKEND_INVALID
      end
  | None =>
      (* Preferred backends... *)
      let* found :=
        (if negb (preferredBackends =? SDL_GPU_BACKEND_INVALID)
         then
           let* found := first_prepared (preferred preferredBackends) backends
               in
           match found with
           | Some flag => ret (Some flag)
           | None =>
               SDL_LogWarn "No preferred SDL_Gpu backend found!" [] ;;;
               ret None
           end
         else ret None) in
      match found with
      | Some flag => ret flag
      | None =>
          (* ... Fallback backends *)
          let* found := first_prepared (fun _ => true) backends in
          match found with
          | Some flag => ret flag
          | None =>
              SDL_LogError "No supported SDL_Gpu backend found!" ;;;
              ret SDL_GPU_BACKEND_INVALID
          end
      end
  end.

(** [result->backend = backends[i]->backendflag] *)
Definition set_backend (d : SDL_GpuDevice) (flag : SDL_GpuBackend)
    : SDL_GpuDevice :=
  {| backend := flag; driverData := driverData d; driver := driver d |}.

(** The loop of [SDL_GpuCreateDevice] over the registry. *)
Fixpoint create_selected (selectedBackend : SDL_GpuBackend)
    (debugMode : SDL_bool) (bs : list SDL_GpuDriver)
    : M (option SDL_GpuDevice) :=
  match bs with
  | [] => ret None
  | b :: rest =>
      if backendflag b =? selectedBackend
      then let* result := create b debugMode in
           match result with
           | Some d => ret (Some (set_backend d (backendflag b)))
           | None => create_selected selectedBackend debugMode rest
           end
      else create_selected selectedBackend debugMode rest
  end.

Definition SDL_GpuCreateDevice (preferredBackends : SDL_GpuBackend)
    (debugMode : SDL_bool) : M (option SDL_GpuDevice) :=
  let* selectedBackend := SDL_GpuSelectBackend preferredBackends in
  if negb (selectedBackend =? SDL_GPU_BACKEND_INVALID)
  then create_selected selectedBackend debugMode backends
  else ret None.

(** ** The calls of the API, as data

    The operations that only differ in the arguments they hand through are
    grouped by the guard they run: the pipeline-gated calls of a render
    pass and of a compute pass, the transfers of a copy pass, and the
    create/release calls on a device. *)

Inductive RenderOp :=
| OpBindVertexBuffers (firstBinding : Uint32) (pBindings : ptr)
    (bindingCount : Uint32)
| OpBindIndexBuffer (pBinding : ptr) (indexElementSize : Z)
| OpBindVertexSamplers (firstSlot : Uint32) (textureSamplerBindings : ptr)
    (bindingCount : Uint32)
| OpBindVertexStorageTextures (firstSlot : Uint32)
    (storageTextureSlices : ptr) (bindingCount : Uint32)
| OpBindVertexStorageBuffers (firstSlot : Uint32) (storageBuffers : ptr)
    (bindingCount : Uint32)
| OpBindFragmentSamplers (firstSlot : Uint32) (textureSamplerBindings : ptr)
    (bindingCount : Uint32)
| OpBindFragmentStorageTextures (firstSlot : Uint32)
    (storageTextureSlices : ptr) (bindingCount : Uint32)
| OpBindFragmentStorageBuffers (firstSlot : Uint32) (storageBuffers : ptr)
    (bindingCount : Uint32)
| OpPushVertexUniformData (slotIndex : Uint32) (data : ptr)
    (dataLengthInBytes : Uint32)
| OpPushFragmentUniformData (slotIndex : Uint32) (data : ptr)
    (dataLengthInBytes : Uint32)
| OpDrawIndexedPrimitives
    (baseVertex startIndex primitiveCount instanceCount : Uint32)
| OpDrawPrimitives (vertexStart primitiveCount : Uint32)
| OpDrawPrimitivesIndirect (buffer : ptr)
    (offsetInBytes drawCount stride : Uint32)
| OpDrawIndexedPrimitivesIndirect (buffer : ptr)
    (offsetInBytes drawCount stride : Uint32).

Definition run_render (renderPass : ptr) (op : RenderOp) : M unit :=
  match op with
  | OpBindVertexBuffers firstBinding pBindings bindingCount =>
      SDL_GpuBindVertexBuffers renderPass firstBinding pBindings bindingCount
  | OpBindIndexBuffer pBinding indexElementSize =>
      SDL_GpuBindIndexBuffer renderPass pBinding indexElementSize
  | OpBindVertexSamplers firstSlot textureSamplerBindings bindingCount =>
      SDL_GpuBindVertexSamplers renderPass firstSlot textureSamplerBindings
          bindingCount
  | OpBindVertexStorageTextures firstSlot storageTextureSlices bindingCount =>
      SDL_GpuBindVertexStorageTextures renderPass firstSlot
          storageTextureSlices bindingCount
  | OpBindVertexStorageBuffers firstSlot storageBuffers bindingCount =>
      SDL_GpuBindVertexStorageBuffers renderPass firstSlot storageBuffers
          bindingCount
  | OpBindFragmentSamplers firstSlot textureSamplerBindings bindingCount =>
      SDL_GpuBindFragmentSamplers renderPass firstSlot textureSamplerBindings
          bindingCount
  | OpBindFragmentStorageTextures firstSlot storageTextureSlices bindingCount =>
      SDL_GpuBindFragmentStorageTextures renderPass firstSlot
          storageTextureSlices bindingCount
  | OpBindFragmentStorageBuffers firstSlot storageBuffers bindingCount =>
      SDL_GpuBindFragmentStorageBuffers renderPass firstSlot storageBuffers
          bindingCount
  | OpPushVertexUniformData slotIndex data dataLengthInBytes =>
      SDL_GpuPushVertexUniformData renderPass slotIndex data dataLengthInBytes
  | OpPushFragmentUniformData slotIndex data dataLengthInBytes =>
      SDL_GpuPushFragmentUniformData renderPass slotIndex data dataLengthInBytes
  | OpDrawIndexedPrimitives baseVertex startIndex primitiveCount instanceCount
      =>
      SDL_GpuDrawIndexedPrimitives renderPass baseVertex startIndex
          primitiveCount instanceCount
  | OpDrawPrimitives vertexStart primitiveCount =>
      SDL_GpuDrawPrimitives renderPass vertexStart primitiveCount
  | OpDrawPrimitivesIndirect buffer offsetInBytes drawCount stride =>
      SDL_GpuDrawPrimitivesIndirect renderPass buffer offsetInBytes drawCount
          stride
  | OpDrawIndexedPrimitivesIndirect buffer offsetInBytes drawCount stride =>
      SDL_GpuDrawIndexedPrimitivesIndirect renderPass buffer offsetInBytes
          drawCount stride
  end.

(** The entry of the function table a gated render call forwards to. *)
Definition render_call (cb : ptr) (op : RenderOp) : DriverCall Blob unit :=
  match op with
  | OpBindVertexBuffers firstBinding pBindings bindingCount =>
      BindVertexBuffers cb firstBinding pBindings bindingCount
  | OpBindIndexBuffer pBinding indexElementSize =>
      BindIndexBuffer cb pBinding indexElementSize
  | OpBindVertexSamplers firstSlot textureSamplerBindings bindingCount =>
      BindVertexSamplers cb firstSlot textureSamplerBindings bindingCount
  | OpBindVertexStorageTextures firstSlot storageTextureSlices bindingCount =>
      BindVertexStorageTextures cb firstSlot storageTextureSlices bindingCount
  | OpBindVertexStorageBuffers firstSlot storageBuffers bindingCount =>
      BindVertexStorageBuffers cb firstSlot storageBuffers bindingCount
  | OpBindFragmentSamplers firstSlot textureSamplerBindings bindingCount =>
      BindFragmentSamplers cb firstSlot textureSamplerBindings bindingCount
  | OpBindFragmentStorageTextures firstSlot storageTextureSlices bindingCount =>
      BindFragmentStorageTextures cb firstSlot storageTextureSlices bindingCount
  | OpBindFragmentStorageBuffers firstSlot storageBuffers bindingCount =>
      BindFragmentStorageBuffers cb firstSlot storageBuffers bindingCount
  | OpPushVertexUniformData slotIndex data dataLengthInBytes =>
      PushVertexUniformData cb slotIndex data dataLengthInBytes
  | OpPushFragmentUniformData slotIndex data dataLengthInBytes =>
      PushFragmentUniformData cb slotIndex data dataLengthInBytes
  | OpDrawIndexedPrimitives baseVertex startIndex primitiveCount instanceCount
      =>
      DrawIndexedPrimitives cb baseVertex startIndex primitiveCount
          instanceCount
  | OpDrawPrimitives vertexStart primitiveCount =>
      DrawPrimitives cb vertexStart primitiveCount
  | OpDrawPrimitivesIndirect buffer offsetInBytes drawCount stride =>
      DrawPrimitivesIndirect cb buffer offsetInBytes drawCount stride
  | OpDrawIndexedPrimitivesIndirect buffer offsetInBytes drawCount stride =>
      DrawIndexedPrimitivesIndirect cb buffer offsetInBytes drawCount stride
  end.

Inductive ComputeOp :=
| OpBindComputeStorageTextures (firstSlot : Uint32)
    (storageTextureSlices : ptr) (bindingCount : Uint32)
| OpBindComputeStorageBuffers (firstSlot : Uint32) (storageBuffers : ptr)
    (bindingCount : Uint32)
| OpPushComputeUniformData (slotIndex : Uint32) (data : ptr)
    (dataLengthInBytes : Uint32)
| OpDispatchCompute (groupCountX groupCountY groupCountZ : Uint32).

Definition run_compute (computePass : ptr) (op : ComputeOp) : M unit :=
  match op with
  | OpBindComputeStorageTextures firstSlot storageTextureSlices bindingCount =>
      SDL_GpuBindComputeStorageTextures computePass firstSlot
          storageTextureSlices bindingCount
  | OpBindComputeStorageBuffers firstSlot storageBuffers bindingCount =>
      SDL_GpuBindComputeStorageBuffers computePass firstSlot storageBuffers
          bindingCount
  | OpPushComputeUniformData slotIndex data dataLengthInBytes =>
      SDL_GpuPushComputeUniformData computePass slotIndex data dataLengthInBytes
  | OpDispatchCompute groupCountX groupCountY groupCountZ =>
      SDL_GpuDispatchCompute computePass groupCountX groupCountY groupCountZ
  end.

Definition compute_call (cb : ptr) (op : ComputeOp) : DriverCall Blob unit :=
  match op with
  | OpBindComputeStorageTextures firstSlot storageTextureSlices bindingCount =>
      BindComputeStorageTextures cb firstSlot storageTextureSlices bindingCount
  | OpBindComputeStorageBuffers firstSlot storageBuffers bindingCount =>
      BindComputeStorageBuffers cb firstSlot storageBuffers bindingCount
  | OpPushComputeUniformData slotIndex data dataLengthInBytes =>
      PushComputeUniformData cb slotIndex data dataLengthInBytes
  | OpDispatchCompute groupCountX groupCountY groupCountZ =>
      DispatchCompute cb groupCountX groupCountY groupCountZ
  end.

Inductive CopyOp :=
| OpUploadToTexture (transferBuffer textureRegion copyParams : ptr)
    (cycle : SDL_bool)
| OpUploadToBuffer (transferBuffer buffer copyParams : ptr) (cycle : SDL_bool)
| OpCopyTextureToTexture (source destination : ptr) (cycle : SDL_bool)
| OpCopyBufferToBuffer (source destination copyParams : ptr)
    (cycle : SDL_bool)
| OpGenerateMipmaps (texture : ptr)
| OpDownloadFromTexture (textureRegion transferBuffer copyParams : ptr)
| OpDownloadFromBuffer (buffer transferBuffer copyParams : ptr).

Definition run_copy (copyPass : ptr) (op : CopyOp) : M unit :=
  match op with
  | OpUploadToTexture transferBuffer textureRegion copyParams cycle =>
      SDL_GpuUploadToTexture copyPass transferBuffer textureRegion copyParams
          cycle
  | OpUploadToBuffer transferBuffer buffer copyParams cycle =>
      SDL_GpuUploadToBuffer copyPass transferBuffer buffer copyParams cycle
  | OpCopyTextureToTexture source destination cycle =>
      SDL_GpuCopyTextureToTexture copyPass source destination cycle
  | OpCopyBufferToBuffer source destination copyParams cycle =>
      SDL_GpuCopyBufferToBuffer copyPass source destination copyParams cycle
  | OpGenerateMipmaps texture =>
      SDL_GpuGenerateMipmaps copyPass texture
  | OpDownloadFromTexture textureRegion transferBuffer copyParams =>
      SDL_GpuDownloadFromTexture copyPass textureRegion transferBuffer
          copyParams
  | OpDownloadFromBuffer buffer transferBuffer copyParams =>
      SDL_GpuDownloadFromBuffer copyPass buffer transferBuffer copyParams
  end.

Definition copy_call (cb : ptr) (op : CopyOp) : DriverCall Blob unit :=
  match op with
  | OpUploadToTexture transferBuffer textureRegion copyParams cycle =>
      UploadToTexture cb transferBuffer textureRegion copyParams cycle
  | OpUploadToBuffer transferBuffer buffer copyParams cycle =>
      UploadToBuffer cb transferBuffer buffer copyParams cycle
  | OpCopyTextureToTexture source destination cycle =>
      CopyTextureToTexture cb source destination cycle
  | OpCopyBufferToBuffer source destination copyParams cycle =>
      CopyBufferToBuffer cb source destination copyParams cycle
  | OpGenerateMipmaps texture =>
      GenerateMipmaps cb texture
  | OpDownloadFromTexture textureRegion transferBuffer copyParams =>
      DownloadFromTexture cb textureRegion transferBuffer copyParams
  | OpDownloadFromBuffer buffer transferBuffer copyParams =>
      DownloadFromBuffer cb buffer transferBuffer copyParams
  end.

(** Forget the value a call returns. *)
Definition discard {A} (m : M A) : M unit := let* _ := m in ret tt.

Inductive ResourceOp :=
| OpCreateComputePipeline (computePipelineCreateInfo : ptr)
| OpCreateGraphicsPipeline
    (graphicsPipelineCreateInfo : SDL_GpuGraphicsPipelineCreateInfo Blob)
| OpCreateSampler (samplerStateInfo : ptr)
| OpCreateShader (shaderCreateInfo : SDL_GpuShaderCreateInfo)
| OpCreateTexture (textureCreateInfo : SDL_GpuTextureCreateInfo Blob)
| OpCreateBuffer (usageFlags : Z) (sizeInBytes : Uint32)
| OpCreateTransferBuffer (usage mapFlags : Z) (sizeInBytes : Uint32)
| OpCreateOcclusionQuery
| OpReleaseTexture (texture : ptr)
| OpReleaseSampler (sampler : ptr)
| OpReleaseBuffer (buffer : ptr)
| OpReleaseTransferBuffer (transferBuffer : ptr)
| OpReleaseShader (shader : ptr)
| OpReleaseComputePipeline (computePipeline : ptr)
| OpReleaseGraphicsPipeline (graphicsPipeline : ptr)
| OpReleaseOcclusionQuery (query : ptr)
| OpReleaseFence (fence : ptr).

Definition run_resource (device : option SDL_GpuDevice) (op : ResourceOp)
    : M unit :=
  match op with
  | OpCreateComputePipeline computePipelineCreateInfo =>
      discard (SDL_GpuCreateComputePipeline device computePipelineCreateInfo)
  | OpCreateGraphicsPipeline graphicsPipelineCreateInfo =>
      discard (SDL_GpuCreateGraphicsPipeline device graphicsPipelineCreateInfo)
  | OpCreateSampler samplerStateInfo =>
      discard (SDL_GpuCreateSampler device samplerStateInfo)
  | OpCreateShader shaderCreateInfo =>
      discard (SDL_GpuCreateShader device shaderCreateInfo)
  | OpCreateTexture textureCreateInfo =>
      discard (SDL_GpuCreateTexture device textureCreateInfo)
  | OpCreateBuffer usageFlags sizeInBytes =>
      discard (SDL_GpuCreateBuffer device usageFlags sizeInBytes)
  | OpCreateTransferBuffer usage mapFlags sizeInBytes =>
      discard (SDL_GpuCreateTransferBuffer device usage mapFlags sizeInBytes)
  | OpCreateOcclusionQuery =>
      discard (SDL_GpuCreateOcclusionQuery device)
  | OpReleaseTexture texture =>
      SDL_GpuReleaseTexture device texture
  | OpReleaseSampler sampler =>
      SDL_GpuReleaseSampler device sampler
  | OpReleaseBuffer buffer =>
      SDL_GpuReleaseBuffer device buffer
  | OpReleaseTransferBuffer transferBuffer =>
      SDL_GpuReleaseTransferBuffer device transferBuffer
  | OpReleaseShader shader =>
      SDL_GpuReleaseShader device shader
  | OpReleaseComputePipeline computePipeline =>
      SDL_GpuReleaseComputePipeline device computePipeline
  | OpReleaseGraphicsPipeline graphicsPipeline =>
      SDL_GpuReleaseGraphicsPipeline device graphicsPipeline
  | OpReleaseOcclusionQuery query =>
      SDL_GpuReleaseOcclusionQuery device query
  | OpReleaseFence fence =>
      SDL_GpuReleaseFence device fence
  end.

Inductive ApiCall :=
| ApiAcquireCommandBuffer (device : option SDL_GpuDevice)
| ApiBeginRenderPass (commandBuffer colorAttachmentInfos : ptr)
    (colorAttachmentCount : Uint32) (depthStencilAttachmentInfo : ptr)
| ApiBindGraphicsPipeline (renderPass graphicsPipeline : ptr)
| ApiSetViewport (renderPass viewport : ptr)
| ApiSetScissor (renderPass scissor : ptr)
| ApiRender (renderPass : ptr) (op : RenderOp)
| ApiEndRenderPass (renderPass : ptr)
| ApiBeginComputePass (commandBuffer storageTextureBindings : ptr)
    (storageTextureBindingCount : Uint32) (storageBufferBindings : ptr)
    (storageBufferBindingCount : Uint32)
| ApiBindComputePipeline (computePass computePipeline : ptr)
| ApiCompute (computePass : ptr) (op : ComputeOp)
| ApiEndComputePass (computePass : ptr)
| ApiBeginCopyPass (commandBuffer : ptr)
| ApiCopy (copyPass : ptr) (op : CopyOp)
| ApiEndCopyPass (copyPass : ptr)
| ApiSetStringMarker (commandBuffer : ptr) (text : string)
| ApiBlit (commandBuffer source destination : ptr) (filterMode : Z)
    (cycle : SDL_bool)
| ApiAcquireSwapchainTexture (commandBuffer window pWidth pHeight : ptr)
| ApiSubmit (commandBuffer : ptr)
| ApiSubmitAndAcquireFence (commandBuffer : ptr)
| ApiOcclusionQueryBegin (commandBuffer query : ptr)
| ApiOcclusionQueryEnd (commandBuffer query : ptr)
| ApiResource (device : option SDL_GpuDevice) (op : ResourceOp).

(** One call of the API, its result dropped. *)
Definition exec (c : ApiCall) : M unit :=
  match c with
  | ApiAcquireCommandBuffer device =>
      discard
        (SDL_GpuAcquireCommandBuffer device)
  | ApiBeginRenderPass commandBuffer colorAttachmentInfos colorAttachmentCount
      depthStencilAttachmentInfo =>
      discard
        (SDL_GpuBeginRenderPass commandBuffer colorAttachmentInfos
         colorAttachmentCount depthStencilAttachmentInfo)
  | ApiBindGraphicsPipeline renderPass graphicsPipeline =>
      SDL_GpuBindGraphicsPipeline renderPass graphicsPipeline
  | ApiSetViewport renderPass viewport =>
      SDL_GpuSetViewport renderPass viewport
  | ApiSetScissor renderPass scissor =>
      SDL_GpuSetScissor renderPass scissor
  | ApiRender renderPass op =>
      run_render renderPass op
  | ApiEndRenderPass renderPass =>
      SDL_GpuEndRenderPass renderPass
  | ApiBeginComputePass commandBuffer storageTextureBindings
      storageTextureBindingCount storageBufferBindings
      storageBufferBindingCount =>
      discard
        (SDL_GpuBeginComputePass commandBuffer storageTextureBindings
         storageTextureBindingCount storageBufferBindings
         storageBufferBindingCount)
  | ApiBindComputePipeline computePass computePipeline =>
      SDL_GpuBindComputePipeline computePass computePipeline
  | ApiCompute computePass op =>
      run_compute computePass op
  | ApiEndComputePass computePass =>
      SDL_GpuEndComputePass computePass
  | ApiBeginCopyPass commandBuffer =>
      discard
        (SDL_GpuBeginCopyPass commandBuffer)
  | ApiCopy copyPass op =>
      run_copy copyPass op
  | ApiEndCopyPass copyPass =>
      SDL_GpuEndCopyPass copyPass
  | ApiSetStringMarker commandBuffer text =>
      SDL_GpuSetStringMarker commandBuffer text
  | ApiBlit commandBuffer source destination filterMode cycle =>
      SDL_GpuBlit commandBuffer source destination filterMode cycle
  | ApiAcquireSwapchainTexture commandBuffer window pWidth pHeight =>
      discard
        (SDL_GpuAcquireSwapchainTexture commandBuffer window pWidth pHeight)
  | ApiSubmit commandBuffer =>
      SDL_GpuSubmit commandBuffer
  | ApiSubmitAndAcquireFence commandBuffer =>
      discard
        (SDL_GpuSubmitAndAcquireFence commandBuffer)
  | ApiOcclusionQueryBegin commandBuffer query =>
      SDL_GpuOcclusionQueryBegin commandBuffer query
  | ApiOcclusionQueryEnd commandBuffer query =>
      SDL_GpuOcclusionQueryEnd commandBuffer query
  | ApiResource device op =>
      run_resource device op
  end.

(** The states a client can drive the library into: from an empty heap, by
    any calls that return. *)
Inductive reachable : State -> Prop :=
| reachable_init (w : World) :
    reachable {| world := w; heap := ∅; trace := [] |}
| reachable_step (s s' : State) (c : ApiCall) :
    reachable s -> exec c s = Ok tt s' -> reachable s'.

(** How many of the three passes of a command buffer are in progress. *)
Definition passes_in_progress (h : CommandBufferCommonHeader) : nat :=
  (if inProgress (renderPass h) then 1 else 0)
  + (if inProgress (computePass h) then 1 else 0)
  + (if inProgress (copyPass h) then 1 else 0).

(** [CHECK_ANY_PASS_IN_PROGRESS], as a value. *)
Definition any_pass_in_progress (h : CommandBufferCommonHeader) : bool :=
  inProgress (renderPass h) || inProgress (computePass h)
  || inProgress (copyPass h).

(** A command buffer as [SDL_GpuAcquireCommandBuffer] leaves it and as
    every later call keeps it: it belongs to a device and its three pass
    trackers point back at it. *)
Definition acquired (s : State) (a : N) (h : CommandBufferCommonHeader)
    (dev : SDL_GpuDevice) : Prop :=
  heap s !! a = Some h
  /\ device h = Some dev
  /\ commandBuffer (renderPass h) = Some a
  /\ commandBuffer (computePass h) = Some a
  /\ commandBuffer (copyPass h) = Some a.

(** The state in which the header at [a] is [h]. *)
Definition with_header (a : N) (h : CommandBufferCommonHeader) (s : State)
    : State :=
  {| world := world s; heap := <[a := h]> (heap s); trace := trace s |}.

(** Only [SDL_GpuUploadToTexture] asks whether the copy pass is in
    progress. *)
Definition copy_checked (op : CopyOp) : bool :=
  match op with
  | OpUploadToTexture _ _ _ _ => true
  | _ => false
  end.

(** The three passes of a command buffer. *)
Inductive PassKind :=
| Render
| Compute
| Copy.

#[global]
Instance PassKind_eq_dec : EqDecision PassKind.
Proof. solve_decision. Defined.

(** The tracker of a pass in the header. *)
Definition tracker (k : PassKind) (h : CommandBufferCommonHeader) : Pass :=
  match k with
  | Render => renderPass h
  | Compute => computePass h
  | Copy => copyPass h
  end.

(** ** Headers, member by member

    What a call leaves in a header is stated on the members of the
    header, not through the assignments of the code. *)

(** [h'] is [h] with the in-progress flag of pass [k] at [b]; every other
    member is as it was. *)
Definition flagged (k : PassKind) (b : SDL_bool)
    (h h' : CommandBufferCommonHeader) : Prop :=
  inProgress (tracker k h') = b
  /\ (forall k', k' <> k ->
        inProgress (tracker k' h') = inProgress (tracker k' h))
  /\ (forall k', commandBuffer (tracker k' h') = commandBuffer (tracker k' h))
  /\ device h' = device h
  /\ graphicsPipelineBound h' = graphicsPipelineBound h
  /\ computePipelineBound h' = computePipelineBound h
  /\ submitted h' = submitted h.

(** [h'] is [h] with the submitted flag set; every other member is as it
    was. *)
Definition marked_submitted (h h' : CommandBufferCommonHeader) : Prop :=
  submitted h' = true
  /\ device h' = device h
  /\ renderPass h' = renderPass h
  /\ graphicsPipelineBound h' = graphicsPipelineBound h
  /\ computePass h' = computePass h
  /\ computePipelineBound h' = computePipelineBound h
  /\ copyPass h' = copyPass h.

(** A header after its frame: submitted, with no pass in progress and no
    gate set, owned by [dev] and with its trackers pointing at [a]. *)
Definition retired (dev : SDL_GpuDevice) (a : N)
    (h : CommandBufferCommonHeader) : Prop :=
  submitted h = true
  /\ inProgress (renderPass h) = false
  /\ inProgress (computePass h) = false
  /\ inProgress (copyPass h) = false
  /\ graphicsPipelineBound h = false
  /\ computePipelineBound h = false
  /\ device h = Some dev
  /\ commandBuffer (renderPass h) = Some a
  /\ commandBuffer (computePass h) = Some a
  /\ commandBuffer (copyPass h) = Some a.

(** The outcome of a begin-pass call that went through.  The entry [c] of
    [dev] was answered over the headers as the call found them, the flag
    of pass [k] not yet set; then the flag was set in the header at [a],
    and [a] is the handle returned. *)
Definition begins (k : PassKind) (dev : SDL_GpuDevice) (a : N)
    (h : CommandBufferCommonHeader) (c : DriverCall Blob unit) (s : State)
    (outcome : Outcome ptr) : Prop :=
  exists s' h',
    outcome = Ok (Some a) s'
    /\ world s' = snd (driver dev _ c (headers s) (world s))
    /\ trace s' = (trace s ++ [EvCall dev c tt])%list
    /\ heap s' = <[a := h']> (heap s)
    /\ flagged k true h h'.

(** The outcome of a submission that went through, [r] being what the
    call returns.  The submitted flag was set in the header at [a] first;
    then the entry [c] of [dev] was answered over the headers with the
    flag set. *)
Definition submits {R} (dev : SDL_GpuDevice) (a : N)
    (h : CommandBufferCommonHeader) (c : DriverCall Blob R) (s : State)
    (r : R) (s' : State) : Prop :=
  exists h',
    marked_submitted h h'
    /\ heap s' = <[a := h']> (heap s)
    /\ world s' = snd (driver dev _ c (view <$> heap s') (world s))
    /\ r = fst (driver dev _ c (view <$> heap s') (world s))
    /\ trace s' = (trace s ++ [EvCall dev c r])%list.

(** Once [ending] has run in [s0], [SDL_GpuSubmit] accepts the command
    buffer at [a]: it sets the submitted flag and forwards to [dev]. *)
Definition submits_after (ending : M unit) (a : N) (dev : SDL_GpuDevice)
    (s0 : State) : Prop :=
  exists s1 h1 s2,
    ending s0 = Ok tt s1
    /\ heap s1 !! a = Some h1
    /\ SDL_GpuSubmit (Some a) s1 = Ok tt s2
    /\ submits dev a h1 (Submit (Some a)) s1 tt s2.

(** ** The transition system of one command buffer *)

(** The changes a call can make to the header of a command buffer. *)
Inductive header_step
    : CommandBufferCommonHeader -> CommandBufferCommonHeader -> Prop :=
| step_begin_render h :
    submitted h = false -> any_pass_in_progress h = false ->
    header_step h (set_renderPass_inProgress true h)
| step_begin_compute h :
    submitted h = false -> any_pass_in_progress h = false ->
    header_step h (set_computePass_inProgress true h)
| step_begin_copy h :
    submitted h = false -> any_pass_in_progress h = false ->
    header_step h (set_copyPass_inProgress true h)
| step_bind_graphics h :
    header_step h (set_graphicsPipelineBound true h)
| step_bind_compute h :
    inProgress (computePass h) = true ->
    header_step h (set_computePipelineBound true h)
| step_end_render h :
    inProgress (renderPass h) = true ->
    header_step h (set_graphicsPipelineBound false
                     (set_renderPass_inProgress false h))
| step_end_compute h :
    inProgress (computePass h) = true ->
    header_step h (set_computePipelineBound false
                     (set_computePass_inProgress false h))
| step_end_copy h :
    inProgress (copyPass h) = true ->
    header_step h (set_copyPass_inProgress false h)
| step_submit h :
    submitted h = false -> any_pass_in_progress h = false ->
    header_step h (set_submitted true h).

(** What every reachable header satisfies. *)
Definition header_ok (a : N) (h : CommandBufferCommonHeader) : Prop :=
  (exists dev, device h = Some dev)
  /\ commandBuffer (renderPass h) = Some a
  /\ commandBuffer (computePass h) = Some a
  /\ commandBuffer (copyPass h) = Some a
  /\ (passes_in_progress h <= 1)%nat
  /\ (computePipelineBound h = true -> inProgress (computePass h) = true).

Definition heap_ok (s : State) : Prop :=
  forall a h, heap s !! a = Some h -> header_ok a h.

(** The calls that only hand through: the heap stays as it is. *)
Definition preserves_heap {A} (m : M A) : Prop :=
  forall s x s', m s = Ok x s' -> heap s' = heap s.

(** A call that returns changes the heap in one of three ways. *)
Definition heap_effect (c : ApiCall) (s s' : State) : Prop :=
  heap s' = heap s
  \/ (exists a h h',
        heap s !! a = Some h /\ header_step h h'
        /\ heap s' = <[a := h']> (heap s))
  \/ (exists a dev,
        c = ApiAcquireCommandBuffer (Some dev)
        /\ heap s' = <[a := fresh_header (Some dev) (Some a)]> (heap s)).

(** ** Depth-format negotiation and resource dispatch, in words *)

(** The fallback table as documented: the two depth-only formats fall back
    to each other, so do the two depth+stencil formats, and anything else
    falls back to [D16_UNORM]. *)
Definition documented_fallback (requested : SDL_GpuTextureFormat)
    : SDL_GpuTextureFormat :=
  if decide (requested = SDL_GPU_TEXTUREFORMAT_D24_UNORM)
  then SDL_GPU_TEXTUREFORMAT_D32_SFLOAT
  else if decide (requested = SDL_GPU_TEXTUREFORMAT_D32_SFLOAT)
  then SDL_GPU_TEXTUREFORMAT_D24_UNORM
  else if decide (requested = SDL_GPU_TEXTUREFORMAT_D24_UNORM_S8_UINT)
  then SDL_GPU_TEXTUREFORMAT_D32_SFLOAT_S8_UINT
  else if decide (requested = SDL_GPU_TEXTUREFORMAT_D32_SFLOAT_S8_UINT)
  then SDL_GPU_TEXTUREFORMAT_D24_UNORM_S8_UINT
  else SDL_GPU_TEXTUREFORMAT_D16_UNORM.

(** The warning of a substitution. *)
Definition fallback_warning (requested : SDL_GpuTextureFormat) : Event :=
  EvLogWarn "Requested unsupported depth format %d, falling back to format %d!"
    [requested; documented_fallback requested].

(** The outcome of forwarding [c] to [dev] in [s] and returning the
    backend's answer next to [x]. *)
Definition forwarded {R A} (dev : SDL_GpuDevice) (c : DriverCall Blob R)
    (x : A) (s : State) : Outcome (R * A) :=
  Ok (fst (driver dev R c (headers s) (world s)), x) (called dev c s).

(** The support probe of texture creation and of pipeline creation. *)
Definition texture_probe (dev : SDL_GpuDevice)
    (info : SDL_GpuTextureCreateInfo Blob) : DriverCall Blob bool :=
  IsTextureFormatSupported (driverData dev) (format info)
    SDL_GPU_TEXTURETYPE_2D (usageFlags info).

Definition pipeline_probe (dev : SDL_GpuDevice)
    (info : SDL_GpuGraphicsPipelineCreateInfo Blob) : DriverCall Blob bool :=
  IsTextureFormatSupported (driverData dev)
    (depthStencilFormat (attachmentInfo info)) SDL_GPU_TEXTURETYPE_2D
    SDL_GPU_TEXTUREUSAGE_DEPTH_STENCIL_TARGET_BIT.

(** The backend's answer to a call in a state. *)
Definition answer {R} (dev : SDL_GpuDevice) (c : DriverCall Blob R)
    (s : State) : R :=
  fst (driver dev R c (headers s) (world s)).

Definition is_shader_creation (op : ResourceOp) : bool :=
  match op with
  | OpCreateShader _ => true
  | _ => false
  end.

(** Whether the shader request is rerouted through the translation shim:
    [shaderCreateInfo->format == SDL_GPU_SHADERFORMAT_SPIRV &&
     device->backend != SDL_GPU_BACKEND_VULKAN]. *)
Definition rerouted (dev : SDL_GpuDevice) (info : SDL_GpuShaderCreateInfo)
    : bool :=
  (shaderFormat info =? SDL_GPU_SHADERFORMAT_SPIRV)
  && negb (backend dev =? SDL_GPU_BACKEND_VULKAN).

(** How a call on a [NULL] device ends: on the assertion where
    [SDL_assert] is compiled in, on the dereference where it is not. *)
Definition null_device_fault : Fault :=
  if 2 <=? SDL_ASSERT_LEVEL
  then AssertionFailure "device != NULL"
  else NullDereference.

(** ** Backend selection, in words *)

(** Probing the registry [bs] in its order, from the world [w].  A
    backend that is not [eligible] is passed over without a probe.  An
    eligible backend is probed ([PrepareDriver]) in the world that the
    probes before it have left; when its probe succeeds it is the backend
    found and no further backend is probed, when it fails the search goes
    on behind it.  [evs] are the probes made, in order, each with its
    result, and [w'] is the world after the last of them. *)
Inductive probing (eligible : SDL_GpuDriver -> Prop)
    : list SDL_GpuDriver -> World -> list Event -> World
      -> option SDL_GpuDriver -> Prop :=
| probing_done w :
    probing eligible [] w [] w None
| probing_pass b bs w evs w' found :
    ~ eligible b ->
    probing eligible bs w evs w' found ->
    probing eligible (b :: bs) w evs w' found
| probing_hit b bs w :
    eligible b ->
    fst (PrepareDriver b w) = true ->
    probing eligible (b :: bs) w [EvPrepareDriver (Name b) true]
      (snd (PrepareDriver b w)) (Some b)
| probing_miss b bs w evs w' found :
    eligible b ->
    fst (PrepareDriver b w) = false ->
    probing eligible bs (snd (PrepareDriver b w)) evs w' found ->
    probing eligible (b :: bs) w (EvPrepareDriver (Name b) false :: evs) w'
      found.

(** The state [s] with the events [evs] appended to its trace and the
    world [w]. *)
Definition after_events (evs : list Event) (w : World) (s : State) : State :=
  {| world := w; heap := heap s; trace := (trace s ++ evs)%list |}.

Definition unsupported_hint (gpudriver : string) : Event :=
  EvLogError ("SDL_HINT_GPU_BACKEND " ++ gpudriver ++ " unsupported!").

Definition no_preferred : Event :=
  EvLogWarn "No preferred SDL_Gpu backend found!" [].

Definition no_supported : Event :=
  EvLogError "No supported SDL_Gpu backend found!".

(** What the last strategy comes to, [before] being what the run has
    traced so far and [w0] the world it has reached: every registered
    backend is probed in registry order, the first whose probe succeeds
    is selected, and when there is none the error is logged and the
    failure sentinel is the result. *)
Definition falls_back (before : list Event) (w0 : World) (s : State)
    (outcome : Outcome SDL_GpuBackend) : Prop :=
  exists evs w found,
    probing (fun _ => True) backends w0 evs w found
    /\ outcome
       = match found with
         | Some b => Ok (backendflag b) (after_events (before ++ evs) w s)
         | None =>
             Ok SDL_GPU_BACKEND_INVALID
               (after_events (before ++ evs ++ [no_supported]) w s)
         end.

(** The last loop of [SDL_GpuSelectBackend] with its error message. *)
Definition last_resort (s : State) : Outcome SDL_GpuBackend :=
  match first_prepared (fun _ => true) backends s with
  | Ok (Some flag) s' => Ok flag s'
  | Ok None s' => Ok SDL_GPU_BACKEND_INVALID (logged no_supported s')
  | Crash f s' => Crash f s'
  end.

(** ** Texel block sizes *)

(** [SDL_GpuTextureFormatTexelBlockSize]: the size in bytes of a texel
    block; the [default] branch of the [switch] logs and returns 0. *)
Definition SDL_GpuTextureFormatTexelBlockSize
    (textureFormat : SDL_GpuTextureFormat) : M Uint32 :=
  match textureFormat with
  | SDL_GPU_TEXTUREFORMAT_BC1 => ret 8
  | SDL_GPU_TEXTUREFORMAT_BC2
  | SDL_GPU_TEXTUREFORMAT_BC3
  | SDL_GPU_TEXTUREFORMAT_BC7
  | SDL_GPU_TEXTUREFORMAT_BC3_SRGB
  | SDL_GPU_TEXTUREFORMAT_BC7_SRGB => ret 16
  | SDL_GPU_TEXTUREFORMAT_R8
  | SDL_GPU_TEXTUREFORMAT_A8
  | SDL_GPU_TEXTUREFORMAT_R8_UINT => ret 1
  | SDL_GPU_TEXTUREFORMAT_R5G6B5
  | SDL_GPU_TEXTUREFORMAT_B4G4R4A4
  | SDL_GPU_TEXTUREFORMAT_A1R5G5B5
  | SDL_GPU_TEXTUREFORMAT_R16_SFLOAT
  | SDL_GPU_TEXTUREFORMAT_R8G8_SNORM
  | SDL_GPU_TEXTUREFORMAT_R8G8_UINT
  | SDL_GPU_TEXTUREFORMAT_R16_UINT => ret 2
  | SDL_GPU_TEXTUREFORMAT_R8G8B8A8
  | SDL_GPU_TEXTUREFORMAT_B8G8R8A8
  | SDL_GPU_TEXTUREFORMAT_R8G8B8A8_SRGB
  | SDL_GPU_TEXTUREFORMAT_B8G8R8A8_SRGB
  | SDL_GPU_TEXTUREFORMAT_R32_SFLOAT
  | SDL_GPU_TEXTUREFORMAT_R16G16_SFLOAT
  | SDL_GPU_TEXTUREFORMAT_R8G8B8A8_SNORM
  | SDL_GPU_TEXTUREFORMAT_A2R10G10B10
  | SDL_GPU_TEXTUREFORMAT_R8G8B8A8_UINT
  | SDL_GPU_TEXTUREFORMAT_R16G16_UINT => ret 4
  | SDL_GPU_TEXTUREFORMAT_R16G16B16A16_SFLOAT
  | SDL_GPU_TEXTUREFORMAT_R16G16B16A16
  | SDL_GPU_TEXTUREFORMAT_R32G32_SFLOAT
  | SDL_GPU_TEXTUREFORMAT_R16G16B16A16_UINT => ret 8
  | SDL_GPU_TEXTUREFORMAT_R32G32B32A32_SFLOAT => ret 16
  | _ => SDL_LogError "Unrecognized TextureFormat!" ;;; ret 0
  end.

(** The five depth formats, which the [switch] of
    [SDL_GpuTextureFormatTexelBlockSize] does not list. *)
Definition depth_formats : list SDL_GpuTextureFormat :=
  [ SDL_GPU_TEXTUREFORMAT_D16_UNORM;
    SDL_GPU_TEXTUREFORMAT_D24_UNORM;
    SDL_GPU_TEXTUREFORMAT_D32_SFLOAT;
    SDL_GPU_TEXTUREFORMAT_D24_UNORM_S8_UINT;
    SDL_GPU_TEXTUREFORMAT_D32_SFLOAT_S8_UINT ].

(** ** Calls on a command buffer, in words *)

(** The command buffer a call works on: the buffer it is handed, or the
    one behind the pass handle it is handed. *)
Definition target (c : ApiCall) : ptr :=
  match c with
  | ApiAcquireCommandBuffer _ => None
  | ApiBeginRenderPass commandBuffer _ _ _ => commandBuffer
  | ApiBindGraphicsPipeline renderPass _ => renderPass
  | ApiSetViewport renderPass _ => renderPass
  | ApiSetScissor renderPass _ => renderPass
  | ApiRender renderPass _ => renderPass
  | ApiEndRenderPass renderPass => renderPass
  | ApiBeginComputePass commandBuffer _ _ _ _ => commandBuffer
  | ApiBindComputePipeline computePass _ => computePass
  | ApiCompute computePass _ => computePass
  | ApiEndComputePass computePass => computePass
  | ApiBeginCopyPass commandBuffer => commandBuffer
  | ApiCopy copyPass _ => copyPass
  | ApiEndCopyPass copyPass => copyPass
  | ApiSetStringMarker commandBuffer _ => commandBuffer
  | ApiBlit commandBuffer _ _ _ _ => commandBuffer
  | ApiAcquireSwapchainTexture commandBuffer _ _ _ => commandBuffer
  | ApiSubmit commandBuffer => commandBuffer
  | ApiSubmitAndAcquireFence commandBuffer => commandBuffer
  | ApiOcclusionQueryBegin commandBuffer _ => commandBuffer
  | ApiOcclusionQueryEnd commandBuffer _ => commandBuffer
  | ApiResource _ _ => None
  end.

(** A call that was refused: one error is logged and nothing else
    happened. *)
Definition refused (s s' : State) : Prop :=
  exists msg, s' = logged (EvLogError msg) s.

(** A call that went through: exactly one entry of the function table of
    [dev] ran, reading the headers as the call found them or as it leaves
    them, and of the heap at most the header at [a] changed, by one step
    of the transition system. *)
Definition dispatched (dev : SDL_GpuDevice) (a : N)
    (h : CommandBufferCommonHeader) (s s' : State) : Prop :=
  exists R (c : DriverCall Blob R) (read : gmap N CommandBufferCommonHeader),
    (read = heap s \/ read = heap s')
    /\ world s' = snd (driver dev R c (view <$> read) (world s))
    /\ trace s'
       = (trace s
          ++ [EvCall dev c (fst (driver dev R c (view <$> read) (world s)))])%list
    /\ (heap s' = heap s
        \/ exists h', header_step h h' /\ heap s' = <[a := h']> (heap s)).


(** The pass a call asks to be in progress: the one whose [CHECK_*PASS]
    macro its function opens with. *)
Definition asks_for (c : ApiCall) : option PassKind :=
  match c with
  | ApiSetViewport _ _ | ApiSetScissor _ _ | ApiRender _ _
  | ApiEndRenderPass _ => Some Render
  | ApiBindComputePipeline _ _ | ApiCompute _ _
  | ApiEndComputePass _ => Some Compute
  | ApiCopy _ op => if copy_checked op then Some Copy else None
  | ApiEndCopyPass _ => Some Copy
  | _ => None
  end.

(** The message of [CHECK_RENDERPASS], [CHECK_COMPUTEPASS] and
    [CHECK_COPYPASS]. *)
Definition not_in_progress (k : PassKind) : string :=
  match k with
  | Render => "Render pass not in progress!"
  | Compute => "Compute pass not in progress!"
  | Copy => "Copy pass not in progress!"
  end.

(** No call has begun a pass on [h] that was not ended. *)
Definition idle_header (h : CommandBufferCommonHeader) : Prop :=
  submitted h = false /\ any_pass_in_progress h = false.

(** ** Frames: the calls of a client, in sequence *)

(** [ms] one after the other. *)
Fixpoint sequence (ms : list (M unit)) : M unit :=
  match ms with
  | [] => ret tt
  | m :: rest => m ;;; sequence rest
  end.

(** A frame of transfers: acquire a command buffer, begin its copy pass,
    record [ops], end the pass, submit with a fence. *)
Definition copy_frame (device : option SDL_GpuDevice) (ops : list CopyOp)
    : M ptr :=
  let* commandBuffer := SDL_GpuAcquireCommandBuffer device in
  let* copyPass := SDL_GpuBeginCopyPass commandBuffer in
  sequence (map (run_copy copyPass) ops) ;;;
  SDL_GpuEndCopyPass copyPass ;;;
  SDL_GpuSubmitAndAcquireFence commandBuffer.

(** A frame of drawing: acquire, begin the render pass, bind the
    pipeline, record [ops], end the pass, submit. *)
Definition render_frame (device : option SDL_GpuDevice)
    (colorAttachmentInfos : ptr) (colorAttachmentCount : Uint32)
    (depthStencilAttachmentInfo graphicsPipeline : ptr)
    (ops : list RenderOp) : M unit :=
  let* commandBuffer := SDL_GpuAcquireCommandBuffer device in
  let* renderPass :=
    SDL_GpuBeginRenderPass commandBuffer colorAttachmentInfos
      colorAttachmentCount depthStencilAttachmentInfo in
  SDL_GpuBindGraphicsPipeline renderPass graphicsPipeline ;;;
  sequence (map (run_render renderPass) ops) ;;;
  SDL_GpuEndRenderPass renderPass ;;;
  SDL_GpuSubmit commandBuffer.

(** A frame of compute work, in the same way. *)
Definition compute_frame (device : option SDL_GpuDevice)
    (storageTextureBindings : ptr) (storageTextureBindingCount : Uint32)
    (storageBufferBindings : ptr) (storageBufferBindingCount : Uint32)
    (computePipeline : ptr) (ops : list ComputeOp) : M unit :=
  let* commandBuffer := SDL_GpuAcquireCommandBuffer device in
  let* computePass :=
    SDL_GpuBeginComputePass commandBuffer storageTextureBindings
      storageTextureBindingCount storageBufferBindings
      storageBufferBindingCount in
  SDL_GpuBindComputePipeline computePass computePipeline ;;;
  sequence (map (run_compute computePass) ops) ;;;
  SDL_GpuEndComputePass computePass ;;;
  SDL_GpuSubmit commandBuffer.

(** The trace of an entry of the function table that returns nothing. *)
Definition forwards (dev : SDL_GpuDevice) (c : DriverCall Blob unit) : Event :=
  EvCall dev c tt.

(** The state after the driver of [dev] has answered [cs], in order. *)
Fixpoint called_all (dev : SDL_GpuDevice) (cs : list (DriverCall Blob unit))
    (s : State) : State :=
  match cs with
  | [] => s
  | c :: rest => called_all dev rest (called dev c s)
  end.

(** ** Device creation, in words *)


(** The depth formats that have a partner in the fallback table. *)
Definition paired_formats : list SDL_GpuTextureFormat :=
  [ SDL_GPU_TEXTUREFORMAT_D24_UNORM;
    SDL_GPU_TEXTUREFORMAT_D32_SFLOAT;
    SDL_GPU_TEXTUREFORMAT_D24_UNORM_S8_UINT;
    SDL_GPU_TEXTUREFORMAT_D32_SFLOAT_S8_UINT ].

(** ** The protocol a backend sees *)

(** What an entry of the function table is called on: the private data of
    the driver, or a command buffer. *)
Inductive Receiver :=
| OnDriver (driverData : ptr)
| OnCommandBuffer (commandBuffer : ptr).

(** The first argument of each entry. *)
Definition receiver {R} (c : DriverCall Blob R) : Receiver :=
  match c with
  | IsTextureFormatSupported d _ _ _
  | CreateComputePipeline d _
  | CreateGraphicsPipeline d _
  | CreateSampler d _
  | CreateShader d _
  | CompileFromSPIRVCross d _ _ _
  | CreateTexture d _
  | CreateBuffer d _ _
  | CreateTransferBuffer d _ _ _
  | CreateOcclusionQuery d
  | ReleaseTexture d _
  | ReleaseSampler d _
  | ReleaseBuffer d _
  | ReleaseTransferBuffer d _
  | ReleaseShader d _
  | ReleaseComputePipeline d _
  | ReleaseGraphicsPipeline d _
  | ReleaseOcclusionQuery d _
  | ReleaseFence d _
  | AcquireCommandBuffer d => OnDriver d
  | BeginRenderPass cb _ _ _
  | BindGraphicsPipeline cb _
  | SetViewport cb _
  | SetScissor cb _
  | BindVertexBuffers cb _ _ _
  | BindIndexBuffer cb _ _
  | BindVertexSamplers cb _ _ _
  | BindVertexStorageTextures cb _ _ _
  | BindVertexStorageBuffers cb _ _ _
  | BindFragmentSamplers cb _ _ _
  | BindFragmentStorageTextures cb _ _ _
  | BindFragmentStorageBuffers cb _ _ _
  | PushVertexUniformData cb _ _ _
  | PushFragmentUniformData cb _ _ _
  | DrawIndexedPrimitives cb _ _ _ _
  | DrawPrimitives cb _ _
  | DrawPrimitivesIndirect cb _ _ _ _
  | DrawIndexedPrimitivesIndirect cb _ _ _ _
  | EndRenderPass cb
  | BeginComputePass cb _ _ _ _
  | BindComputePipeline cb _
  | BindComputeStorageTextures cb _ _ _
  | BindComputeStorageBuffers cb _ _ _
  | PushComputeUniformData cb _ _ _
  | DispatchCompute cb _ _ _
  | EndComputePass cb
  | BeginCopyPass cb
  | UploadToTexture cb _ _ _ _
  | UploadToBuffer cb _ _ _ _
  | CopyTextureToTexture cb _ _ _
  | CopyBufferToBuffer cb _ _ _ _
  | GenerateMipmaps cb _
  | DownloadFromTexture cb _ _ _
  | DownloadFromBuffer cb _ _ _
  | EndCopyPass cb
  | SetStringMarker cb _
  | Blit cb _ _ _ _
  | AcquireSwapchainTexture cb _ _ _
  | Submit cb
  | SubmitAndAcquireFence cb
  | OcclusionQueryBegin cb _
  | OcclusionQueryEnd cb _ => OnCommandBuffer cb
  end.

(** What the backend reads in the header of the command buffer when an
    entry is called on it: what the function of [SDL_gpu.c] that calls
    the entry has checked, and for the two submit entries the flag that
    their functions set before the call.  The entries behind
    [SDL_GpuBindGraphicsPipeline], behind the transfers other than
    [SDL_GpuUploadToTexture] and behind the occlusion queries are called
    on any header. *)
Definition shows {R} (c : DriverCall Blob R)
    (h : CommandBufferCommonHeader) : bool :=
  match c with
  | BeginRenderPass _ _ _ _
  | BeginComputePass _ _ _ _ _
  | BeginCopyPass _ =>
      negb (submitted h) && negb (any_pass_in_progress h)
  | Submit _
  | SubmitAndAcquireFence _ =>
      submitted h && negb (any_pass_in_progress h)
  | SetViewport _ _
  | SetScissor _ _
  | EndRenderPass _ => inProgress (renderPass h)
  | BindVertexBuffers _ _ _ _
  | BindIndexBuffer _ _ _
  | BindVertexSamplers _ _ _ _
  | BindVertexStorageTextures _ _ _ _
  | BindVertexStorageBuffers _ _ _ _
  | BindFragmentSamplers _ _ _ _
  | BindFragmentStorageTextures _ _ _ _
  | BindFragmentStorageBuffers _ _ _ _
  | PushVertexUniformData _ _ _ _
  | PushFragmentUniformData _ _ _ _
  | DrawIndexedPrimitives _ _ _ _ _
  | DrawPrimitives _ _ _
  | DrawPrimitivesIndirect _ _ _ _ _
  | DrawIndexedPrimitivesIndirect _ _ _ _ _ =>
      inProgress (renderPass h) && graphicsPipelineBound h
  | BindComputePipeline _ _
  | EndComputePass _ => inProgress (computePass h)
  | BindComputeStorageTextures _ _ _ _
  | BindComputeStorageBuffers _ _ _ _
  | PushComputeUniformData _ _ _ _
  | DispatchCompute _ _ _ _ =>
      inProgress (computePass h) && computePipelineBound h
  | UploadToTexture _ _ _ _ _
  | EndCopyPass _ => inProgress (copyPass h)
  | SetStringMarker _ _
  | Blit _ _ _ _ _
  | AcquireSwapchainTexture _ _ _ _ => negb (submitted h)
  | _ => true
  end.

(** The header [hc] that the backend reads during the call of an entry,
    [h] being the header as the call of the API found it: the two submit
    entries are called with the submitted flag already set, which was
    not set before; every other entry is called on the header as it was
    found. *)
Definition read_at {R} (c : DriverCall Blob R)
    (h hc : CommandBufferCommonHeader) : Prop :=
  match c with
  | Submit _
  | SubmitAndAcquireFence _ => submitted h = false /\ marked_submitted h hc
  | _ => hc = h
  end.

(** What holds of an event [ev] that the call [c] of the API has added to
    the trace on its way from [s] to [s'].  An entry on the driver was
    handed the private data of the device whose table it is in.  An entry
    on a command buffer was handed the command buffer that [c] works on,
    which is not [NULL] and was acquired from the device whose table the
    entry is in; it is the one backend call of [c]; and the backend was
    answered over the headers in which the header of this buffer is [hc],
    which [shows] what the entry may rely on. *)
Definition permitted (c : ApiCall) (s s' : State) (ev : Event) : Prop :=
  match ev with
  | EvCall dev e res =>
      match receiver e with
      | OnDriver d => d = driverData dev
      | OnCommandBuffer cb =>
          exists a h hc,
            cb = Some a
            /\ target c = Some a
            /\ heap s !! a = Some h
            /\ device h = Some dev
            /\ read_at e h hc
            /\ shows e hc = true
            /\ trace s' = (trace s ++ [ev])%list
            /\ res = fst (driver dev _ e (<[a := view hc]> (headers s))
                            (world s))
            /\ world s'
               = snd (driver dev _ e (<[a := view hc]> (headers s)) (world s))
      end
  | _ => True
  end.

(** A computation that leaves the command buffers alone and calls only
    entries on the driver, each with the private data of its device. *)
Definition quiet {A} (m : M A) : Prop :=
  forall s x s', m s = Ok x s' ->
    exists evs,
      trace s' = (trace s ++ evs)%list
      /\ forall ev, ev ∈ evs ->
           match ev with
           | EvCall dev e _ => receiver e = OnDriver (driverData dev)
           | _ => True
           end.

(** * Properties *)

(** ** Running the primitives *)

Implicit Types (s : State) (a : N) (h : CommandBufferCommonHeader).
Implicit Types (dev : SDL_GpuDevice).

Lemma bind_Ok {A B} (m : M A) (k : A -> M B) s x s' :
  m s = Ok x s' -> bind m k s = k x s'.
Proof. unfold bind. by intros ->. Qed.

Lemma bind_Crash {A B} (m : M A) (k : A -> M B) s f s' :
  m s = Crash f s' -> bind m k s = Crash f s'.
Proof. unfold bind. by intros ->. Qed.

Lemma NULL_ASSERT_Some {A} (x : A) text s :
  NULL_ASSERT (Some x) text s = Ok tt s.
Proof.
  unfold NULL_ASSERT, SDL_assert.
  rewrite bool_decide_eq_true_2 by done. cbn. by rewrite andb_false_r.
Qed.

Lemma NULL_ASSERT_None {A} text s :
  NULL_ASSERT (@None A) text s =
    if 2 <=? SDL_ASSERT_LEVEL then Crash (AssertionFailure text) s else Ok tt s.
Proof.
  unfold NULL_ASSERT, SDL_assert.
  rewrite bool_decide_eq_false_2 by (intros H; by apply H).
  cbn. by rewrite andb_true_r.
Qed.

Lemma load_Ok s a h : heap s !! a = Some h -> load (Some a) s = Ok h s.
Proof. unfold load. by intros ->. Qed.

Lemma load_dangling s a :
  heap s !! a = None -> load (Some a) s = Crash (InvalidPointer a) s.
Proof. unfold load. by intros ->. Qed.

Lemma modify_Ok s a h f :
  heap s !! a = Some h -> modify (Some a) f s = Ok tt (with_header a (f h) s).
Proof. unfold modify. by intros ->. Qed.

Lemma call_unit dev (c : DriverCall Blob unit) s :
  call dev c s = Ok tt (called dev c s).
Proof. unfold call. by destruct (fst _). Qed.

Lemma with_header_twice a h1 h2 s :
  with_header a h2 (with_header a h1 s) = with_header a h2 s.
Proof. unfold with_header. cbn. by rewrite insert_insert_eq. Qed.

Lemma with_header_lookup a h s : heap (with_header a h s) !! a = Some h.
Proof. cbn. by rewrite lookup_insert_eq. Qed.

Lemma with_header_lookup_ne a b h s :
  a <> b -> heap (with_header a h s) !! b = heap s !! b.
Proof. intros. cbn. by rewrite lookup_insert_ne. Qed.

Lemma acquired_called {R} s a h dev dev' (c : DriverCall Blob R) :
  acquired s a h dev -> acquired (called dev' c s) a h dev.
Proof. done. Qed.

Lemma acquired_logged s a h dev e :
  acquired s a h dev -> acquired (logged e s) a h dev.
Proof. done. Qed.

Lemma acquired_with_header s a h' dev :
  device h' = Some dev ->
  commandBuffer (renderPass h') = Some a ->
  commandBuffer (computePass h') = Some a ->
  commandBuffer (copyPass h') = Some a ->
  acquired (with_header a h' s) a h' dev.
Proof. intros. split; [apply with_header_lookup | done]. Qed.

Lemma acquired_heap s a h dev : acquired s a h dev -> heap s !! a = Some h.
Proof. by intros (? & _). Qed.

Lemma RENDERPASS_COMMAND_BUFFER_Ok s a h dev :
  acquired s a h dev -> RENDERPASS_COMMAND_BUFFER (Some a) s = Ok (Some a) s.
Proof.
  intros (Hl & _ & Hr & _). unfold RENDERPASS_COMMAND_BUFFER.
  rewrite (bind_Ok _ _ _ _ _ (load_Ok _ _ _ Hl)). unfold ret. by rewrite Hr.
Qed.

Lemma COMPUTEPASS_COMMAND_BUFFER_Ok s a h dev :
  acquired s a h dev -> COMPUTEPASS_COMMAND_BUFFER (Some a) s = Ok (Some a) s.
Proof.
  intros (Hl & _ & _ & Hc & _). unfold COMPUTEPASS_COMMAND_BUFFER.
  rewrite (bind_Ok _ _ _ _ _ (load_Ok _ _ _ Hl)). unfold ret. by rewrite Hc.
Qed.

Lemma COPYPASS_COMMAND_BUFFER_Ok s a h dev :
  acquired s a h dev -> COPYPASS_COMMAND_BUFFER (Some a) s = Ok (Some a) s.
Proof.
  intros (Hl & _ & _ & _ & Hp). unfold COPYPASS_COMMAND_BUFFER.
  rewrite (bind_Ok _ _ _ _ _ (load_Ok _ _ _ Hl)). unfold ret. by rewrite Hp.
Qed.

Lemma COMMAND_BUFFER_DEVICE_Ok s a h dev :
  acquired s a h dev -> COMMAND_BUFFER_DEVICE (Some a) s = Ok dev s.
Proof.
  intros (Hl & Hd & _). unfold COMMAND_BUFFER_DEVICE.
  rewrite (bind_Ok _ _ _ _ _ (load_Ok _ _ _ Hl)). unfold deref. by rewrite Hd.
Qed.

Lemma RENDERPASS_DEVICE_Ok s a h dev :
  acquired s a h dev -> RENDERPASS_DEVICE (Some a) s = Ok dev s.
Proof.
  intros H. unfold RENDERPASS_DEVICE.
  rewrite (bind_Ok _ _ _ _ _ (RENDERPASS_COMMAND_BUFFER_Ok _ _ _ _ H)).
  by eapply COMMAND_BUFFER_DEVICE_Ok.
Qed.

Lemma COMPUTEPASS_DEVICE_Ok s a h dev :
  acquired s a h dev -> COMPUTEPASS_DEVICE (Some a) s = Ok dev s.
Proof.
  intros H. unfold COMPUTEPASS_DEVICE.
  rewrite (bind_Ok _ _ _ _ _ (COMPUTEPASS_COMMAND_BUFFER_Ok _ _ _ _ H)).
  by eapply COMMAND_BUFFER_DEVICE_Ok.
Qed.

Lemma COPYPASS_DEVICE_Ok s a h dev :
  acquired s a h dev -> COPYPASS_DEVICE (Some a) s = Ok dev s.
Proof.
  intros H. unfold COPYPASS_DEVICE.
  rewrite (bind_Ok _ _ _ _ _ (COPYPASS_COMMAND_BUFFER_Ok _ _ _ _ H)).
  by eapply COMMAND_BUFFER_DEVICE_Ok.
Qed.

(** The macros, on a command buffer that was acquired. *)

Lemma CHECK_COMMAND_BUFFER_eq s a h k :
  heap s !! a = Some h ->
  CHECK_COMMAND_BUFFER (Some a) k s =
    if submitted h
    then Ok tt (logged (EvLogError "Command buffer already submitted!") s)
    else k s.
Proof.
  intros Hl. unfold CHECK_COMMAND_BUFFER.
  rewrite (bind_Ok _ _ _ _ _ (load_Ok _ _ _ Hl)). by destruct (submitted h).
Qed.

Lemma CHECK_COMMAND_BUFFER_RETURN_NULL_eq {A} s a h (k : M (option A)) :
  heap s !! a = Some h ->
  CHECK_COMMAND_BUFFER_RETURN_NULL (Some a) k s =
    if submitted h
    then Ok None (logged (EvLogError "Command buffer already submitted!") s)
    else k s.
Proof.
  intros Hl. unfold CHECK_COMMAND_BUFFER_RETURN_NULL.
  rewrite (bind_Ok _ _ _ _ _ (load_Ok _ _ _ Hl)). by destruct (submitted h).
Qed.

Lemma CHECK_ANY_PASS_IN_PROGRESS_eq {A} s a h (k : M (option A)) :
  heap s !! a = Some h ->
  CHECK_ANY_PASS_IN_PROGRESS (Some a) k s =
    if any_pass_in_progress h
    then Ok None (logged (EvLogError "Pass already in progress!") s)
    else k s.
Proof.
  intros Hl. unfold CHECK_ANY_PASS_IN_PROGRESS, any_pass_in_progress.
  rewrite (bind_Ok _ _ _ _ _ (load_Ok _ _ _ Hl)).
  by destruct (_ || _ || _).
Qed.

Lemma CHECK_RENDERPASS_eq s a h k :
  heap s !! a = Some h ->
  CHECK_RENDERPASS (Some a) k s =
    if inProgress (renderPass h) then k s
    else Ok tt (logged (EvLogError "Render pass not in progress!") s).
Proof.
  intros Hl. unfold CHECK_RENDERPASS.
  rewrite (bind_Ok _ _ _ _ _ (load_Ok _ _ _ Hl)).
  by destruct (inProgress _).
Qed.

Lemma CHECK_COMPUTEPASS_eq s a h k :
  heap s !! a = Some h ->
  CHECK_COMPUTEPASS (Some a) k s =
    if inProgress (computePass h) then k s
    else Ok tt (logged (EvLogError "Compute pass not in progress!") s).
Proof.
  intros Hl. unfold CHECK_COMPUTEPASS.
  rewrite (bind_Ok _ _ _ _ _ (load_Ok _ _ _ Hl)).
  by destruct (inProgress _).
Qed.

Lemma CHECK_COPYPASS_eq s a h k :
  heap s !! a = Some h ->
  CHECK_COPYPASS (Some a) k s =
    if inProgress (copyPass h) then k s
    else Ok tt (logged (EvLogError "Copy pass not in progress!") s).
Proof.
  intros Hl. unfold CHECK_COPYPASS.
  rewrite (bind_Ok _ _ _ _ _ (load_Ok _ _ _ Hl)).
  by destruct (inProgress _).
Qed.

Lemma CHECK_GRAPHICS_PIPELINE_BOUND_eq s a h dev k :
  acquired s a h dev ->
  CHECK_GRAPHICS_PIPELINE_BOUND (Some a) k s =
    if graphicsPipelineBound h then k s
    else Ok tt (logged (EvLogError "Graphics pipeline not bound!") s).
Proof.
  intros H. unfold CHECK_GRAPHICS_PIPELINE_BOUND.
  rewrite (bind_Ok _ _ _ _ _ (RENDERPASS_COMMAND_BUFFER_Ok _ _ _ _ H)).
  rewrite (bind_Ok _ _ _ _ _ (load_Ok _ _ _ (acquired_heap _ _ _ _ H))).
  by destruct (graphicsPipelineBound _).
Qed.

Lemma CHECK_COMPUTE_PIPELINE_BOUND_eq s a h dev k :
  acquired s a h dev ->
  CHECK_COMPUTE_PIPELINE_BOUND (Some a) k s =
    if computePipelineBound h then k s
    else Ok tt (logged (EvLogError "Compute pipeline not bound!") s).
Proof.
  intros H. unfold CHECK_COMPUTE_PIPELINE_BOUND.
  rewrite (bind_Ok _ _ _ _ _ (COMPUTEPASS_COMMAND_BUFFER_Ok _ _ _ _ H)).
  rewrite (bind_Ok _ _ _ _ _ (load_Ok _ _ _ (acquired_heap _ _ _ _ H))).
  by destruct (computePipelineBound _).
Qed.

(** One step of a run: the head of a [bind] is a primitive whose outcome
    the lemmas above give. *)
Ltac acq :=
  solve [ repeat first
    [ eassumption
    | apply acquired_called
    | apply acquired_logged
    | apply acquired_with_header; cbn ] ].

Ltac prim :=
  first
    [ apply NULL_ASSERT_Some
    | eapply RENDERPASS_DEVICE_Ok; acq
    | eapply COMPUTEPASS_DEVICE_Ok; acq
    | eapply COPYPASS_DEVICE_Ok; acq
    | eapply COMMAND_BUFFER_DEVICE_Ok; acq
    | eapply RENDERPASS_COMMAND_BUFFER_Ok; acq
    | eapply COMPUTEPASS_COMMAND_BUFFER_Ok; acq
    | eapply COPYPASS_COMMAND_BUFFER_Ok; acq
    | eapply load_Ok; first [ apply with_header_lookup | eapply acquired_heap;
        acq ]
    | eapply modify_Ok; first [ apply with_header_lookup | eapply
        acquired_heap; acq ]
    | apply call_unit
    | reflexivity ].

Ltac mstep :=
  lazymatch goal with
  | |- bind ?m ?k ?s = _ => rewrite (bind_Ok m k s _ _ ltac:(prim)); cbv beta
  end.

(** Unfold the function at the head of the left-hand side. *)
Ltac unfold_head :=
  lazymatch goal with
  | |- ?lhs = _ =>
      let rec hd t := lazymatch t with ?f _ => hd f | _ => t end in
      let g := hd lhs in unfold g
  end.

(** Start a run on an acquired buffer: keep the bundle, name its parts. *)
Ltac on_acquired H :=
  let Hl := fresh "Hl" in
  let Hd := fresh "Hd" in
  let Hr := fresh "Hr" in
  let Hc := fresh "Hc" in
  let Hp := fresh "Hp" in
  pose proof H as (Hl & Hd & Hr & Hc & Hp).

Ltac mrun :=
  repeat mstep;
  try (etrans; [ prim | ]);
  rewrite ?with_header_twice;
  try done.

(** ** What each call does on an acquired command buffer *)

Lemma begin_render_eq s a h dev i n d :
  acquired s a h dev ->
  SDL_GpuBeginRenderPass (Some a) i n d s =
    if submitted h
    then Ok None (logged (EvLogError "Command buffer already submitted!") s)
    else if any_pass_in_progress h
    then Ok None (logged (EvLogError "Pass already in progress!") s)
    else Ok (Some a)
           (with_header a (set_renderPass_inProgress true h)
              (called dev (BeginRenderPass (Some a) i n d) s)).
Proof.
  intros H. on_acquired H. unfold SDL_GpuBeginRenderPass.
  rewrite (CHECK_COMMAND_BUFFER_RETURN_NULL_eq _ _ _ _ Hl).
  destruct (submitted h); [done |].
  rewrite (CHECK_ANY_PASS_IN_PROGRESS_eq _ _ _ _ Hl).
  destruct (any_pass_in_progress h); [done |]. mrun.
Qed.

Lemma begin_compute_eq s a h dev t tn sb sbn :
  acquired s a h dev ->
  SDL_GpuBeginComputePass (Some a) t tn sb sbn s =
    if submitted h
    then Ok None (logged (EvLogError "Command buffer already submitted!") s)
    else if any_pass_in_progress h
    then Ok None (logged (EvLogError "Pass already in progress!") s)
    else Ok (Some a)
           (with_header a (set_computePass_inProgress true h)
              (called dev (BeginComputePass (Some a) t tn sb sbn) s)).
Proof.
  intros H. on_acquired H. unfold SDL_GpuBeginComputePass.
  rewrite (CHECK_COMMAND_BUFFER_RETURN_NULL_eq _ _ _ _ Hl).
  destruct (submitted h); [done |].
  rewrite (CHECK_ANY_PASS_IN_PROGRESS_eq _ _ _ _ Hl).
  destruct (any_pass_in_progress h); [done |]. mrun.
Qed.

Lemma begin_copy_eq s a h dev :
  acquired s a h dev ->
  SDL_GpuBeginCopyPass (Some a) s =
    if submitted h
    then Ok None (logged (EvLogError "Command buffer already submitted!") s)
    else if any_pass_in_progress h
    then Ok None (logged (EvLogError "Pass already in progress!") s)
    else Ok (Some a)
           (with_header a (set_copyPass_inProgress true h)
              (called dev (BeginCopyPass (Some a)) s)).
Proof.
  intros H. on_acquired H. unfold SDL_GpuBeginCopyPass.
  rewrite (CHECK_COMMAND_BUFFER_RETURN_NULL_eq _ _ _ _ Hl).
  destruct (submitted h); [done |].
  rewrite (CHECK_ANY_PASS_IN_PROGRESS_eq _ _ _ _ Hl).
  destruct (any_pass_in_progress h); [done |]. mrun.
Qed.

Lemma bind_graphics_eq s a h dev p :
  acquired s a h dev ->
  SDL_GpuBindGraphicsPipeline (Some a) p s =
    Ok tt (with_header a (set_graphicsPipelineBound true h)
             (called dev (BindGraphicsPipeline (Some a) p) s)).
Proof.
  intros H. on_acquired H. unfold SDL_GpuBindGraphicsPipeline. mrun.
Qed.

Lemma bind_compute_eq s a h dev p :
  acquired s a h dev ->
  SDL_GpuBindComputePipeline (Some a) p s =
    if inProgress (computePass h)
    then Ok tt (with_header a (set_computePipelineBound true h)
                  (called dev (BindComputePipeline (Some a) p) s))
    else Ok tt (logged (EvLogError "Compute pass not in progress!") s).
Proof.
  intros H. on_acquired H. unfold SDL_GpuBindComputePipeline. mstep.
  rewrite (CHECK_COMPUTEPASS_eq _ _ _ _ Hl).
  destruct (inProgress _); [| done]. mrun.
Qed.

Lemma set_viewport_eq s a h dev v :
  acquired s a h dev ->
  SDL_GpuSetViewport (Some a) v s =
    if inProgress (renderPass h)
    then Ok tt (called dev (SetViewport (Some a) v) s)
    else Ok tt (logged (EvLogError "Render pass not in progress!") s).
Proof.
  intros H. on_acquired H. unfold SDL_GpuSetViewport. mstep.
  rewrite (CHECK_RENDERPASS_eq _ _ _ _ Hl).
  destruct (inProgress _); [| done]. mrun.
Qed.

Lemma set_scissor_eq s a h dev v :
  acquired s a h dev ->
  SDL_GpuSetScissor (Some a) v s =
    if inProgress (renderPass h)
    then Ok tt (called dev (SetScissor (Some a) v) s)
    else Ok tt (logged (EvLogError "Render pass not in progress!") s).
Proof.
  intros H. on_acquired H. unfold SDL_GpuSetScissor. mstep.
  rewrite (CHECK_RENDERPASS_eq _ _ _ _ Hl).
  destruct (inProgress _); [| done]. mrun.
Qed.

Lemma run_render_eq s a h dev op :
  acquired s a h dev ->
  run_render (Some a) op s =
    if inProgress (renderPass h)
    then if graphicsPipelineBound h
         then Ok tt (called dev (render_call (Some a) op) s)
         else Ok tt (logged (EvLogError "Graphics pipeline not bound!") s)
    else Ok tt (logged (EvLogError "Render pass not in progress!") s).
Proof.
  intros H. on_acquired H.
  destruct op; cbn [run_render render_call];
    unfold_head;
    (mstep;
     rewrite (CHECK_RENDERPASS_eq _ _ _ _ Hl);
     destruct (inProgress _); [| done];
     rewrite (CHECK_GRAPHICS_PIPELINE_BOUND_eq _ _ _ _ _ H);
     destruct (graphicsPipelineBound _); [| done]; mrun).
Qed.

Lemma end_render_eq s a h dev :
  acquired s a h dev ->
  SDL_GpuEndRenderPass (Some a) s =
    if inProgress (renderPass h)
    then Ok tt (with_header a
                  (set_graphicsPipelineBound false
                     (set_renderPass_inProgress false h))
                  (called dev (EndRenderPass (Some a)) s))
    else Ok tt (logged (EvLogError "Render pass not in progress!") s).
Proof.
  intros H. on_acquired H. unfold SDL_GpuEndRenderPass. mstep.
  rewrite (CHECK_RENDERPASS_eq _ _ _ _ Hl).
  destruct (inProgress _); [| done]. mrun.
Qed.

Lemma run_compute_eq s a h dev op :
  acquired s a h dev ->
  run_compute (Some a) op s =
    if inProgress (computePass h)
    then if computePipelineBound h
         then Ok tt (called dev (compute_call (Some a) op) s)
         else Ok tt (logged (EvLogError "Compute pipeline not bound!") s)
    else Ok tt (logged (EvLogError "Compute pass not in progress!") s).
Proof.
  intros H. on_acquired H.
  destruct op; cbn [run_compute compute_call];
    unfold_head;
    (mstep;
     rewrite (CHECK_COMPUTEPASS_eq _ _ _ _ Hl);
     destruct (inProgress _); [| done];
     rewrite (CHECK_COMPUTE_PIPELINE_BOUND_eq _ _ _ _ _ H);
     destruct (computePipelineBound _); [| done]; mrun).
Qed.

Lemma end_compute_eq s a h dev :
  acquired s a h dev ->
  SDL_GpuEndComputePass (Some a) s =
    if inProgress (computePass h)
    then Ok tt (with_header a
                  (set_computePipelineBound false
                     (set_computePass_inProgress false h))
                  (called dev (EndComputePass (Some a)) s))
    else Ok tt (logged (EvLogError "Compute pass not in progress!") s).
Proof.
  intros H. on_acquired H. unfold SDL_GpuEndComputePass. mstep.
  rewrite (CHECK_COMPUTEPASS_eq _ _ _ _ Hl).
  destruct (inProgress _); [| done]. mrun.
Qed.

Lemma run_copy_eq s a h dev op :
  acquired s a h dev ->
  run_copy (Some a) op s =
    if copy_checked op && negb (inProgress (copyPass h))
    then Ok tt (logged (EvLogError "Copy pass not in progress!") s)
    else Ok tt (called dev (copy_call (Some a) op) s).
Proof.
  intros H. on_acquired H.
  destruct op; cbn [run_copy copy_call copy_checked andb];
    unfold_head;
    mstep;
    rewrite ?(CHECK_COPYPASS_eq _ _ _ _ Hl);
    try (destruct (inProgress _); [| done]); mrun.
Qed.

Lemma end_copy_eq s a h dev :
  acquired s a h dev ->
  SDL_GpuEndCopyPass (Some a) s =
    if inProgress (copyPass h)
    then Ok tt (with_header a (set_copyPass_inProgress false h)
                  (called dev (EndCopyPass (Some a)) s))
    else Ok tt (logged (EvLogError "Copy pass not in progress!") s).
Proof.
  intros H. on_acquired H. unfold SDL_GpuEndCopyPass. mstep.
  rewrite (CHECK_COPYPASS_eq _ _ _ _ Hl).
  destruct (inProgress _); [| done]. mrun.
Qed.

Lemma set_string_marker_eq s a h dev text :
  acquired s a h dev ->
  SDL_GpuSetStringMarker (Some a) text s =
    if submitted h
    then Ok tt (logged (EvLogError "Command buffer already submitted!") s)
    else Ok tt (called dev (SetStringMarker (Some a) text) s).
Proof.
  intros H. on_acquired H. unfold SDL_GpuSetStringMarker.
  rewrite (CHECK_COMMAND_BUFFER_eq _ _ _ _ Hl).
  destruct (submitted h); [done |]. mrun.
Qed.

Lemma blit_eq s a h dev src dst f c :
  acquired s a h dev ->
  SDL_GpuBlit (Some a) src dst f c s =
    if submitted h
    then Ok tt (logged (EvLogError "Command buffer already submitted!") s)
    else Ok tt (called dev (Blit (Some a) src dst f c) s).
Proof.
  intros H. on_acquired H. unfold SDL_GpuBlit.
  rewrite (CHECK_COMMAND_BUFFER_eq _ _ _ _ Hl).
  destruct (submitted h); [done |]. mrun.
Qed.

Lemma acquire_swapchain_eq s a h dev w pw ph :
  acquired s a h dev ->
  SDL_GpuAcquireSwapchainTexture (Some a) w pw ph s =
    if submitted h
    then Ok None (logged (EvLogError "Command buffer already submitted!") s)
    else Ok (fst (driver dev _ (AcquireSwapchainTexture (Some a) w pw ph)
                    (headers s) (world s)))
           (called dev (AcquireSwapchainTexture (Some a) w pw ph) s).
Proof.
  intros H. on_acquired H. unfold SDL_GpuAcquireSwapchainTexture.
  rewrite (CHECK_COMMAND_BUFFER_RETURN_NULL_eq _ _ _ _ Hl).
  destruct (submitted h); [done |]. mrun.
Qed.

Lemma submit_eq s a h dev :
  acquired s a h dev ->
  SDL_GpuSubmit (Some a) s =
    if submitted h
    then Ok tt (logged (EvLogError "Command buffer already submitted!") s)
    else if any_pass_in_progress h
    then Ok tt (logged (EvLogError
                  "Cannot submit command buffer while a pass is in progress!") s)
    else Ok tt (called dev (Submit (Some a))
                  (with_header a (set_submitted true h) s)).
Proof.
  intros H. on_acquired H. unfold SDL_GpuSubmit.
  rewrite (CHECK_COMMAND_BUFFER_eq _ _ _ _ Hl).
  destruct (submitted h); [done |]. mstep.
  fold (any_pass_in_progress h).
  destruct (any_pass_in_progress h); [done |]. mrun.
Qed.

Lemma submit_fence_eq s a h dev :
  acquired s a h dev ->
  SDL_GpuSubmitAndAcquireFence (Some a) s =
    if submitted h
    then Ok None (logged (EvLogError "Command buffer already submitted!") s)
    else if any_pass_in_progress h
    then Ok None (logged (EvLogError
                    "Cannot submit command buffer while a pass is in progress!") s)
    else Ok (answer dev (SubmitAndAcquireFence (Some a))
               (with_header a (set_submitted true h) s))
           (called dev (SubmitAndAcquireFence (Some a))
              (with_header a (set_submitted true h) s)).
Proof.
  intros H. on_acquired H. unfold SDL_GpuSubmitAndAcquireFence.
  rewrite (CHECK_COMMAND_BUFFER_RETURN_NULL_eq _ _ _ _ Hl).
  destruct (submitted h); [done |]. mstep.
  fold (any_pass_in_progress h).
  destruct (any_pass_in_progress h); [mrun |]. mrun.
Qed.

Lemma occlusion_begin_eq s a h dev q :
  acquired s a h dev ->
  SDL_GpuOcclusionQueryBegin (Some a) q s =
    Ok tt (called dev (OcclusionQueryBegin (Some a) q) s).
Proof. intros H. on_acquired H. unfold SDL_GpuOcclusionQueryBegin. mrun. Qed.

Lemma occlusion_end_eq s a h dev q :
  acquired s a h dev ->
  SDL_GpuOcclusionQueryEnd (Some a) q s =
    Ok tt (called dev (OcclusionQueryEnd (Some a) q) s).
Proof. intros H. on_acquired H. unfold SDL_GpuOcclusionQueryEnd. mrun. Qed.

Lemma acquire_eq s dev :
  SDL_GpuAcquireCommandBuffer (Some dev) s =
    match fst (driver dev _ (AcquireCommandBuffer (driverData dev))
                 (headers s) (world s))
        with
    | Some a =>
        Ok (Some a)
          (with_header a (fresh_header (Some dev) (Some a))
             (called dev (AcquireCommandBuffer (driverData dev)) s))
    | None => Ok None (called dev (AcquireCommandBuffer (driverData dev)) s)
    end.
Proof.
  unfold SDL_GpuAcquireCommandBuffer. mstep. mstep.
  unfold bind at 1, call.
  destruct (fst _); [| done]. done.
Qed.

(** ** Invariants of the reachable states *)

Lemma heap_ok_acquired s a h :
  heap_ok s -> heap s !! a = Some h -> exists dev, acquired s a h dev.
Proof.
  intros Hok Hl. destruct (Hok _ _ Hl) as ((dev & Hd) & Hr & Hc & Hp & _).
  by exists dev.
Qed.

Lemma preserves_ret {A} (x : A) : preserves_heap (ret x).
Proof. intros s y s' [= _ <-]. done. Qed.

Lemma preserves_bind {A B} (m : M A) (k : A -> M B) :
  preserves_heap m -> (forall x, preserves_heap (k x)) ->
  preserves_heap (bind m k).
Proof.
  intros Hm Hk s y s'. unfold bind. destruct (m s) as [x s1 |] eqn:E; [| done].
  intros E'. rewrite (Hk _ _ _ _ E'). eauto.
Qed.

Lemma preserves_call {R} dev (c : DriverCall Blob R) :
  preserves_heap (call dev c).
Proof. intros s y s' [= _ <-]. done. Qed.

Lemma preserves_emit e : preserves_heap (emit e).
Proof. intros s y s' [= _ <-]. done. Qed.

Lemma preserves_deref {A} (p : option A) : preserves_heap (deref p).
Proof. intros s y s'. unfold deref. destruct p; [| done]. by intros [= _ <-].
    Qed.

Lemma preserves_assert c t : preserves_heap (SDL_assert c t).
Proof.
  intros s y s'. unfold SDL_assert. destruct (_ && _); [done |].
  by intros [= _ <-].
Qed.

Lemma preserves_translate t i : preserves_heap (translate t i).
Proof. intros s y s' [= _ <-]. done. Qed.

Ltac preserves :=
  repeat first
    [ apply preserves_ret
    | apply preserves_call
    | apply preserves_emit
    | apply preserves_deref
    | apply preserves_assert
    | apply preserves_translate
    | apply preserves_bind; [| intros ?]
    | match goal with
      | |- preserves_heap (if ?b then _ else _) => destruct b
      | |- preserves_heap (match ?x with _ => _ end) => destruct x
      end ].

Lemma run_resource_heap device op : preserves_heap (run_resource device op).
Proof.
  destruct op; cbn [run_resource]; unfold discard;
    unfold SDL_GpuCreateComputePipeline, SDL_GpuCreateGraphicsPipeline,
      SDL_GpuCreateSampler, SDL_GpuCreateShader, SDL_GpuCreateTexture,
      SDL_GpuCreateBuffer, SDL_GpuCreateTransferBuffer,
      SDL_GpuCreateOcclusionQuery, SDL_GpuReleaseTexture,
      SDL_GpuReleaseSampler, SDL_GpuReleaseBuffer,
      SDL_GpuReleaseTransferBuffer, SDL_GpuReleaseShader,
      SDL_GpuReleaseComputePipeline, SDL_GpuReleaseGraphicsPipeline,
      SDL_GpuReleaseOcclusionQuery, SDL_GpuReleaseFence,
      SDL_CreateShaderFromSPIRV, NULL_ASSERT, SDL_LogWarn, SDL_SetError;
    preserves.
Qed.

Ltac unfold_macros H :=
  unfold CHECK_COMMAND_BUFFER, CHECK_COMMAND_BUFFER_RETURN_NULL,
    CHECK_ANY_PASS_IN_PROGRESS, CHECK_RENDERPASS, CHECK_COMPUTEPASS,
    CHECK_COPYPASS, CHECK_GRAPHICS_PIPELINE_BOUND,
    CHECK_COMPUTE_PIPELINE_BOUND, RENDERPASS_DEVICE, COMPUTEPASS_DEVICE,
    COPYPASS_DEVICE, RENDERPASS_COMMAND_BUFFER, COMPUTEPASS_COMMAND_BUFFER,
    COPYPASS_COMMAND_BUFFER, COMMAND_BUFFER_DEVICE, discard, bind, ret,
    load in H.

Ltac unfold_api H :=
  unfold SDL_GpuBeginRenderPass, SDL_GpuBindGraphicsPipeline,
    SDL_GpuSetViewport, SDL_GpuSetScissor, SDL_GpuBindVertexBuffers,
    SDL_GpuBindIndexBuffer, SDL_GpuBindVertexSamplers,
    SDL_GpuBindVertexStorageTextures, SDL_GpuBindVertexStorageBuffers,
    SDL_GpuBindFragmentSamplers, SDL_GpuBindFragmentStorageTextures,
    SDL_GpuBindFragmentStorageBuffers, SDL_GpuPushVertexUniformData,
    SDL_GpuPushFragmentUniformData, SDL_GpuDrawIndexedPrimitives,
    SDL_GpuDrawPrimitives, SDL_GpuDrawPrimitivesIndirect,
    SDL_GpuDrawIndexedPrimitivesIndirect, SDL_GpuEndRenderPass,
    SDL_GpuBeginComputePass, SDL_GpuBindComputePipeline,
    SDL_GpuBindComputeStorageTextures, SDL_GpuBindComputeStorageBuffers,
    SDL_GpuPushComputeUniformData, SDL_GpuDispatchCompute,
    SDL_GpuEndComputePass, SDL_GpuBeginCopyPass, SDL_GpuUploadToTexture,
    SDL_GpuUploadToBuffer, SDL_GpuCopyTextureToTexture,
    SDL_GpuCopyBufferToBuffer, SDL_GpuGenerateMipmaps,
    SDL_GpuDownloadFromTexture, SDL_GpuDownloadFromBuffer,
    SDL_GpuEndCopyPass, SDL_GpuSetStringMarker, SDL_GpuBlit,
    SDL_GpuAcquireSwapchainTexture, SDL_GpuSubmit,
    SDL_GpuSubmitAndAcquireFence, SDL_GpuOcclusionQueryBegin,
    SDL_GpuOcclusionQueryEnd in H.

(** A call on [NULL] or on an address that holds no command buffer either
    returns at once or does not return. *)
Ltac off_heap E :=
  unfold_api E;
  try (unfold bind at 1 in E;
       first [ rewrite NULL_ASSERT_None in E; destruct (2 <=? _)
             | rewrite NULL_ASSERT_Some in E ]);
  try discriminate E;
  unfold_macros E; cbn in E;
  repeat match type of E with
         | context [heap ?s !! ?a] =>
             match goal with H : heap s !! a = None |- _ => rewrite H in E end
         end;
  try discriminate E.

(** Split on what the pointer [p] of a call is: [NULL], an address that
    holds no command buffer, or an acquired command buffer.  [prep] opens
    a grouped call before it is run off the heap. *)
Ltac on_pointer_with prep p s Hok E :=
  let a := fresh "a" in
  let h := fresh "h" in
  let Hl := fresh "Hl" in
  let dev := fresh "dev" in
  let Hacq := fresh "Hacq" in
  destruct p as [a |];
  [ destruct (heap s !! a) as [h |] eqn:Hl;
    [ destruct (heap_ok_acquired _ _ _ Hok Hl) as [dev Hacq]
    | exfalso; prep; off_heap E ]
  | prep; off_heap E; try (left; by simplify_eq) ].

Ltac on_pointer p s Hok E := on_pointer_with idtac p s Hok E.

Ltac changed a h :=
  right; left; exists a, h; eexists;
  split; [ eassumption | split; [ by econstructor | reflexivity ] ].

(** On an acquired command buffer the equation [eqn] of the call says what
    the state becomes. *)
Ltac by_equation eqn a h E :=
  unfold discard, bind, ret in E; rewrite eqn in E;
  repeat case_match; simplify_eq;
  first [ left; reflexivity | changed a h ].

Lemma exec_effect c s s' :
  heap_ok s -> exec c s = Ok tt s' -> heap_effect c s s'.
Proof.
  intros Hok E. unfold heap_effect.
  destruct c as
    [ device | cb ? ? ? | rp ? | rp ? | rp ? | rp op | rp | cb ? ? ? ?
    | cp ? | cp op | cp | cb | xp op | xp | cb ? | cb ? ? ? ? | cb ? ? ?
    | cb | cb | cb ? | cb ? | device op ];
    cbn [exec] in E.
  - destruct device as [dev |].
    + unfold discard, bind, ret in E. rewrite acquire_eq in E.
      destruct (fst _) as [a |]; simplify_eq; [| by left].
      right; right. by exists a, dev.
    + exfalso. unfold discard, SDL_GpuAcquireCommandBuffer in E.
      unfold bind at 1 2 in E. rewrite NULL_ASSERT_None in E.
      by destruct (2 <=? _).
  - on_pointer cb s Hok E.
    by_equation (begin_render_eq _ _ _ _ colorAttachmentInfos
                   colorAttachmentCount depthStencilAttachmentInfo Hacq) a h E.
  - on_pointer rp s Hok E.
    by_equation (bind_graphics_eq _ _ _ _ graphicsPipeline Hacq) a h E.
  - on_pointer rp s Hok E.
    by_equation (set_viewport_eq _ _ _ _ viewport Hacq) a h E.
  - on_pointer rp s Hok E.
    by_equation (set_scissor_eq _ _ _ _ scissor Hacq) a h E.
  - on_pointer_with ltac:(destruct op; cbn [run_render] in E) rp s Hok E.
    by_equation (run_render_eq _ _ _ _ op Hacq) a h E.
  - on_pointer rp s Hok E.
    by_equation (end_render_eq _ _ _ _ Hacq) a h E.
  - on_pointer cb s Hok E.
    by_equation (begin_compute_eq _ _ _ _ storageTextureBindings
                   storageTextureBindingCount storageBufferBindings
                   storageBufferBindingCount Hacq) a h E.
  - on_pointer cp s Hok E.
    by_equation (bind_compute_eq _ _ _ _ computePipeline Hacq) a h E.
  - on_pointer_with ltac:(destruct op; cbn [run_compute] in E) cp s Hok E.
    by_equation (run_compute_eq _ _ _ _ op Hacq) a h E.
  - on_pointer cp s Hok E.
    by_equation (end_compute_eq _ _ _ _ Hacq) a h E.
  - on_pointer cb s Hok E.
    by_equation (begin_copy_eq _ _ _ _ Hacq) a h E.
  - on_pointer_with ltac:(destruct op; cbn [run_copy] in E) xp s Hok E.
    by_equation (run_copy_eq _ _ _ _ op Hacq) a h E.
  - on_pointer xp s Hok E.
    by_equation (end_copy_eq _ _ _ _ Hacq) a h E.
  - on_pointer cb s Hok E.
    by_equation (set_string_marker_eq _ _ _ _ text Hacq) a h E.
  - on_pointer cb s Hok E.
    by_equation (blit_eq _ _ _ _ source destination filterMode cycle Hacq)
      a h E.
  - on_pointer cb s Hok E.
    by_equation (acquire_swapchain_eq _ _ _ _ window pWidth pHeight Hacq)
      a h E.
  - on_pointer cb s Hok E.
    by_equation (submit_eq _ _ _ _ Hacq) a h E.
  - on_pointer cb s Hok E.
    by_equation (submit_fence_eq _ _ _ _ Hacq) a h E.
  - on_pointer cb s Hok E.
    by_equation (occlusion_begin_eq _ _ _ _ query Hacq) a h E.
  - on_pointer cb s Hok E.
    by_equation (occlusion_end_eq _ _ _ _ query Hacq) a h E.
  - left. exact (run_resource_heap _ _ _ _ _ E).
Qed.

Lemma header_step_ok a h h' :
  header_ok a h -> header_step h h' -> header_ok a h'.
Proof.
  intros (Hd & Hr & Hc & Hp & Hone & Hb) Hstep.
  destruct Hstep;
    unfold header_ok, passes_in_progress, any_pass_in_progress in *;
    cbn in *;
    destruct (inProgress (renderPass h)), (inProgress (computePass h)),
      (inProgress (copyPass h));
    cbn in *; repeat split; try done; try lia; try (intros; congruence).
Qed.

Lemma fresh_header_ok a dev : header_ok a (fresh_header (Some dev) (Some a)).
Proof. unfold header_ok. cbn. repeat split; eauto with lia. Qed.

Lemma heap_ok_step c s s' : heap_ok s -> exec c s = Ok tt s' -> heap_ok s'.
Proof.
  intros Hok E b hb.
  destruct (exec_effect _ _ _ Hok E)
    as [-> | [(a & h & h' & Hl & Hstep & ->) | (a & dev & _ & ->)]].
  - apply Hok.
  - destruct (decide (b = a)) as [-> | Hne].
    + rewrite lookup_insert_eq. intros [= <-].
      by eapply header_step_ok; [apply Hok |].
    + rewrite lookup_insert_ne by done. apply Hok.
  - destruct (decide (b = a)) as [-> | Hne].
    + rewrite lookup_insert_eq. intros [= <-]. apply fresh_header_ok.
    + rewrite lookup_insert_ne by done. apply Hok.
Qed.

Lemma reachable_heap_ok s : reachable s -> heap_ok s.
Proof.
  induction 1 as [w | s s' c _ IH E].
  - intros a h. cbn. by rewrite lookup_empty.
  - by eapply heap_ok_step.
Qed.

Lemma reachable_acquired s a h :
  reachable s -> heap s !! a = Some h -> exists dev, acquired s a h dev.
Proof. intros Hs. apply heap_ok_acquired. by apply reachable_heap_ok. Qed.

(** ** The assignments of the code, member by member *)

Lemma unit_answer (u : unit) : u = tt.
Proof. by destruct u. Qed.


Ltac by_members :=
  repeat split; try done; intros []; done.

Lemma begins_with k dev a h h' (c : DriverCall Blob unit) s :
  flagged k true h h' ->
  begins k dev a h c s (Ok (Some a) (with_header a h' (called dev c s))).
Proof.
  intros Hf. exists (with_header a h' (called dev c s)), h'.
  split; [done |]. split; [done |]. split; [| done].
  cbn. by destruct (fst _).
Qed.

Lemma submits_with {R} dev a h h' (c : DriverCall Blob R) s :
  marked_submitted h h' ->
  submits dev a h c s (answer dev c (with_header a h' s))
    (called dev c (with_header a h' s)).
Proof. intros Hm. by exists h'. Qed.

Lemma submits_unit dev a h h' (c : DriverCall Blob unit) s :
  marked_submitted h h' ->
  submits dev a h c s tt (called dev c (with_header a h' s)).
Proof.
  intros Hm. rewrite <- (unit_answer (answer dev c (with_header a h' s))).
  by apply submits_with.
Qed.

(** ** Beginning a pass *)

(** C1.  In every reachable state at most one of the three passes of a
    command buffer is in progress, and a begin-render/compute/copy-pass
    call goes through only on a non-null command buffer that is not
    submitted and has no pass in progress: then it forwards to the backend
    of the owning device, which is answered over the headers as the call
    found them, and after that the in-progress flag of its own pass is
    true in the header, every other member of the header and every other
    command buffer being as before; the call returns the handle of that
    pass.  On [NULL] it returns [NULL] and leaves the state as it is; on
    a submitted buffer or with a pass in progress it returns [NULL], and
    the state differs from the old one by a logged error only (no backend
    call, heap unchanged). *)
Theorem begin_pass_guard s :
  reachable s ->
  (forall a h, heap s !! a = Some h -> (passes_in_progress h <= 1)%nat)
  /\ (forall i n d, SDL_GpuBeginRenderPass None i n d s = Ok None s)
  /\ (forall t tn sb sbn,
        SDL_GpuBeginComputePass None t tn sb sbn s = Ok None s)
  /\ SDL_GpuBeginCopyPass None s = Ok None s
  /\ (forall a h,
        heap s !! a = Some h ->
        exists dev,
          device h = Some dev
          /\ (submitted h || any_pass_in_progress h = true ->
              let refusal :=
                EvLogError (if submitted h
                            then "Command buffer already submitted!"
                            else "Pass already in progress!") in
              (forall i n d,
                  SDL_GpuBeginRenderPass (Some a) i n d s
                  = Ok None (logged refusal s))
              /\ (forall t tn sb sbn,
                    SDL_GpuBeginComputePass (Some a) t tn sb sbn s
                    = Ok None (logged refusal s))
              /\ SDL_GpuBeginCopyPass (Some a) s = Ok None (logged refusal s))
          /\ (submitted h || any_pass_in_progress h = false ->
              (forall i n d,
                  begins Render dev a h (BeginRenderPass (Some a) i n d) s
                    (SDL_GpuBeginRenderPass (Some a) i n d s))
              /\ (forall t tn sb sbn,
                    begins Compute dev a h
                      (BeginComputePass (Some a) t tn sb sbn) s
                      (SDL_GpuBeginComputePass (Some a) t tn sb sbn s))
              /\ begins Copy dev a h (BeginCopyPass (Some a)) s
                   (SDL_GpuBeginCopyPass (Some a) s))).
Proof.
  intros Hs. pose proof (reachable_heap_ok _ Hs) as Hok.
  split; [| split; [| split; [| split]]]; try done.
  - intros a h Hl. by destruct (Hok _ _ Hl) as (_ & _ & _ & _ & ? & _).
  - intros a h Hl. destruct (heap_ok_acquired _ _ _ Hok Hl) as [dev Hacq].
    exists dev. split; [apply Hacq |].
    split; intros Hg; cbv zeta; repeat split; intros;
      rewrite ?(begin_render_eq _ _ _ _ _ _ _ Hacq),
        ?(begin_compute_eq _ _ _ _ _ _ _ _ Hacq),
        ?(begin_copy_eq _ _ _ _ Hacq);
      destruct (submitted h), (any_pass_in_progress h); try done;
      apply begins_with; by_members.
Qed.

(** ** Submission *)

(** A submitted command buffer stays submitted under every call but a new
    acquisition (which hands the memory out as a new command buffer). *)
Lemma submitted_stable c s s' a h :
  heap_ok s -> heap s !! a = Some h -> submitted h = true ->
  (forall device, c <> ApiAcquireCommandBuffer device) ->
  exec c s = Ok tt s' ->
  exists h', heap s' !! a = Some h' /\ submitted h' = true.
Proof.
  intros Hok Hl Hsub Hc E.
  destruct (exec_effect _ _ _ Hok E)
    as [-> | [(b & hb & hb' & Hb & Hstep & ->) | (b & dev & -> & _)]].
  - eauto.
  - destruct (decide (a = b)) as [<- | Hne].
    + rewrite lookup_insert_eq. eexists; split; [done |].
      rewrite Hl in Hb. injection Hb as <-.
      destruct Hstep; cbn; congruence.
    + rewrite lookup_insert_ne by done. eauto.
  - by destruct (Hc (Some dev)).
Qed.

(** C2.  On a command buffer of a reachable state that is not yet
    submitted, [SDL_GpuSubmit] and [SDL_GpuSubmitAndAcquireFence] are
    refused while a pass is in progress: an error is logged and nothing
    else changes (no backend call, the submitted flag stays false), so the
    buffer can be submitted once the pass has been ended.  With no pass in
    progress they go through: the submitted flag of the header is true
    afterwards, every other member being as before, and the backend was
    called with the flag already set, the fence variant returning what
    the backend answers.  In the state either of them leaves, every
    begin-pass and submit call on the buffer is refused.  The same holds
    on every submitted buffer, and a buffer stays submitted under every
    call other than a new acquisition. *)
Theorem submit_guard s a h :
  reachable s -> heap s !! a = Some h ->
  exists dev,
    device h = Some dev
    /\ (submitted h = false -> any_pass_in_progress h = true ->
        let refusal :=
          EvLogError
            "Cannot submit command buffer while a pass is in progress!" in
        SDL_GpuSubmit (Some a) s = Ok tt (logged refusal s)
        /\ SDL_GpuSubmitAndAcquireFence (Some a) s = Ok None (logged refusal s)
        /\ heap (logged refusal s) !! a = Some h
        /\ (inProgress (renderPass h) = true ->
            submits_after (SDL_GpuEndRenderPass (Some a)) a dev
              (logged refusal s))
        /\ (inProgress (computePass h) = true ->
            submits_after (SDL_GpuEndComputePass (Some a)) a dev
              (logged refusal s))
        /\ (inProgress (copyPass h) = true ->
            submits_after (SDL_GpuEndCopyPass (Some a)) a dev
              (logged refusal s)))
    /\ (submitted h = false -> any_pass_in_progress h = false ->
        exists s1 fence s2,
          SDL_GpuSubmit (Some a) s = Ok tt s1
          /\ submits dev a h (Submit (Some a)) s tt s1
          /\ SDL_GpuSubmitAndAcquireFence (Some a) s = Ok fence s2
          /\ submits dev a h (SubmitAndAcquireFence (Some a)) s fence s2
          /\ forall s', s' = s1 \/ s' = s2 ->
               let refusal := EvLogError "Command buffer already submitted!" in
               (forall i n d,
                   SDL_GpuBeginRenderPass (Some a) i n d s'
                   = Ok None (logged refusal s'))
               /\ (forall t tn sb sbn,
                     SDL_GpuBeginComputePass (Some a) t tn sb sbn s'
                     = Ok None (logged refusal s'))
               /\ SDL_GpuBeginCopyPass (Some a) s' = Ok None (logged refusal s')
               /\ SDL_GpuSubmit (Some a) s' = Ok tt (logged refusal s')
               /\ SDL_GpuSubmitAndAcquireFence (Some a) s'
                  = Ok None (logged refusal s'))
    /\ (submitted h = true ->
        let refusal := EvLogError "Command buffer already submitted!" in
        (forall i n d,
            SDL_GpuBeginRenderPass (Some a) i n d s = Ok None
                (logged refusal s))
        /\ (forall t tn sb sbn,
              SDL_GpuBeginComputePass (Some a) t tn sb sbn s
              = Ok None (logged refusal s))
        /\ SDL_GpuBeginCopyPass (Some a) s = Ok None (logged refusal s)
        /\ SDL_GpuSubmit (Some a) s = Ok tt (logged refusal s)
        /\ SDL_GpuSubmitAndAcquireFence (Some a) s = Ok None (logged refusal s)
        /\ (forall c s',
              (forall device, c <> ApiAcquireCommandBuffer device) ->
              exec c s = Ok tt s' ->
              exists h', heap s' !! a = Some h' /\ submitted h' = true)).
Proof.
  intros Hs Hl. pose proof (reachable_heap_ok _ Hs) as Hok.
  destruct (heap_ok_acquired _ _ _ Hok Hl) as [dev Hacq].
  exists dev. split; [apply Hacq |].
  split; [| split].
  - intros Hsub Hany. cbv zeta.
    rewrite (submit_eq _ _ _ _ Hacq), (submit_fence_eq _ _ _ _ Hacq).
    rewrite Hsub, Hany.
    set (s0 := logged _ s) in *.
    assert (acquired s0 a h dev) as Hacq0 by (by apply acquired_logged).
    destruct (Hok _ _ Hl) as (_ & _ & _ & _ & Hone & _).
    unfold passes_in_progress, any_pass_in_progress, submits_after in *.
    rewrite (end_render_eq _ _ _ _ Hacq0), (end_compute_eq _ _ _ _ Hacq0),
      (end_copy_eq _ _ _ _ Hacq0).
    destruct (inProgress (renderPass h)) eqn:Er,
      (inProgress (computePass h)) eqn:Ec,
      (inProgress (copyPass h)) eqn:Ep;
      cbn in Hone, Hany; try lia; try done;
      repeat split; try done; intros _;
      (eexists _, _, _; split; [done |]; split; [apply with_header_lookup |];
       erewrite submit_eq
         by (apply acquired_with_header; cbn; apply Hacq);
       unfold any_pass_in_progress; cbn;
       rewrite ?Er, ?Ec, ?Ep, ?Hsub; split; [done |];
       apply submits_unit; by_members).
  - intros Hsub Hany.
    rewrite (submit_eq _ _ _ _ Hacq), (submit_fence_eq _ _ _ _ Hacq).
    rewrite Hsub, Hany.
    set (h' := set_submitted true h).
    assert (marked_submitted h h') as Hm by by_members.
    eexists _, _, _. split; [done |]. split.
    { by apply submits_unit. }
    split; [done |]. split; [by apply submits_with |].
    intros s' Hs'.
    assert (acquired s' a h' dev) as Hacq'.
    { destruct Hs' as [-> | ->]; apply acquired_called;
        apply acquired_with_header; cbn; apply Hacq. }
    cbv zeta.
    rewrite (submit_eq _ _ _ _ Hacq'), (submit_fence_eq _ _ _ _ Hacq'),
      (begin_copy_eq _ _ _ _ Hacq').
    repeat split; try done.
    + intros. by rewrite (begin_render_eq _ _ _ _ _ _ _ Hacq').
    + intros. by rewrite (begin_compute_eq _ _ _ _ _ _ _ _ Hacq').
  - intros Hsub. cbv zeta.
    rewrite (submit_eq _ _ _ _ Hacq), (submit_fence_eq _ _ _ _ Hacq),
      (begin_copy_eq _ _ _ _ Hacq), Hsub.
    repeat split; try done.
    + intros. by rewrite (begin_render_eq _ _ _ _ _ _ _ Hacq), Hsub.
    + intros. by rewrite (begin_compute_eq _ _ _ _ _ _ _ _ Hacq), Hsub.
    + intros c s' Hc E. by eapply submitted_stable.
Qed.

(** ** Pipeline-gated calls *)

(** C3.  On a command buffer of a reachable state, each of the fourteen
    pipeline-gated calls of a render pass ([run_render]) and of the four of
    a compute pass ([run_compute]) first asks for its pass to be in
    progress and then for its pipeline to be bound; failing either, it
    logs the error and changes nothing else (no backend call); otherwise
    it forwards to the backend of the owning device.  After beginning and
    ending a render pass on an idle command buffer every one of the render
    calls is refused. *)
Theorem gated_calls_guard s a h :
  reachable s -> heap s !! a = Some h ->
  exists dev,
    device h = Some dev
    /\ (forall op,
          run_render (Some a) op s =
            if negb (inProgress (renderPass h))
            then Ok tt (logged (EvLogError "Render pass not in progress!") s)
            else if negb (graphicsPipelineBound h)
            then Ok tt (logged (EvLogError "Graphics pipeline not bound!") s)
            else Ok tt (called dev (render_call (Some a) op) s))
    /\ (forall op,
          run_compute (Some a) op s =
            if negb (inProgress (computePass h))
            then Ok tt (logged (EvLogError "Compute pass not in progress!") s)
            else if negb (computePipelineBound h)
            then Ok tt (logged (EvLogError "Compute pipeline not bound!") s)
            else Ok tt (called dev (compute_call (Some a) op) s))
    /\ (submitted h = false -> any_pass_in_progress h = false ->
        forall i n d op,
          exists s2,
            bind (SDL_GpuBeginRenderPass (Some a) i n d)
              SDL_GpuEndRenderPass s = Ok tt s2
            /\ trace s2 =
                 (trace s ++ [EvCall dev (BeginRenderPass (Some a) i n d) tt;
                              EvCall dev (EndRenderPass (Some a)) tt])%list
            /\ run_render (Some a) op s2 =
                 Ok tt (logged (EvLogError "Render pass not in progress!") s2)).
Proof.
  intros Hs Hl. pose proof (reachable_heap_ok _ Hs) as Hok.
  destruct (heap_ok_acquired _ _ _ Hok Hl) as [dev Hacq].
  exists dev. split; [apply Hacq |]. split; [| split].
  - intros op. rewrite (run_render_eq _ _ _ _ _ Hacq).
    by destruct (inProgress _), (graphicsPipelineBound _).
  - intros op. rewrite (run_compute_eq _ _ _ _ _ Hacq).
    by destruct (inProgress _), (computePipelineBound _).
  - intros Hsub Hany i n d op. eexists. split; [| split].
    + unfold bind. rewrite (begin_render_eq _ _ _ _ _ _ _ Hacq), Hsub, Hany.
      erewrite end_render_eq
        by (apply acquired_with_header; cbn; apply Hacq).
      cbn. reflexivity.
    + cbn. rewrite <- app_assoc. cbn. repeat f_equal.
      all: by destruct (fst _).
    + erewrite run_render_eq
        by (apply acquired_with_header; cbn; apply Hacq).
      done.
Qed.

(** ** Acquisition *)

(** C9.  [SDL_GpuAcquireCommandBuffer] on a device: when the backend
    yields a buffer, the call returns it with every flag of its header
    cleared (no pass in progress, no pipeline bound, not submitted), the
    three pass trackers pointing back at it and its device set to the
    acquiring device, every other command buffer being left alone; when
    the backend yields none, the call returns [NULL] and the heap is as it
    was. *)
Theorem acquire_idle s dev :
  let c := AcquireCommandBuffer (driverData dev) in
  match fst (driver dev _ c (headers s) (world s)) with
  | Some a =>
      exists s' h,
        SDL_GpuAcquireCommandBuffer (Some dev) s = Ok (Some a) s'
        /\ heap s' !! a = Some h
        /\ inProgress (renderPass h) = false
        /\ inProgress (computePass h) = false
        /\ inProgress (copyPass h) = false
        /\ graphicsPipelineBound h = false
        /\ computePipelineBound h = false
        /\ submitted h = false
        /\ commandBuffer (renderPass h) = Some a
        /\ commandBuffer (computePass h) = Some a
        /\ commandBuffer (copyPass h) = Some a
        /\ device h = Some dev
        /\ (forall b, b <> a -> heap s' !! b = heap s !! b)
  | None =>
      SDL_GpuAcquireCommandBuffer (Some dev) s = Ok None (called dev c s)
      /\ heap (called dev c s) = heap s
  end.
Proof.
  cbv zeta. rewrite acquire_eq. destruct (fst _) as [a |]; [| done].
  eexists _, _. split; [done |]. split; [apply with_header_lookup |].
  repeat split; try done.
  intros b Hb. by rewrite with_header_lookup_ne.
Qed.

(** ** Depth-format negotiation *)

Lemma create_texture_eq s dev info :
  SDL_GpuCreateTexture (Some dev) info s =
    if IsDepthFormat (format info)
    then if answer dev (texture_probe dev info) s
         then forwarded dev (CreateTexture (driverData dev) info) info
                (called dev (texture_probe dev info) s)
         else let info' := set_format info (documented_fallback (format info))
             in
              forwarded dev (CreateTexture (driverData dev) info') info'
                (logged (fallback_warning (format info))
                   (called dev (texture_probe dev info) s))
    else forwarded dev (CreateTexture (driverData dev) info) info s.
Proof.
  unfold SDL_GpuCreateTexture, forwarded, answer, texture_probe,
    fallback_warning. mstep.
  destruct (IsDepthFormat _).
  - unfold bind at 1 2 3, deref, call at 1.
    destruct (fst _) eqn:E; cbn [negb].
    + by unfold ret at 1.
    + unfold bind at 1, SDL_LogWarn, emit.
      destruct (format info); done.
  - done.
Qed.

Lemma create_pipeline_eq s dev info :
  SDL_GpuCreateGraphicsPipeline (Some dev) info s =
    if hasDepthStencilAttachment (attachmentInfo info)
    then if answer dev (pipeline_probe dev info) s
         then forwarded dev (CreateGraphicsPipeline (driverData dev) info) info
                (called dev (pipeline_probe dev info) s)
         else let info' :=
                set_depthStencilFormat info
                  (documented_fallback
                     (depthStencilFormat (attachmentInfo info))) in
              forwarded dev (CreateGraphicsPipeline (driverData dev) info')
                info'
                (logged (fallback_warning
                           (depthStencilFormat (attachmentInfo info)))
                   (called dev (pipeline_probe dev info) s))
    else forwarded dev (CreateGraphicsPipeline (driverData dev) info) info s.
Proof.
  unfold SDL_GpuCreateGraphicsPipeline, forwarded, answer, pipeline_probe,
    fallback_warning. mstep.
  destruct (hasDepthStencilAttachment _).
  - unfold bind at 1 2 3, deref, call at 1.
    destruct (fst _) eqn:E; cbn [negb].
    + by unfold ret at 1.
    + unfold bind at 1, SDL_LogWarn, emit.
      destruct (depthStencilFormat _); done.
  - done.
Qed.

(** C7.  When the backend reports the requested depth/stencil format
    unsupported, texture creation (for a format that [IsDepthFormat]
    accepts) and graphics-pipeline creation (for a declared depth/stencil
    attachment) both substitute the documented fallback partner, log the
    warning that names the requested and the substituted format, and hand
    the backend a create-info whose format is the partner and whose other
    members are the caller's. *)
Theorem depth_format_fallback s dev :
  (forall info,
      IsDepthFormat (format info) = true ->
      answer dev (texture_probe dev info) s = false ->
      exists info',
        format info' = documented_fallback (format info)
        /\ usageFlags info' = usageFlags info
        /\ textureRest info' = textureRest info
        /\ SDL_GpuCreateTexture (Some dev) info s =
             forwarded dev (CreateTexture (driverData dev) info') info'
               (logged (fallback_warning (format info))
                  (called dev (texture_probe dev info) s)))
  /\ (forall info,
        hasDepthStencilAttachment (attachmentInfo info) = true ->
        answer dev (pipeline_probe dev info) s = false ->
        exists info',
          depthStencilFormat (attachmentInfo info')
          = documented_fallback (depthStencilFormat (attachmentInfo info))
          /\ hasDepthStencilAttachment (attachmentInfo info') = true
          /\ attachmentRest (attachmentInfo info')
             = attachmentRest (attachmentInfo info)
          /\ pipelineRest info' = pipelineRest info
          /\ SDL_GpuCreateGraphicsPipeline (Some dev) info s =
               forwarded dev (CreateGraphicsPipeline (driverData dev) info')
                 info'
                 (logged (fallback_warning
                            (depthStencilFormat (attachmentInfo info)))
                    (called dev (pipeline_probe dev info) s))).
Proof.
  split; intros info Hdepth Hprobe.
  - exists (set_format info (documented_fallback (format info))).
    by rewrite create_texture_eq, Hdepth, Hprobe.
  - exists (set_depthStencilFormat info
              (documented_fallback (depthStencilFormat (attachmentInfo info)))).
    by rewrite create_pipeline_eq, Hdepth, Hprobe.
Qed.

(** C10.  The create-info that texture creation and graphics-pipeline
    creation leave behind is the caller's with the format member replaced
    by the fallback when (and only when) the negotiation substituted one;
    every other member is as the caller set it. *)
Theorem negotiation_writes_back s dev :
  (forall info,
      let substituted :=
        IsDepthFormat (format info)
        && negb (answer dev (texture_probe dev info) s) in
      exists texture s',
        SDL_GpuCreateTexture (Some dev) info s =
          Ok (texture,
              if substituted
              then set_format info (documented_fallback (format info))
              else info) s')
  /\ (forall (info : SDL_GpuTextureCreateInfo Blob) newFormat,
        format (set_format info newFormat) = newFormat
        /\ usageFlags (set_format info newFormat) = usageFlags info
        /\ textureRest (set_format info newFormat) = textureRest info)
  /\ (forall info,
        let substituted :=
          hasDepthStencilAttachment (attachmentInfo info)
          && negb (answer dev (pipeline_probe dev info) s) in
        exists pipeline s',
          SDL_GpuCreateGraphicsPipeline (Some dev) info s =
            Ok (pipeline,
                if substituted
                then set_depthStencilFormat info
                       (documented_fallback
                          (depthStencilFormat (attachmentInfo info)))
                else info) s')
  /\ (forall (info : SDL_GpuGraphicsPipelineCreateInfo Blob) newFormat,
        let info' := set_depthStencilFormat info newFormat in
        depthStencilFormat (attachmentInfo info') = newFormat
        /\ hasDepthStencilAttachment (attachmentInfo info')
           = hasDepthStencilAttachment (attachmentInfo info)
        /\ attachmentRest (attachmentInfo info')
           = attachmentRest (attachmentInfo info)
        /\ pipelineRest info' = pipelineRest info).
Proof.
  split; [| split; [| split]]; try done.
  - intros info. cbv zeta. rewrite create_texture_eq. unfold forwarded.
    destruct (IsDepthFormat _), (answer _ _ _); cbn; eauto.
  - intros info. cbv zeta. rewrite create_pipeline_eq. unfold forwarded.
    destruct (hasDepthStencilAttachment _), (answer _ _ _); cbn; eauto.
Qed.

(** ** Creating and releasing resources *)

Lemma null_guarded {A D} (k : M A) s :
  (forall s', k s' = Crash NullDereference s') ->
  bind (NULL_ASSERT (@None D) "device != NULL") (fun _ => k) s
  = Crash null_device_fault s.
Proof.
  intros Hk. unfold bind, null_device_fault. rewrite NULL_ASSERT_None.
  by destruct (2 <=? SDL_ASSERT_LEVEL).
Qed.

Lemma run_resource_null op s :
  is_shader_creation op = false ->
  run_resource None op s = Crash null_device_fault s.
Proof.
  intros Hop.
  destruct op; try discriminate Hop; cbn [run_resource];
    try (progress unfold discard; apply bind_Crash);
    unfold_head; apply null_guarded; intros s';
    unfold bind, deref, ret;
    repeat match goal with
           | |- context [if ?b then _ else _] => destruct b
           end;
    done.
Qed.

(** C8, as the code has it.  Every create/release call on a resource other
    than shader creation guards its device with [NULL_ASSERT]: on a [NULL]
    device it does not return (the assertion fails where [SDL_assert] is
    compiled in, the device is dereferenced where it is not) and no
    backend is reached.  On a device, the thin calls forward their
    arguments to the backend and return its answer; texture and
    graphics-pipeline creation forward the create-info that the
    depth-format negotiation leaves, unchanged when the format is no depth
    format resp. no depth/stencil attachment is declared; shader creation
    forwards unless the request is rerouted through the translation
    shim. *)
Theorem resource_calls_forward s :
  (forall op,
      is_shader_creation op = false ->
      run_resource None op s = Crash null_device_fault s)
  /\ (forall dev,
        let dd := driverData dev in
        (forall i, SDL_GpuCreateComputePipeline (Some dev) i s
                   = call dev (CreateComputePipeline dd i) s)
        /\ (forall i, SDL_GpuCreateSampler (Some dev) i s
                      = call dev (CreateSampler dd i) s)
        /\ (forall u n, SDL_GpuCreateBuffer (Some dev) u n s
                        = call dev (CreateBuffer dd u n) s)
        /\ (forall u m n, SDL_GpuCreateTransferBuffer (Some dev) u m n s
                          = call dev (CreateTransferBuffer dd u m n) s)
        /\ SDL_GpuCreateOcclusionQuery (Some dev) s
           = call dev (CreateOcclusionQuery dd) s
        /\ (forall x, SDL_GpuReleaseTexture (Some dev) x s
                      = call dev (ReleaseTexture dd x) s)
        /\ (forall x, SDL_GpuReleaseSampler (Some dev) x s
                      = call dev (ReleaseSampler dd x) s)
        /\ (forall x, SDL_GpuReleaseBuffer (Some dev) x s
                      = call dev (ReleaseBuffer dd x) s)
        /\ (forall x, SDL_GpuReleaseTransferBuffer (Some dev) x s
                      = call dev (ReleaseTransferBuffer dd x) s)
        /\ (forall x, SDL_GpuReleaseShader (Some dev) x s
                      = call dev (ReleaseShader dd x) s)
        /\ (forall x, SDL_GpuReleaseComputePipeline (Some dev) x s
                      = call dev (ReleaseComputePipeline dd x) s)
        /\ (forall x, SDL_GpuReleaseGraphicsPipeline (Some dev) x s
                      = call dev (ReleaseGraphicsPipeline dd x) s)
        /\ (forall x, SDL_GpuReleaseOcclusionQuery (Some dev) x s
                      = call dev (ReleaseOcclusionQuery dd x) s)
        /\ (forall x, SDL_GpuReleaseFence (Some dev) x s
                      = call dev (ReleaseFence dd x) s)
        /\ (forall info,
              exists info' s1,
                SDL_GpuCreateTexture (Some dev) info s
                = forwarded dev (CreateTexture dd info') info' s1
                /\ (IsDepthFormat (format info) = false ->
                    info' = info /\ s1 = s))
        /\ (forall info,
              exists info' s1,
                SDL_GpuCreateGraphicsPipeline (Some dev) info s
                = forwarded dev (CreateGraphicsPipeline dd info') info' s1
                /\ (hasDepthStencilAttachment (attachmentInfo info) = false ->
                    info' = info /\ s1 = s))
        /\ (forall info,
              SDL_GpuCreateShader (Some dev) info s =
                if rerouted dev info
                then SDL_CreateShaderFromSPIRV (Some dev) info s
                else call dev (CreateShader dd info) s)).
Proof.
  split; [intros; by apply run_resource_null |].
  intros dev. cbv zeta.
  repeat split; intros; try (unfold_head; by mstep).
  - rewrite create_texture_eq.
    destruct (IsDepthFormat _); [| by eexists _, _].
    destruct (answer _ _ _); by eexists _, _.
  - rewrite create_pipeline_eq.
    destruct (hasDepthStencilAttachment _); [| by eexists _, _].
    destruct (answer _ _ _); by eexists _, _.
  - unfold SDL_GpuCreateShader, rerouted. unfold bind at 1.
    destruct (shaderFormat info =? _); cbn; [| done].
    by destruct (backend dev =? _).
Qed.

(** ** Backend selection *)

Lemma after_events_nil s : after_events [] (world s) s = s.
Proof. unfold after_events. rewrite app_nil_r. by destruct s. Qed.

(** The loop of the code makes the probes of [probing]. *)
Lemma first_prepared_probing (test : SDL_GpuDriver -> bool)
    (eligible : SDL_GpuDriver -> Prop) bs s :
  (forall b, test b = true <-> eligible b) ->
  exists evs w found,
    probing eligible bs (world s) evs w found
    /\ first_prepared test bs s
       = Ok (backendflag <$> found) (after_events evs w s).
Proof.
  intros Htest. revert s. induction bs as [| b bs IH]; intros s.
  - exists [], (world s), None. split; [constructor |].
    by rewrite after_events_nil.
  - cbn [first_prepared]. destruct (test b) eqn:Hb.
    + apply Htest in Hb.
      unfold bind, prepare. destruct (fst (PrepareDriver b (world s))) eqn:Hp.
      * exists [EvPrepareDriver (Name b) true],
          (snd (PrepareDriver b (world s))), (Some b).
        split; [by constructor | done].
      * set (s1 := {| world := _ |}).
        destruct (IH s1) as (evs & w & found & Hprobing & ->).
        exists (EvPrepareDriver (Name b) false :: evs), w, found.
        split; [by apply probing_miss |].
        unfold after_events. cbn. by rewrite <- app_assoc.
    + destruct (IH s) as (evs & w & found & Hprobing & ->).
      exists evs, w, found. split; [| done].
      apply probing_pass; [| done]. intros Hel. apply Htest in Hel. congruence.
Qed.

Lemma probing_deterministic eligible bs w evs1 w1 found1 evs2 w2 found2 :
  probing eligible bs w evs1 w1 found1 ->
  probing eligible bs w evs2 w2 found2 ->
  evs1 = evs2 /\ w1 = w2 /\ found1 = found2.
Proof.
  intros H1. revert evs2 w2 found2.
  induction H1 as [w | b bs w evs w' found Hno H1 IH | b bs w Hel Hp
                  | b bs w evs w' found Hel Hp H1 IH];
    intros evs2 w2 found2 H2; inversion H2; subst; try done; try congruence.
  - by apply IH.
  - destruct (IH _ _ _ ltac:(eassumption)) as (-> & -> & ->). done.
Qed.

Lemma probing_found eligible bs w evs w' b :
  probing eligible bs w evs w' (Some b) ->
  EvPrepareDriver (Name b) true ∈ evs.
Proof.
  intros H. remember (Some b) as found eqn:Hfound.
  induction H as [| | b' bs w | b' bs w evs w' found Hel Hp H IH].
  - done.
  - auto.
  - injection Hfound as ->. apply list_elem_of_here.
  - apply list_elem_of_further. auto.
Qed.

Lemma after_events_twice evs1 evs2 w1 w2 s :
  after_events evs2 w2 (after_events evs1 w1 s)
  = after_events (evs1 ++ evs2) w2 s.
Proof. unfold after_events. cbn. by rewrite app_assoc. Qed.

Lemma logged_after_events e evs w s :
  logged e (after_events evs w s) = after_events (evs ++ [e]) w s.
Proof. unfold logged, after_events. cbn. by rewrite app_assoc. Qed.

Lemma fallback_spec before w s :
  falls_back before w s (last_resort (after_events before w s)).
Proof.
  unfold last_resort, falls_back.
  destruct (first_prepared_probing (fun _ => true) (fun _ => True) backends
              (after_events before w s) ltac:(done))
    as (evs & w' & found & Hprobing & ->).
  exists evs, w', found. split; [done |].
  destruct found as [b |]; cbn [fmap option_fmap option_map].
  - by rewrite after_events_twice.
  - by rewrite after_events_twice, logged_after_events, <- app_assoc.
Qed.

Lemma named_spec gpudriver b :
  named gpudriver b = true <-> SDL_strcasecmp gpudriver (Name b) = 0.
Proof. unfold named. apply Z.eqb_eq. Qed.

Lemma preferred_spec preferredBackends b :
  preferred preferredBackends b = true
  <-> Z.land preferredBackends (backendflag b) <> 0.
Proof.
  unfold preferred. rewrite negb_true_iff. apply Z.eqb_neq.
Qed.

Lemma select_eq preferredBackends s :
  SDL_GpuSelectBackend preferredBackends s =
    match SDL_GetHint "SDL_HINT_GPU_BACKEND" with
    | Some gpudriver =>
        match first_prepared (named gpudriver) backends s with
        | Ok (Some flag) s' => Ok flag s'
        | Ok None s' =>
            Ok SDL_GPU_BACKEND_INVALID (logged (unsupported_hint gpudriver) s')
        | Crash f s' => Crash f s'
        end
    | None =>
        if preferredBackends =? SDL_GPU_BACKEND_INVALID
        then last_resort s
        else match first_prepared (preferred preferredBackends) backends s with
             | Ok (Some flag) s' => Ok flag s'
             | Ok None s' => last_resort (logged no_preferred s')
             | Crash f s' => Crash f s'
             end
    end.
Proof.
  unfold SDL_GpuSelectBackend, last_resort, bind, ret, SDL_LogError,
    SDL_LogWarn, emit.
  destruct (SDL_GetHint _) as [gpudriver |].
  - by destruct (first_prepared _ _ _) as [[flag |] s' |].
  - destruct (preferredBackends =? _); cbn [negb].
    + by destruct (first_prepared _ _ _) as [[flag |] s' |].
    + destruct (first_prepared _ _ _) as [[flag |] s' |]; try done.
      by destruct (first_prepared _ _ _) as [[flag |] s'' |].
Qed.

(** C6.  [SDL_GpuSelectBackend] follows a strict order.  With the
    environment override set, only the registered backends of that name
    are probed, in registry order; the first whose probe succeeds is
    selected, and when there is none the error is logged and the failure
    sentinel is returned at once, whatever the preferred mask is, so that
    [SDL_GpuCreateDevice] returns no device.  Without the override and
    with a non-empty mask, the backends whose flag meets the mask are
    probed in registry order and the first whose probe succeeds is
    selected; when there is none a warning is logged and every registered
    backend is probed in registry order; with an empty mask this last
    strategy is the only one.  Each probe runs in the world that the probes
    before it have left.  The sentinel comes back whenever no probe
    succeeded. *)
Theorem backend_selection preferredBackends s :
  match SDL_GetHint "SDL_HINT_GPU_BACKEND" with
  | Some gpudriver =>
      (exists evs w found,
          probing (fun b => SDL_strcasecmp gpudriver (Name b) = 0) backends
            (world s) evs w found
          /\ match found with
             | Some b =>
                 SDL_GpuSelectBackend preferredBackends s
                 = Ok (backendflag b) (after_events evs w s)
             | None =>
                 let s' :=
                   after_events (evs ++ [unsupported_hint gpudriver]) w s in
                 SDL_GpuSelectBackend preferredBackends s
                 = Ok SDL_GPU_BACKEND_INVALID s'
                 /\ forall debugMode,
                     SDL_GpuCreateDevice preferredBackends debugMode s
                     = Ok None s'
             end)
      /\ (forall otherMask,
            SDL_GpuSelectBackend otherMask s
            = SDL_GpuSelectBackend preferredBackends s)
  | None =>
      if preferredBackends =? SDL_GPU_BACKEND_INVALID
      then falls_back [] (world s) s
             (SDL_GpuSelectBackend preferredBackends s)
      else
        exists evs w found,
          probing (fun b => Z.land preferredBackends (backendflag b) <> 0)
            backends (world s) evs w found
          /\ match found with
             | Some b =>
                 SDL_GpuSelectBackend preferredBackends s
                 = Ok (backendflag b) (after_events evs w s)
             | None =>
                 falls_back (evs ++ [no_preferred]) w s
                   (SDL_GpuSelectBackend preferredBackends s)
             end
  end
  /\ (forall s', SDL_GpuSelectBackend preferredBackends s
                 = Ok SDL_GPU_BACKEND_INVALID s' ->
      forall debugMode,
        SDL_GpuCreateDevice preferredBackends debugMode s = Ok None s')
  /\ ((forall name, EvPrepareDriver name true
                    ∉ drop (length (trace s))
                        (match SDL_GpuSelectBackend preferredBackends s with
                         | Ok _ s' => trace s'
                         | Crash _ _ => []
                         end)) ->
      exists s', SDL_GpuSelectBackend preferredBackends s
                 = Ok SDL_GPU_BACKEND_INVALID s').
Proof.
  assert (forall s', SDL_GpuSelectBackend preferredBackends s
                     = Ok SDL_GPU_BACKEND_INVALID s' ->
          forall debugMode,
            SDL_GpuCreateDevice preferredBackends debugMode s = Ok None s')
    as Hcreate.
  { intros s' E debugMode. unfold SDL_GpuCreateDevice, bind.
    by rewrite E, Z.eqb_refl. }
  assert (forall b before evs w w0 eligible,
    probing eligible backends w0 evs w (Some b) ->
    SDL_GpuSelectBackend preferredBackends s
    = Ok (backendflag b) (after_events (before ++ evs) w s) ->
    (forall name, EvPrepareDriver name true
                  ∉ drop (length (trace s))
                      (match SDL_GpuSelectBackend preferredBackends s with
                       | Ok _ s' => trace s'
                       | Crash _ _ => []
                       end)) ->
    False) as Hcontra.
  { intros b before evs w w0 eligible Hprobing E Hnone.
    apply (Hnone (Name b)). rewrite E. cbn.
    rewrite drop_app_length, elem_of_app. right.
    by eapply probing_found. }
  split; [| split; [done |]].
  - rewrite select_eq. destruct (SDL_GetHint _) as [gpudriver |] eqn:Hhint.
    + split.
      * destruct (first_prepared_probing (named gpudriver) _ backends s
                    (named_spec gpudriver))
          as (evs & w & found & Hprobing & E).
        exists evs, w, found. split; [done |]. rewrite E.
        destruct found as [b |]; cbn [fmap option_fmap option_map]; [done |].
        cbv zeta. rewrite logged_after_events. split; [done |].
        intros debugMode. apply Hcreate.
        by rewrite select_eq, Hhint, E, logged_after_events.
      * intros otherMask. by rewrite select_eq, Hhint.
    + destruct (preferredBackends =? SDL_GPU_BACKEND_INVALID).
      * pose proof (fallback_spec [] (world s) s) as Hfb.
        by rewrite after_events_nil in Hfb.
      * destruct (first_prepared_probing (preferred preferredBackends) _
                    backends s (preferred_spec preferredBackends))
          as (evs & w & found & Hprobing & E).
        exists evs, w, found. split; [done |]. rewrite E.
        destruct found as [b |]; cbn [fmap option_fmap option_map]; [done |].
        rewrite logged_after_events. apply fallback_spec.
  - intros Hnone. rewrite select_eq in *.
    destruct (SDL_GetHint _) as [gpudriver |].
    + destruct (first_prepared_probing (named gpudriver) _ backends s
                  (named_spec gpudriver))
        as (evs & w & found & Hprobing & E).
      rewrite E in *.
      destruct found as [b |]; cbn [fmap option_fmap option_map] in *;
        [| eauto].
      destruct (Hcontra b [] evs w _ _ Hprobing eq_refl Hnone).
    + destruct (preferredBackends =? SDL_GPU_BACKEND_INVALID).
      * destruct (fallback_spec [] (world s) s) as (evs & w & found & Hp & E).
        rewrite after_events_nil in E. rewrite E in *.
        destruct found as [b |]; [| eauto].
        destruct (Hcontra b [] evs w _ _ Hp eq_refl Hnone).
      * destruct (first_prepared_probing (preferred preferredBackends) _
                    backends s (preferred_spec preferredBackends))
          as (evs & w & found & Hprobing & E).
        rewrite E in *.
        destruct found as [b |]; cbn [fmap option_fmap option_map] in *.
        { destruct (Hcontra b [] evs w _ _ Hprobing eq_refl Hnone). }
        rewrite logged_after_events in *.
        destruct (fallback_spec (evs ++ [no_preferred]) w s)
          as (evs2 & w2 & found2 & Hp2 & E2).
        rewrite E2 in *.
        destruct found2 as [b |]; [| eauto].
        destruct (Hcontra b _ evs2 w2 _ _ Hp2 eq_refl Hnone).
Qed.

(** ** What holds of the gates and of the copy pass *)

(** X1. The compute gate is true only inside a compute pass:
    [SDL_GpuBindComputePipeline] asks for the pass and is refused outside
    it, and ending a render or a compute pass clears the gate of that pass
    whatever it was. *)
Theorem compute_gate_needs_pass s a h :
  reachable s -> heap s !! a = Some h ->
  exists dev,
    device h = Some dev
    /\ (computePipelineBound h = true -> inProgress (computePass h) = true)
    /\ (forall p,
          SDL_GpuBindComputePipeline (Some a) p s =
            if inProgress (computePass h)
            then Ok tt (with_header a (set_computePipelineBound true h)
                          (called dev (BindComputePipeline (Some a) p) s))
            else Ok tt (logged (EvLogError "Compute pass not in progress!") s))
    /\ (inProgress (renderPass h) = true ->
        exists s' h',
          SDL_GpuEndRenderPass (Some a) s = Ok tt s'
          /\ heap s' !! a = Some h'
          /\ inProgress (renderPass h') = false
          /\ graphicsPipelineBound h' = false)
    /\ (inProgress (computePass h) = true ->
        exists s' h',
          SDL_GpuEndComputePass (Some a) s = Ok tt s'
          /\ heap s' !! a = Some h'
          /\ inProgress (computePass h') = false
          /\ computePipelineBound h' = false).
Proof.
  intros Hs Hl. pose proof (reachable_heap_ok _ Hs) as Hok.
  destruct (heap_ok_acquired _ _ _ Hok Hl) as [dev Hacq].
  exists dev. split; [apply Hacq |].
  split; [by destruct (Hok _ _ Hl) as (_ & _ & _ & _ & _ & ?) |].
  split; [intros p; by rewrite (bind_compute_eq _ _ _ _ _ Hacq) |].
  split; intros Hin.
  - rewrite (end_render_eq _ _ _ _ Hacq), Hin. eexists _, _.
    split; [done |]. split; [apply with_header_lookup | done].
  - rewrite (end_compute_eq _ _ _ _ Hacq), Hin. eexists _, _.
    split; [done |]. split; [apply with_header_lookup | done].
Qed.

(** X2. The calls of a copy pass consult no pipeline gate:
    [SDL_GpuUploadToTexture] forwards while the copy pass is in progress and
    is refused with an error otherwise; [SDL_GpuEndCopyPass] asks for the
    pass as well, forwards to the backend and leaves the header with the
    in-progress flag of the copy pass false and every other member,
    both pipeline gates among them, as it was. *)
Theorem copy_pass_gate s a h :
  reachable s -> heap s !! a = Some h ->
  exists dev,
    device h = Some dev
    /\ (forall t r p c,
          SDL_GpuUploadToTexture (Some a) t r p c s =
            if inProgress (copyPass h)
            then Ok tt (called dev (UploadToTexture (Some a) t r p c) s)
            else Ok tt (logged (EvLogError "Copy pass not in progress!") s))
    /\ (inProgress (copyPass h) = false ->
        SDL_GpuEndCopyPass (Some a) s
        = Ok tt (logged (EvLogError "Copy pass not in progress!") s))
    /\ (inProgress (copyPass h) = true ->
        exists h',
          SDL_GpuEndCopyPass (Some a) s
          = Ok tt (with_header a h' (called dev (EndCopyPass (Some a)) s))
          /\ inProgress (copyPass h') = false
          /\ renderPass h' = renderPass h
          /\ computePass h' = computePass h
          /\ commandBuffer (copyPass h') = commandBuffer (copyPass h)
          /\ graphicsPipelineBound h' = graphicsPipelineBound h
          /\ computePipelineBound h' = computePipelineBound h
          /\ submitted h' = submitted h
          /\ device h' = device h).
Proof.
  intros Hs Hl. pose proof (reachable_heap_ok _ Hs) as Hok.
  destruct (heap_ok_acquired _ _ _ Hok Hl) as [dev Hacq].
  exists dev. split; [apply Hacq |]. split; [| split].
  - intros t r p c.
    change (SDL_GpuUploadToTexture (Some a) t r p c s)
      with (run_copy (Some a) (OpUploadToTexture t r p c) s).
    rewrite (run_copy_eq _ _ _ _ _ Hacq). cbn.
    by destruct (inProgress _).
  - intros Hin. by rewrite (end_copy_eq _ _ _ _ Hacq), Hin.
  - intros Hin. exists (set_copyPass_inProgress false h).
    by rewrite (end_copy_eq _ _ _ _ Hacq), Hin.
Qed.

(** X3. Viewport and scissor are state of the pass: they ask for the render
    pass to be in progress and not for a bound pipeline. *)
Theorem viewport_scissor_need_pass_only s a h :
  reachable s -> heap s !! a = Some h ->
  exists dev,
    device h = Some dev
    /\ (forall v,
          SDL_GpuSetViewport (Some a) v s =
            if inProgress (renderPass h)
            then Ok tt (called dev (SetViewport (Some a) v) s)
            else Ok tt (logged (EvLogError "Render pass not in progress!") s))
    /\ (forall r,
          SDL_GpuSetScissor (Some a) r s =
            if inProgress (renderPass h)
            then Ok tt (called dev (SetScissor (Some a) r) s)
            else Ok tt (logged (EvLogError "Render pass not in progress!") s)).
Proof.
  intros Hs Hl. pose proof (reachable_heap_ok _ Hs) as Hok.
  destruct (heap_ok_acquired _ _ _ Hok Hl) as [dev Hacq].
  exists dev. split; [apply Hacq |]. split; intros v.
  - by rewrite (set_viewport_eq _ _ _ _ _ Hacq).
  - by rewrite (set_scissor_eq _ _ _ _ _ Hacq).
Qed.

(** ** Calls on a command buffer: outcome, ownership and framing *)

Lemma refused_logged s msg : refused s (logged (EvLogError msg) s).
Proof. by exists msg. Qed.

Lemma dispatched_called {R} dev a h s (c : DriverCall Blob R) :
  dispatched dev a h s (called dev c s).
Proof. exists R, c, (heap s). split; [by left |]. repeat split. by left. Qed.

Lemma dispatched_step {R} dev a h h' s (c : DriverCall Blob R) :
  header_step h h' ->
  dispatched dev a h s (with_header a h' (called dev c s)).
Proof.
  intros Hstep. exists R, c, (heap s). split; [by left |].
  repeat split. right. by exists h'.
Qed.

Lemma dispatched_after_step {R} dev a h h' s (c : DriverCall Blob R) :
  header_step h h' ->
  dispatched dev a h s (called dev c (with_header a h' s)).
Proof.
  intros Hstep. exists R, c, (<[a := h']> (heap s)). split; [by right |].
  repeat split. right. by exists h'.
Qed.

(** Read the outcome of a call off its equation. *)
Ltac outcome Hd :=
  repeat match goal with
         | |- context [if ?b then _ else _] =>
             lazymatch type of b with bool => destruct b eqn:? end
         end;
  eexists;
  (split; [exact Hd | split; [reflexivity |]]);
  first
    [ left; apply refused_logged
    | right; apply dispatched_called
    | right; apply dispatched_step; by econstructor
    | right; apply dispatched_after_step; by econstructor ].

(** X4.  A call on a command buffer of a reachable state returns, and in
    one of two ways.  Either it is refused: one error is logged and
    nothing else happens (no backend is reached, the heap stays as it
    is).  Or it goes through: exactly one entry of the function table
    runs, on the device that acquired the buffer, and of the heap at most
    the header of this buffer changes, by one step of the transition
    system. *)
Theorem call_outcome s a h c :
  reachable s -> heap s !! a = Some h -> target c = Some a ->
  exists dev s',
    device h = Some dev
    /\ exec c s = Ok tt s'
    /\ (refused s s' \/ dispatched dev a h s s').
Proof.
  intros Hs Hl Ht.
  destruct (reachable_acquired _ _ _ Hs Hl) as [dev Hacq].
  assert (device h = Some dev) as Hd by apply Hacq.
  exists dev.
  destruct c as
    [ device | cb ? ? ? | rp ? | rp ? | rp ? | rp op | rp | cb ? ? ? ?
    | cp ? | cp op | cp | cb | xp op | xp | cb ? | cb ? ? ? ? | cb ? ? ?
    | cb | cb | cb ? | cb ? | device op ];
    cbn [target] in Ht; try discriminate Ht; subst; cbn [exec];
    unfold discard, bind, ret.
  - rewrite (begin_render_eq _ _ _ _ _ _ _ Hacq). outcome Hd.
  - rewrite (bind_graphics_eq _ _ _ _ _ Hacq). outcome Hd.
  - rewrite (set_viewport_eq _ _ _ _ _ Hacq). outcome Hd.
  - rewrite (set_scissor_eq _ _ _ _ _ Hacq). outcome Hd.
  - rewrite (run_render_eq _ _ _ _ _ Hacq). outcome Hd.
  - rewrite (end_render_eq _ _ _ _ Hacq). outcome Hd.
  - rewrite (begin_compute_eq _ _ _ _ _ _ _ _ Hacq). outcome Hd.
  - rewrite (bind_compute_eq _ _ _ _ _ Hacq). outcome Hd.
  - rewrite (run_compute_eq _ _ _ _ _ Hacq). outcome Hd.
  - rewrite (end_compute_eq _ _ _ _ Hacq). outcome Hd.
  - rewrite (begin_copy_eq _ _ _ _ Hacq). outcome Hd.
  - rewrite (run_copy_eq _ _ _ _ _ Hacq). outcome Hd.
  - rewrite (end_copy_eq _ _ _ _ Hacq). outcome Hd.
  - rewrite (set_string_marker_eq _ _ _ _ _ Hacq). outcome Hd.
  - rewrite (blit_eq _ _ _ _ _ _ _ _ Hacq). outcome Hd.
  - rewrite (acquire_swapchain_eq _ _ _ _ _ _ _ Hacq). outcome Hd.
  - rewrite (submit_eq _ _ _ _ Hacq). outcome Hd.
  - rewrite (submit_fence_eq _ _ _ _ Hacq). outcome Hd.
  - rewrite (occlusion_begin_eq _ _ _ _ _ Hacq). outcome Hd.
  - rewrite (occlusion_end_eq _ _ _ _ _ Hacq). outcome Hd.
Qed.

Ltac changed_at a h :=
  right; left; exists a, h; eexists;
  split; [ reflexivity
         | split; [ eassumption | split; [ by econstructor | reflexivity ] ] ].

Ltac by_equation_at eqn a h E :=
  unfold discard, bind, ret in E; rewrite eqn in E;
  repeat case_match; simplify_eq;
  first [ left; reflexivity | changed_at a h ].

(** Where a call changes the heap: at its own command buffer, or at the
    block the backend hands out on acquisition. *)
Lemma exec_effect_at c s s' :
  heap_ok s -> exec c s = Ok tt s' ->
  heap s' = heap s
  \/ (exists a h h',
        target c = Some a /\ heap s !! a = Some h /\ header_step h h'
        /\ heap s' = <[a := h']> (heap s))
  \/ (exists a dev,
        c = ApiAcquireCommandBuffer (Some dev)
        /\ answer dev (AcquireCommandBuffer (driverData dev)) s = Some a
        /\ heap s' = <[a := fresh_header (Some dev) (Some a)]> (heap s)).
Proof.
  intros Hok E.
  destruct c as
    [ device | cb ? ? ? | rp ? | rp ? | rp ? | rp op | rp | cb ? ? ? ?
    | cp ? | cp op | cp | cb | xp op | xp | cb ? | cb ? ? ? ? | cb ? ? ?
    | cb | cb | cb ? | cb ? | device op ];
    cbn [exec] in E.
  - destruct device as [dev |].
    + unfold discard, bind, ret in E. rewrite acquire_eq in E.
      destruct (fst _) as [a |] eqn:Ea; simplify_eq; [| by left].
      right; right. by exists a, dev.
    + exfalso. unfold discard, SDL_GpuAcquireCommandBuffer in E.
      unfold bind at 1 2 in E. rewrite NULL_ASSERT_None in E.
      by destruct (2 <=? _).
  - on_pointer cb s Hok E.
    by_equation_at (begin_render_eq _ _ _ _ colorAttachmentInfos
                      colorAttachmentCount depthStencilAttachmentInfo Hacq)
      a h E.
  - on_pointer rp s Hok E.
    by_equation_at (bind_graphics_eq _ _ _ _ graphicsPipeline Hacq) a h E.
  - on_pointer rp s Hok E.
    by_equation_at (set_viewport_eq _ _ _ _ viewport Hacq) a h E.
  - on_pointer rp s Hok E.
    by_equation_at (set_scissor_eq _ _ _ _ scissor Hacq) a h E.
  - on_pointer_with ltac:(destruct op; cbn [run_render] in E) rp s Hok E.
    by_equation_at (run_render_eq _ _ _ _ op Hacq) a h E.
  - on_pointer rp s Hok E.
    by_equation_at (end_render_eq _ _ _ _ Hacq) a h E.
  - on_pointer cb s Hok E.
    by_equation_at (begin_compute_eq _ _ _ _ storageTextureBindings
                      storageTextureBindingCount storageBufferBindings
                      storageBufferBindingCount Hacq) a h E.
  - on_pointer cp s Hok E.
    by_equation_at (bind_compute_eq _ _ _ _ computePipeline Hacq) a h E.
  - on_pointer_with ltac:(destruct op; cbn [run_compute] in E) cp s Hok E.
    by_equation_at (run_compute_eq _ _ _ _ op Hacq) a h E.
  - on_pointer cp s Hok E.
    by_equation_at (end_compute_eq _ _ _ _ Hacq) a h E.
  - on_pointer cb s Hok E.
    by_equation_at (begin_copy_eq _ _ _ _ Hacq) a h E.
  - on_pointer_with ltac:(destruct op; cbn [run_copy] in E) xp s Hok E.
    by_equation_at (run_copy_eq _ _ _ _ op Hacq) a h E.
  - on_pointer xp s Hok E.
    by_equation_at (end_copy_eq _ _ _ _ Hacq) a h E.
  - on_pointer cb s Hok E.
    by_equation_at (set_string_marker_eq _ _ _ _ text Hacq) a h E.
  - on_pointer cb s Hok E.
    by_equation_at (blit_eq _ _ _ _ source destination filterMode cycle Hacq)
      a h E.
  - on_pointer cb s Hok E.
    by_equation_at (acquire_swapchain_eq _ _ _ _ window pWidth pHeight Hacq)
      a h E.
  - on_pointer cb s Hok E.
    by_equation_at (submit_eq _ _ _ _ Hacq) a h E.
  - on_pointer cb s Hok E.
    by_equation_at (submit_fence_eq _ _ _ _ Hacq) a h E.
  - on_pointer cb s Hok E.
    by_equation_at (occlusion_begin_eq _ _ _ _ query Hacq) a h E.
  - on_pointer cb s Hok E.
    by_equation_at (occlusion_end_eq _ _ _ _ query Hacq) a h E.
  - left. exact (run_resource_heap _ _ _ _ _ E).
Qed.

Lemma header_step_identity h h' :
  header_step h h' ->
  device h' = device h
  /\ commandBuffer (renderPass h') = commandBuffer (renderPass h)
  /\ commandBuffer (computePass h') = commandBuffer (computePass h)
  /\ commandBuffer (copyPass h') = commandBuffer (copyPass h).
Proof. by destruct 1. Qed.

(** X5.  Command buffers are isolated from each other.  A call that
    returns leaves every command buffer of a reachable state in place; it
    changes the header of a buffer only if it works on that very buffer
    (by one step of the transition system) or if it is the acquisition to
    which the backend hands this block out again (the header is then
    re-initialised).  Under every call but an acquisition the device of a
    buffer stays what it was. *)
Theorem command_buffers_are_isolated s s' c b hb :
  reachable s -> heap s !! b = Some hb -> exec c s = Ok tt s' ->
  exists hb',
    heap s' !! b = Some hb'
    /\ (hb' = hb
        \/ (target c = Some b /\ header_step hb hb')
        \/ (exists dev,
              c = ApiAcquireCommandBuffer (Some dev)
              /\ answer dev (AcquireCommandBuffer (driverData dev)) s = Some b
              /\ hb' = fresh_header (Some dev) (Some b)))
    /\ ((forall device, c <> ApiAcquireCommandBuffer device) ->
        device hb' = device hb).
Proof.
  intros Hs Hb E. pose proof (reachable_heap_ok _ Hs) as Hok.
  destruct (exec_effect_at _ _ _ Hok E)
    as [-> | [(a & h & h' & Ht & Hl & Hstep & ->)
             | (a & dev & -> & Ha & ->)]].
  - exists hb. auto.
  - destruct (decide (b = a)) as [-> | Hne].
    + rewrite Hl in Hb. injection Hb as ->.
      exists h'. rewrite lookup_insert_eq. split; [done |].
      split; [auto |]. intros _. by apply header_step_identity.
    + exists hb. rewrite lookup_insert_ne by done. auto.
  - destruct (decide (b = a)) as [-> | Hne].
    + eexists. rewrite lookup_insert_eq. split; [done |].
      split; [right; right; eauto |]. intros Hc. by destruct (Hc (Some dev)).
    + exists hb. rewrite lookup_insert_ne by done. auto.
Qed.

(** A submitted header has no pass in progress: submission asks for it, and
    no pass begins on a submitted command buffer. *)
Lemma header_step_submitted h h' :
  header_step h h' ->
  (submitted h = true -> any_pass_in_progress h = false) ->
  submitted h' = true -> any_pass_in_progress h' = false.
Proof.
  intros Hstep Hinv. destruct Hstep; unfold any_pass_in_progress in *; cbn;
    intros Hsub;
    try (specialize (Hinv Hsub));
    try congruence; try done;
    destruct (inProgress (renderPass h)), (inProgress (computePass h)),
      (inProgress (copyPass h)); cbn in *; congruence.
Qed.

Lemma reachable_submitted_idle s a h :
  reachable s -> heap s !! a = Some h -> submitted h = true ->
  any_pass_in_progress h = false.
Proof.
  intros Hs. revert a h.
  induction Hs as [w | s s' c Hs IH E]; intros b hb.
  - cbn. by rewrite lookup_empty.
  - pose proof (reachable_heap_ok _ Hs) as Hok.
    destruct (exec_effect_at _ _ _ Hok E)
      as [-> | [(a & h & h' & _ & Hl & Hstep & ->)
               | (a & dev & _ & _ & ->)]].
    + apply IH.
    + destruct (decide (b = a)) as [-> | Hne].
      * rewrite lookup_insert_eq. intros [= <-].
        eapply header_step_submitted; eauto.
      * rewrite lookup_insert_ne by done. apply IH.
    + destruct (decide (b = a)) as [-> | Hne].
      * rewrite lookup_insert_eq. by intros [= <-].
      * rewrite lookup_insert_ne by done. apply IH.
Qed.

Lemma reachable_flags s a h :
  reachable s -> heap s !! a = Some h ->
  (passes_in_progress h <= 1)%nat
  /\ (computePipelineBound h = true -> inProgress (computePass h) = true).
Proof.
  intros Hs Hl.
  by destruct (reachable_heap_ok _ Hs _ _ Hl) as (_ & _ & _ & _ & ? & ?).
Qed.

Lemma any_pass_false h :
  any_pass_in_progress h = false ->
  inProgress (renderPass h) = false
  /\ inProgress (computePass h) = false
  /\ inProgress (copyPass h) = false.
Proof.
  unfold any_pass_in_progress.
  by destruct (inProgress (renderPass h)), (inProgress (computePass h)),
    (inProgress (copyPass h)).
Qed.

(** X6.  Submission is final.  A submitted command buffer of a reachable
    state has no pass in progress and no compute pipeline bound, and every
    call on it is refused with an error, without reaching the backend,
    except the calls whose functions carry no check that could see it:
    [SDL_GpuBindGraphicsPipeline], the transfers that do not open with
    [CHECK_COPYPASS], and the two occlusion-query calls. *)
Theorem submitted_is_final s a h :
  reachable s -> heap s !! a = Some h -> submitted h = true ->
  inProgress (renderPass h) = false
  /\ inProgress (computePass h) = false
  /\ inProgress (copyPass h) = false
  /\ computePipelineBound h = false
  /\ forall c,
       target c = Some a ->
       (forall p, c <> ApiBindGraphicsPipeline (Some a) p) ->
       (forall op, copy_checked op = false -> c <> ApiCopy (Some a) op) ->
       (forall q, c <> ApiOcclusionQueryBegin (Some a) q) ->
       (forall q, c <> ApiOcclusionQueryEnd (Some a) q) ->
       exists s', exec c s = Ok tt s' /\ refused s s'.
Proof.
  intros Hs Hl Hsub.
  destruct (reachable_acquired _ _ _ Hs Hl) as [dev Hacq].
  pose proof (reachable_submitted_idle _ _ _ Hs Hl Hsub) as Hany.
  destruct (any_pass_false _ Hany) as (Hr & Hc & Hp).
  destruct (reachable_flags _ _ _ Hs Hl) as (_ & Hgate).
  assert (computePipelineBound h = false) as Hcg.
  { destruct (computePipelineBound h); [| done]. rewrite Hgate in Hc; done. }
  do 4 (split; [done |]).
  intros c Ht Hbg Hcopy Hqb Hqe.
  destruct c as
    [ device | cb ? ? ? | rp ? | rp ? | rp ? | rp op | rp | cb ? ? ? ?
    | cp ? | cp op | cp | cb | xp op | xp | cb ? | cb ? ? ? ? | cb ? ? ?
    | cb | cb | cb ? | cb ? | device op ];
    cbn [target] in Ht; try discriminate Ht; subst; cbn [exec];
    unfold discard, bind, ret;
    try (exfalso; first [ by eapply Hbg | by eapply Hqb | by eapply Hqe ]).
  - rewrite (begin_render_eq _ _ _ _ _ _ _ Hacq), Hsub.
    eexists; split; [done | apply refused_logged].
  - rewrite (set_viewport_eq _ _ _ _ _ Hacq), Hr.
    eexists; split; [done | apply refused_logged].
  - rewrite (set_scissor_eq _ _ _ _ _ Hacq), Hr.
    eexists; split; [done | apply refused_logged].
  - rewrite (run_render_eq _ _ _ _ _ Hacq), Hr.
    eexists; split; [done | apply refused_logged].
  - rewrite (end_render_eq _ _ _ _ Hacq), Hr.
    eexists; split; [done | apply refused_logged].
  - rewrite (begin_compute_eq _ _ _ _ _ _ _ _ Hacq), Hsub.
    eexists; split; [done | apply refused_logged].
  - rewrite (bind_compute_eq _ _ _ _ _ Hacq), Hc.
    eexists; split; [done | apply refused_logged].
  - rewrite (run_compute_eq _ _ _ _ _ Hacq), Hc.
    eexists; split; [done | apply refused_logged].
  - rewrite (end_compute_eq _ _ _ _ Hacq), Hc.
    eexists; split; [done | apply refused_logged].
  - rewrite (begin_copy_eq _ _ _ _ Hacq), Hsub.
    eexists; split; [done | apply refused_logged].
  - rewrite (run_copy_eq _ _ _ _ _ Hacq), Hp.
    destruct (copy_checked op) eqn:Hop; [| by destruct (Hcopy op Hop)].
    eexists; split; [done | apply refused_logged].
  - rewrite (end_copy_eq _ _ _ _ Hacq), Hp.
    eexists; split; [done | apply refused_logged].
  - rewrite (set_string_marker_eq _ _ _ _ _ Hacq), Hsub.
    eexists; split; [done | apply refused_logged].
  - rewrite (blit_eq _ _ _ _ _ _ _ _ Hacq), Hsub.
    eexists; split; [done | apply refused_logged].
  - rewrite (acquire_swapchain_eq _ _ _ _ _ _ _ Hacq), Hsub.
    eexists; split; [done | apply refused_logged].
  - rewrite (submit_eq _ _ _ _ Hacq), Hsub.
    eexists; split; [done | apply refused_logged].
  - rewrite (submit_fence_eq _ _ _ _ Hacq), Hsub.
    eexists; split; [done | apply refused_logged].
Qed.

Lemma one_pass_at_a_time h k k' :
  (passes_in_progress h <= 1)%nat ->
  k' <> k -> inProgress (tracker k' h) = true ->
  inProgress (tracker k h) = false.
Proof.
  unfold passes_in_progress. intros Hone Hne.
  destruct k, k'; try done; cbn;
    destruct (inProgress (renderPass h)), (inProgress (computePass h)),
      (inProgress (copyPass h)); cbn in *; try done; lia.
Qed.

(** X7.  While one pass of a command buffer is in progress, the calls that
    ask for another pass are refused: the viewport, scissor, draw and
    end-render-pass calls outside a render pass, the compute calls outside
    a compute pass, [SDL_GpuUploadToTexture] and [SDL_GpuEndCopyPass]
    outside a copy pass each log that their pass is not in progress and
    change nothing else. *)
Theorem calls_of_another_pass_refused s a h c k k' :
  reachable s -> heap s !! a = Some h ->
  target c = Some a -> asks_for c = Some k ->
  k' <> k -> inProgress (tracker k' h) = true ->
  exec c s = Ok tt (logged (EvLogError (not_in_progress k)) s).
Proof.
  intros Hs Hl Ht Hk Hne Hin.
  destruct (reachable_acquired _ _ _ Hs Hl) as [dev Hacq].
  destruct (reachable_flags _ _ _ Hs Hl) as (Hone & _).
  pose proof (one_pass_at_a_time _ _ _ Hone Hne Hin) as Hoff.
  destruct c as
    [ device | cb ? ? ? | rp ? | rp ? | rp ? | rp op | rp | cb ? ? ? ?
    | cp ? | cp op | cp | cb | xp op | xp | cb ? | cb ? ? ? ? | cb ? ? ?
    | cb | cb | cb ? | cb ? | device op ];
    cbn [asks_for] in Hk; try discriminate Hk;
    cbn [target] in Ht; subst; cbn [exec].
  - injection Hk as <-. cbn in Hoff.
    by rewrite (set_viewport_eq _ _ _ _ _ Hacq), Hoff.
  - injection Hk as <-. cbn in Hoff.
    by rewrite (set_scissor_eq _ _ _ _ _ Hacq), Hoff.
  - injection Hk as <-. cbn in Hoff.
    by rewrite (run_render_eq _ _ _ _ _ Hacq), Hoff.
  - injection Hk as <-. cbn in Hoff.
    by rewrite (end_render_eq _ _ _ _ Hacq), Hoff.
  - injection Hk as <-. cbn in Hoff.
    by rewrite (bind_compute_eq _ _ _ _ _ Hacq), Hoff.
  - injection Hk as <-. cbn in Hoff.
    by rewrite (run_compute_eq _ _ _ _ _ Hacq), Hoff.
  - injection Hk as <-. cbn in Hoff.
    by rewrite (end_compute_eq _ _ _ _ Hacq), Hoff.
  - destruct (copy_checked op) eqn:Hop; [| done].
    injection Hk as <-. cbn in Hoff.
    by rewrite (run_copy_eq _ _ _ _ _ Hacq), Hop, Hoff.
  - injection Hk as <-. cbn in Hoff.
    by rewrite (end_copy_eq _ _ _ _ Hacq), Hoff.
Qed.

(** ** Passes and frames *)

Lemma called_forwards dev (c : DriverCall Blob unit) s :
  trace (called dev c s) = (trace s ++ [forwards dev c])%list.
Proof. unfold forwards. cbn. by rewrite (unit_answer (fst _)). Qed.

Lemma compute_pass_back h :
  inProgress (computePass h) = false -> computePipelineBound h = false ->
  set_computePipelineBound false
    (set_computePass_inProgress false (set_computePass_inProgress true h)) = h.
Proof. destruct h as [? ? ? [? ?] ? ? ?]. cbn. by intros -> ->. Qed.

Lemma copy_pass_back h :
  inProgress (copyPass h) = false ->
  set_copyPass_inProgress false (set_copyPass_inProgress true h) = h.
Proof. destruct h as [? ? ? ? ? [? ?] ?]. cbn. by intros ->. Qed.

Lemma render_pass_back h :
  inProgress (renderPass h) = false ->
  set_graphicsPipelineBound false
    (set_renderPass_inProgress false (set_renderPass_inProgress true h))
  = set_graphicsPipelineBound false h.
Proof. destruct h as [? [? ?] ? ? ? ? ?]. cbn. by intros ->. Qed.

(** X8.  Beginning a pass on an idle command buffer of a reachable state
    and ending it at once reaches the backend with exactly the begin and the
    end call and gives the heap back: as it was for a compute and for a
    copy pass; for a render pass the header comes back with its
    graphics-pipeline gate false, whatever it was, and every other member
    as it was, the other command buffers being left alone. *)
Theorem pass_round_trip s a h :
  reachable s -> heap s !! a = Some h -> idle_header h ->
  exists dev,
    device h = Some dev
    /\ (forall t tn sb sbn,
          exists s',
            bind (SDL_GpuBeginComputePass (Some a) t tn sb sbn)
              SDL_GpuEndComputePass s = Ok tt s'
            /\ heap s' = heap s
            /\ trace s'
               = (trace s
                  ++ [forwards dev (BeginComputePass (Some a) t tn sb sbn);
                      forwards dev (EndComputePass (Some a))])%list)
    /\ (exists s',
          bind (SDL_GpuBeginCopyPass (Some a)) SDL_GpuEndCopyPass s = Ok tt s'
          /\ heap s' = heap s
          /\ trace s'
             = (trace s ++ [forwards dev (BeginCopyPass (Some a));
                            forwards dev (EndCopyPass (Some a))])%list)
    /\ (forall i n d,
          exists s',
            bind (SDL_GpuBeginRenderPass (Some a) i n d)
              SDL_GpuEndRenderPass s = Ok tt s'
            /\ (exists h',
                  heap s' = <[a := h']> (heap s)
                  /\ graphicsPipelineBound h' = false
                  /\ renderPass h' = renderPass h
                  /\ computePass h' = computePass h
                  /\ copyPass h' = copyPass h
                  /\ computePipelineBound h' = computePipelineBound h
                  /\ submitted h' = submitted h
                  /\ device h' = device h)
            /\ trace s'
               = (trace s ++ [forwards dev (BeginRenderPass (Some a) i n d);
                              forwards dev (EndRenderPass (Some a))])%list).
Proof.
  intros Hs Hl (Hsub & Hany).
  destruct (reachable_acquired _ _ _ Hs Hl) as [dev Hacq].
  on_acquired Hacq.
  destruct (any_pass_false _ Hany) as (Hrp & Hcp & Hxp).
  destruct (reachable_flags _ _ _ Hs Hl) as (_ & Hgate).
  assert (computePipelineBound h = false) as Hcg.
  { destruct (computePipelineBound h); [| done]. rewrite Hgate in Hcp; done. }
  exists dev. split; [done |]. split; [| split].
  - intros t tn sb sbn. eexists. split.
    + unfold bind at 1.
      rewrite (begin_compute_eq _ _ _ _ _ _ _ _ Hacq), Hsub, Hany.
      erewrite end_compute_eq by (apply acquired_with_header; cbn; eassumption).
      reflexivity.
    + split.
      * cbn [heap with_header called]. rewrite insert_insert_eq.
        apply insert_id. by rewrite compute_pass_back.
      * cbn [trace with_header]. rewrite !called_forwards.
        cbn [trace with_header]. rewrite called_forwards.
        by rewrite <- app_assoc.
  - eexists. split.
    + unfold bind at 1.
      rewrite (begin_copy_eq _ _ _ _ Hacq), Hsub, Hany.
      erewrite end_copy_eq by (apply acquired_with_header; cbn; eassumption).
      reflexivity.
    + split.
      * cbn [heap with_header called]. rewrite insert_insert_eq.
        apply insert_id. by rewrite copy_pass_back.
      * cbn [trace with_header]. rewrite !called_forwards.
        cbn [trace with_header]. rewrite called_forwards.
        by rewrite <- app_assoc.
  - intros i n d. eexists. split.
    + unfold bind at 1.
      rewrite (begin_render_eq _ _ _ _ _ _ _ Hacq), Hsub, Hany.
      erewrite end_render_eq by (apply acquired_with_header; cbn; eassumption).
      reflexivity.
    + split.
      * exists (set_graphicsPipelineBound false h).
        cbn [heap with_header called]. rewrite insert_insert_eq.
        by rewrite render_pass_back.
      * cbn [trace with_header]. rewrite !called_forwards.
        cbn [trace with_header]. rewrite called_forwards.
        by rewrite <- app_assoc.
Qed.

Lemma called_all_trace dev cs s :
  trace (called_all dev cs s) = (trace s ++ map (forwards dev) cs)%list.
Proof.
  revert s. induction cs as [| c cs IH]; intros s; cbn [called_all map].
  - by rewrite app_nil_r.
  - rewrite IH, called_forwards. by rewrite <- app_assoc.
Qed.

Lemma called_all_heap dev cs s : heap (called_all dev cs s) = heap s.
Proof.
  revert s. induction cs as [| c cs IH]; intros s; cbn [called_all];
    [done |]. by rewrite IH.
Qed.

Lemma acquired_called_all s a h dev dev' cs :
  acquired s a h dev -> acquired (called_all dev' cs s) a h dev.
Proof.
  unfold acquired. rewrite called_all_heap. done.
Qed.

Lemma sequence_copies s a h dev ops :
  acquired s a h dev -> inProgress (copyPass h) = true ->
  sequence (map (run_copy (Some a)) ops) s
  = Ok tt (called_all dev (map (copy_call (Some a)) ops) s).
Proof.
  intros Hacq Hin. revert s Hacq.
  induction ops as [| op ops IH]; intros s Hacq; [done |].
  cbn [map sequence called_all]. unfold bind at 1.
  rewrite (run_copy_eq _ _ _ _ _ Hacq), Hin, andb_false_r.
  apply IH. by apply acquired_called.
Qed.

Lemma sequence_renders s a h dev ops :
  acquired s a h dev ->
  inProgress (renderPass h) = true -> graphicsPipelineBound h = true ->
  sequence (map (run_render (Some a)) ops) s
  = Ok tt (called_all dev (map (render_call (Some a)) ops) s).
Proof.
  intros Hacq Hin Hgate. revert s Hacq.
  induction ops as [| op ops IH]; intros s Hacq; [done |].
  cbn [map sequence called_all]. unfold bind at 1.
  rewrite (run_render_eq _ _ _ _ _ Hacq), Hin, Hgate.
  apply IH. by apply acquired_called.
Qed.

Lemma sequence_computes s a h dev ops :
  acquired s a h dev ->
  inProgress (computePass h) = true -> computePipelineBound h = true ->
  sequence (map (run_compute (Some a)) ops) s
  = Ok tt (called_all dev (map (compute_call (Some a)) ops) s).
Proof.
  intros Hacq Hin Hgate. revert s Hacq.
  induction ops as [| op ops IH]; intros s Hacq; [done |].
  cbn [map sequence called_all]. unfold bind at 1.
  rewrite (run_compute_eq _ _ _ _ _ Hacq), Hin, Hgate.
  apply IH. by apply acquired_called.
Qed.

Lemma acquired_fresh s a dev :
  acquired (with_header a (fresh_header (Some dev) (Some a)) s) a
    (fresh_header (Some dev) (Some a)) dev.
Proof. by apply acquired_with_header. Qed.

(** X9.  A frame of transfers runs as recorded.  When the backend hands out
    a command buffer, acquiring it, beginning its copy pass, recording any
    list of transfers, ending the pass and submitting with a fence reaches
    the backend with exactly these calls, in this order and with the
    arguments given; the call returns the fence of the backend, the buffer
    is left submitted with no pass in progress, and submitting it again is
    refused. *)
Theorem copy_frame_runs dev ops s a :
  answer dev (AcquireCommandBuffer (driverData dev)) s = Some a ->
  exists fence s',
    copy_frame (Some dev) ops s = Ok fence s'
    /\ trace s'
       = (trace s
          ++ EvCall dev (AcquireCommandBuffer (driverData dev)) (Some a)
          :: forwards dev (BeginCopyPass (Some a))
          :: map (fun op => forwards dev (copy_call (Some a) op)) ops
          ++ [forwards dev (EndCopyPass (Some a));
              EvCall dev (SubmitAndAcquireFence (Some a)) fence])%list
    /\ heap s'
       = <[a := set_submitted true (fresh_header (Some dev) (Some a))]> (heap s)
    /\ SDL_GpuSubmit (Some a) s'
       = Ok tt (logged (EvLogError "Command buffer already submitted!") s')
    /\ SDL_GpuSubmitAndAcquireFence (Some a) s'
       = Ok None (logged (EvLogError "Command buffer already submitted!") s').
Proof.
  intros Ha. unfold answer in Ha. unfold copy_frame.
  unfold bind at 1. rewrite acquire_eq, Ha.
  set (h0 := fresh_header (Some dev) (Some a)).
  set (s1 := with_header a h0 _).
  assert (acquired s1 a h0 dev) as Hacq1 by apply acquired_fresh.
  unfold bind at 1. rewrite (begin_copy_eq _ _ _ _ Hacq1).
  change (submitted h0) with false. change (any_pass_in_progress h0) with false.
  cbv iota.
  set (h1 := set_copyPass_inProgress true h0).
  set (s2 := with_header a h1 _).
  assert (acquired s2 a h1 dev) as Hacq2 by by apply acquired_with_header.
  unfold bind at 1. rewrite (sequence_copies _ _ _ _ ops Hacq2) by done.
  set (s3 := called_all _ _ _).
  assert (acquired s3 a h1 dev) as Hacq3 by by apply acquired_called_all.
  unfold bind at 1. rewrite (end_copy_eq _ _ _ _ Hacq3).
  change (inProgress (copyPass h1)) with true. cbv iota.
  set (s4 := with_header a _ _).
  assert (acquired s4 a h0 dev) as Hacq4 by by apply acquired_with_header.
  rewrite (submit_fence_eq _ _ _ _ Hacq4).
  change (submitted h0) with false. change (any_pass_in_progress h0) with false.
  cbv iota.
  set (s5 := called _ _ _).
  assert (acquired s5 a (set_submitted true h0) dev) as Hacq5.
  { apply acquired_called. by apply acquired_with_header. }
  eexists _, s5. split; [reflexivity |].
  split; [| split; [| split]].
  - subst s5 s4 s3 s2 s1. cbn [trace called with_header].
    rewrite called_all_trace. cbn [trace called with_header].
    rewrite !(unit_answer (fst _)), map_map, <- !app_assoc, Ha.
    reflexivity.
  - subst s5 s4 s3 s2 s1. cbn [heap called with_header].
    rewrite called_all_heap. cbn [heap called with_header].
    by rewrite !insert_insert_eq.
  - by rewrite (submit_eq _ _ _ _ Hacq5).
  - by rewrite (submit_fence_eq _ _ _ _ Hacq5).
Qed.

(** X10.  A frame of drawing and a frame of compute work run as recorded.
    After acquisition, beginning the pass and binding the pipeline, every
    pipeline-gated call of the list is forwarded, in order; ending the
    pass and submitting then go through, and the buffer is left with its
    submitted flag true, no pass in progress and no gate set ([retired]),
    so that submitting it again is refused. *)
Theorem gated_frames_run dev s a :
  answer dev (AcquireCommandBuffer (driverData dev)) s = Some a ->
  (forall i n d p ops,
      exists s',
        render_frame (Some dev) i n d p ops s = Ok tt s'
        /\ trace s'
           = (trace s
              ++ EvCall dev (AcquireCommandBuffer (driverData dev)) (Some a)
              :: forwards dev (BeginRenderPass (Some a) i n d)
              :: forwards dev (BindGraphicsPipeline (Some a) p)
              :: map (fun op => forwards dev (render_call (Some a) op)) ops
              ++ [forwards dev (EndRenderPass (Some a));
                  forwards dev (Submit (Some a))])%list
        /\ (exists h',
              heap s' = <[a := h']> (heap s) /\ retired dev a h')
        /\ SDL_GpuSubmit (Some a) s'
           = Ok tt (logged (EvLogError "Command buffer already submitted!")
                      s'))
  /\ (forall t tn sb sbn p ops,
        exists s',
          compute_frame (Some dev) t tn sb sbn p ops s = Ok tt s'
          /\ trace s'
             = (trace s
                ++ EvCall dev (AcquireCommandBuffer (driverData dev)) (Some a)
                :: forwards dev (BeginComputePass (Some a) t tn sb sbn)
                :: forwards dev (BindComputePipeline (Some a) p)
                :: map (fun op => forwards dev (compute_call (Some a) op)) ops
                ++ [forwards dev (EndComputePass (Some a));
                    forwards dev (Submit (Some a))])%list
          /\ (exists h',
                heap s' = <[a := h']> (heap s) /\ retired dev a h')
          /\ SDL_GpuSubmit (Some a) s'
             = Ok tt (logged (EvLogError "Command buffer already submitted!")
                        s')).
Proof.
  intros Ha. unfold answer in Ha.
  set (h0 := fresh_header (Some dev) (Some a)).
  split.
  - intros i n d p ops. unfold render_frame.
    unfold bind at 1. rewrite acquire_eq, Ha. fold h0.
    set (s1 := with_header a h0 _).
    assert (acquired s1 a h0 dev) as Hacq1 by apply acquired_fresh.
    unfold bind at 1. rewrite (begin_render_eq _ _ _ _ _ _ _ Hacq1).
    change (submitted h0) with false.
    change (any_pass_in_progress h0) with false. cbv iota.
    set (h1 := set_renderPass_inProgress true h0).
    set (s2 := with_header a h1 _).
    assert (acquired s2 a h1 dev) as Hacq2 by by apply acquired_with_header.
    unfold bind at 1. rewrite (bind_graphics_eq _ _ _ _ _ Hacq2).
    set (h2 := set_graphicsPipelineBound true h1).
    set (s3 := with_header a h2 _).
    assert (acquired s3 a h2 dev) as Hacq3 by by apply acquired_with_header.
    unfold bind at 1. rewrite (sequence_renders _ _ _ _ ops Hacq3) by done.
    set (s4 := called_all _ _ _).
    assert (acquired s4 a h2 dev) as Hacq4 by by apply acquired_called_all.
    unfold bind at 1. rewrite (end_render_eq _ _ _ _ Hacq4).
    change (inProgress (renderPass h2)) with true. cbv iota.
    set (s5 := with_header a _ _).
    assert (acquired s5 a h0 dev) as Hacq5 by by apply acquired_with_header.
    rewrite (submit_eq _ _ _ _ Hacq5).
    change (submitted h0) with false.
    change (any_pass_in_progress h0) with false. cbv iota.
    set (s6 := called _ _ _).
    assert (acquired s6 a (set_submitted true h0) dev) as Hacq6.
    { apply acquired_called. by apply acquired_with_header. }
    exists s6. split; [reflexivity |]. split; [| split].
    + subst s6 s5 s4 s3 s2 s1. cbn [trace called with_header].
      rewrite called_all_trace. cbn [trace called with_header].
      rewrite !(unit_answer (fst _)), map_map, <- !app_assoc, Ha.
      reflexivity.
    + exists (set_submitted true h0). split; [| by repeat split].
      subst s6 s5 s4 s3 s2 s1. cbn [heap called with_header].
      rewrite called_all_heap. cbn [heap called with_header].
      by rewrite !insert_insert_eq.
    + by rewrite (submit_eq _ _ _ _ Hacq6).
  - intros t tn sb sbn p ops. unfold compute_frame.
    unfold bind at 1. rewrite acquire_eq, Ha. fold h0.
    set (s1 := with_header a h0 _).
    assert (acquired s1 a h0 dev) as Hacq1 by apply acquired_fresh.
    unfold bind at 1. rewrite (begin_compute_eq _ _ _ _ _ _ _ _ Hacq1).
    change (submitted h0) with false.
    change (any_pass_in_progress h0) with false. cbv iota.
    set (h1 := set_computePass_inProgress true h0).
    set (s2 := with_header a h1 _).
    assert (acquired s2 a h1 dev) as Hacq2 by by apply acquired_with_header.
    unfold bind at 1. rewrite (bind_compute_eq _ _ _ _ _ Hacq2).
    change (inProgress (computePass h1)) with true. cbv iota.
    set (h2 := set_computePipelineBound true h1).
    set (s3 := with_header a h2 _).
    assert (acquired s3 a h2 dev) as Hacq3 by by apply acquired_with_header.
    unfold bind at 1. rewrite (sequence_computes _ _ _ _ ops Hacq3) by done.
    set (s4 := called_all _ _ _).
    assert (acquired s4 a h2 dev) as Hacq4 by by apply acquired_called_all.
    unfold bind at 1. rewrite (end_compute_eq _ _ _ _ Hacq4).
    change (inProgress (computePass h2)) with true. cbv iota.
    set (s5 := with_header a _ _).
    assert (acquired s5 a h0 dev) as Hacq5 by by apply acquired_with_header.
    rewrite (submit_eq _ _ _ _ Hacq5).
    change (submitted h0) with false.
    change (any_pass_in_progress h0) with false. cbv iota.
    set (s6 := called _ _ _).
    assert (acquired s6 a (set_submitted true h0) dev) as Hacq6.
    { apply acquired_called. by apply acquired_with_header. }
    exists s6. split; [reflexivity |]. split; [| split].
    + subst s6 s5 s4 s3 s2 s1. cbn [trace called with_header].
      rewrite called_all_trace. cbn [trace called with_header].
      rewrite !(unit_answer (fst _)), map_map, <- !app_assoc, Ha.
      reflexivity.
    + exists (set_submitted true h0). split; [| by repeat split].
      subst s6 s5 s4 s3 s2 s1. cbn [heap called with_header].
      rewrite called_all_heap. cbn [heap called with_header].
      by rewrite !insert_insert_eq.
    + by rewrite (submit_eq _ _ _ _ Hacq6).
Qed.

(** ** Calls outside the pass discipline *)

(** X11.  The calls outside the pass discipline.  On a command buffer that
    is not submitted, [SDL_GpuSetStringMarker], [SDL_GpuBlit] and
    [SDL_GpuAcquireSwapchainTexture] are forwarded whatever pass is or is
    not in progress; [SDL_GpuOcclusionQueryBegin] and
    [SDL_GpuOcclusionQueryEnd] are forwarded even on a submitted buffer.  On
    [NULL] the first three return at once (the third with [NULL]) and the
    occlusion-query calls do not return. *)
Theorem unpassed_calls_guard s a h :
  reachable s -> heap s !! a = Some h ->
  exists dev,
    device h = Some dev
    /\ (submitted h = false ->
        (forall text,
            SDL_GpuSetStringMarker (Some a) text s
            = Ok tt (called dev (SetStringMarker (Some a) text) s))
        /\ (forall source destination filterMode cycle,
              SDL_GpuBlit (Some a) source destination filterMode cycle s
              = Ok tt (called dev (Blit (Some a) source destination filterMode
                                     cycle) s))
        /\ (forall window pWidth pHeight,
              SDL_GpuAcquireSwapchainTexture (Some a) window pWidth pHeight s
              = call dev (AcquireSwapchainTexture (Some a) window pWidth
                            pHeight) s))
    /\ (forall query,
          SDL_GpuOcclusionQueryBegin (Some a) query s
          = Ok tt (called dev (OcclusionQueryBegin (Some a) query) s)
          /\ SDL_GpuOcclusionQueryEnd (Some a) query s
             = Ok tt (called dev (OcclusionQueryEnd (Some a) query) s))
    /\ (forall text, SDL_GpuSetStringMarker None text s = Ok tt s)
    /\ (forall source destination filterMode cycle,
          SDL_GpuBlit None source destination filterMode cycle s = Ok tt s)
    /\ (forall window pWidth pHeight,
          SDL_GpuAcquireSwapchainTexture None window pWidth pHeight s
          = Ok None s)
    /\ (forall query,
          (exists f, SDL_GpuOcclusionQueryBegin None query s = Crash f s)
          /\ (exists f, SDL_GpuOcclusionQueryEnd None query s = Crash f s)).
Proof.
  intros Hs Hl.
  destruct (reachable_acquired _ _ _ Hs Hl) as [dev Hacq].
  exists dev. split; [apply Hacq |].
  split; [intros Hsub; split; [| split] |].
  - intros. by rewrite (set_string_marker_eq _ _ _ _ _ Hacq), Hsub.
  - intros. by rewrite (blit_eq _ _ _ _ _ _ _ _ Hacq), Hsub.
  - intros. by rewrite (acquire_swapchain_eq _ _ _ _ _ _ _ Hacq), Hsub.
  - split; [| split; [done | split; [done | split; [done |]]]].
    + intros query. split.
      * by rewrite (occlusion_begin_eq _ _ _ _ _ Hacq).
      * by rewrite (occlusion_end_eq _ _ _ _ _ Hacq).
    + intros query.
      unfold SDL_GpuOcclusionQueryBegin, SDL_GpuOcclusionQueryEnd.
      unfold bind at 1 3. rewrite !NULL_ASSERT_None.
      destruct (2 <=? SDL_ASSERT_LEVEL); split; by eexists.
Qed.

(** ** Texel block sizes *)

(** A decidable statement about closed terms, by evaluation. *)
Ltac computed := apply (bool_decide_unpack _); vm_compute; exact I.

Ltac by_computation H :=
  first
    [ apply H; computed
    | revert H;
      lazymatch goal with |- ?P -> False => change (~ P) end;
      computed ].

(** X12.  [SDL_GpuTextureFormatTexelBlockSize] knows the colour formats
    only: for each of them it returns 1, 2, 4, 8 or 16 and logs nothing;
    for each of the five depth formats it logs "Unrecognized TextureFormat!"
    and returns 0. *)
Theorem texel_block_size_range textureFormat s :
  (textureFormat ∈ depth_formats ->
   SDL_GpuTextureFormatTexelBlockSize textureFormat s
   = Ok 0 (logged (EvLogError "Unrecognized TextureFormat!") s))
  /\ (textureFormat ∉ depth_formats ->
      exists size,
        SDL_GpuTextureFormatTexelBlockSize textureFormat s = Ok size s
        /\ size ∈ [1; 2; 4; 8; 16]).
Proof.
  split; intros Hf; destruct textureFormat;
    try done; try (exfalso; by_computation Hf);
    eexists; (split; [reflexivity | computed]).
Qed.

(** ** Negotiating twice *)

Lemma set_depthStencilFormat_same
    (info : SDL_GpuGraphicsPipelineCreateInfo Blob) :
  set_depthStencilFormat info (depthStencilFormat (attachmentInfo info))
  = info.
Proof. by destruct info as [[? ? ?] ?]. Qed.

Lemma set_depthStencilFormat_twice
    (info : SDL_GpuGraphicsPipelineCreateInfo Blob) f g :
  set_depthStencilFormat (set_depthStencilFormat info f) g
  = set_depthStencilFormat info g.
Proof. by destruct info as [[? ? ?] ?]. Qed.

Lemma set_format_same (info : SDL_GpuTextureCreateInfo Blob) :
  set_format info (format info) = info.
Proof. by destruct info. Qed.

Lemma set_format_twice (info : SDL_GpuTextureCreateInfo Blob) f g :
  set_format (set_format info f) g = set_format info g.
Proof. by destruct info. Qed.

Lemma fallback_twice f :
  documented_fallback (documented_fallback f)
  = if decide (f ∈ paired_formats) then f
    else SDL_GPU_TEXTUREFORMAT_D16_UNORM.
Proof.
  destruct f; cbn; case_decide as Hf; try done; exfalso; by_computation Hf.
Qed.

Lemma fallback_unpaired f :
  f ∉ paired_formats ->
  documented_fallback f = SDL_GPU_TEXTUREFORMAT_D16_UNORM.
Proof. intros Hf. destruct f; try done; exfalso; by_computation Hf. Qed.

Lemma fallback_flips f :
  f ∈ paired_formats -> documented_fallback f <> f.
Proof. intros Hf. destruct f; try done; exfalso; by_computation Hf. Qed.

(** X13.  The depth-format negotiation flips between the partners of the
    fallback table and does not settle.  When the backend rejects the
    requested format, the create-info that comes back holds the fallback
    partner, which for the four paired formats differs from the format
    requested.  When, on a second creation with the create-info that came
    back, the backend rejects the substituted format too, the second
    creation hands back the caller's original create-info for the four
    paired formats; for any other format the create-info that comes back
    holds [D16_UNORM] both times.  The other members of the create-info
    are the caller's throughout. *)
Theorem negotiation_flips s dev :
  (forall info,
      let requested := depthStencilFormat (attachmentInfo info) in
      hasDepthStencilAttachment (attachmentInfo info) = true ->
      answer dev (pipeline_probe dev info) s = false ->
      exists pipeline info1 s1,
        SDL_GpuCreateGraphicsPipeline (Some dev) info s
        = Ok (pipeline, info1) s1
        /\ depthStencilFormat (attachmentInfo info1)
           = documented_fallback requested
        /\ hasDepthStencilAttachment (attachmentInfo info1) = true
        /\ attachmentRest (attachmentInfo info1)
           = attachmentRest (attachmentInfo info)
        /\ pipelineRest info1 = pipelineRest info
        /\ (requested ∈ paired_formats ->
            depthStencilFormat (attachmentInfo info1) <> requested)
        /\ (requested ∉ paired_formats ->
            depthStencilFormat (attachmentInfo info1)
            = SDL_GPU_TEXTUREFORMAT_D16_UNORM)
        /\ (answer dev (pipeline_probe dev info1) s1 = false ->
            exists pipeline2 info2 s2,
              SDL_GpuCreateGraphicsPipeline (Some dev) info1 s1
              = Ok (pipeline2, info2) s2
              /\ (requested ∈ paired_formats -> info2 = info)
              /\ (requested ∉ paired_formats ->
                  depthStencilFormat (attachmentInfo info2)
                  = SDL_GPU_TEXTUREFORMAT_D16_UNORM
                  /\ hasDepthStencilAttachment (attachmentInfo info2) = true
                  /\ attachmentRest (attachmentInfo info2)
                     = attachmentRest (attachmentInfo info)
                  /\ pipelineRest info2 = pipelineRest info)))
  /\ (forall info,
        IsDepthFormat (format info) = true ->
        IsDepthFormat (documented_fallback (format info)) = true ->
        answer dev (texture_probe dev info) s = false ->
        exists texture info1 s1,
          SDL_GpuCreateTexture (Some dev) info s = Ok (texture, info1) s1
          /\ format info1 = documented_fallback (format info)
          /\ usageFlags info1 = usageFlags info
          /\ textureRest info1 = textureRest info
          /\ (format info ∈ paired_formats -> format info1 <> format info)
          /\ (format info ∉ paired_formats ->
              format info1 = SDL_GPU_TEXTUREFORMAT_D16_UNORM)
          /\ (answer dev (texture_probe dev info1) s1 = false ->
              exists texture2 info2 s2,
                SDL_GpuCreateTexture (Some dev) info1 s1
                = Ok (texture2, info2) s2
                /\ (format info ∈ paired_formats -> info2 = info)
                /\ (format info ∉ paired_formats ->
                    format info2 = SDL_GPU_TEXTUREFORMAT_D16_UNORM
                    /\ usageFlags info2 = usageFlags info
                    /\ textureRest info2 = textureRest info))).
Proof.
  split.
  - intros info requested Hdepth Hprobe.
    rewrite create_pipeline_eq, Hdepth, Hprobe. cbv zeta. unfold forwarded.
    set (info1 := set_depthStencilFormat info _) in *.
    assert (hasDepthStencilAttachment (attachmentInfo info1) = true) as Hd1
      by (by destruct info as [[? ? ?] ?]).
    assert (depthStencilFormat (attachmentInfo info1)
            = documented_fallback requested) as Hf1
      by (by destruct info as [[? ? ?] ?]).
    eexists _, info1, _. split; [reflexivity |].
    split; [done |]. split; [done |]. split; [done |]. split; [done |].
    split; [intros Hp; rewrite Hf1; by apply fallback_flips |].
    split; [intros Hp; rewrite Hf1; by apply fallback_unpaired |].
    intros Hprobe2.
    rewrite create_pipeline_eq, Hd1, Hprobe2. cbv zeta.
    rewrite Hf1, fallback_twice. subst info1.
    rewrite set_depthStencilFormat_twice. unfold forwarded.
    case_decide as Hf.
    + subst requested. rewrite set_depthStencilFormat_same.
      eexists _, _, _. split; [reflexivity |]. by split.
    + rewrite (fallback_unpaired _ Hf).
      eexists _, _, _. split; [reflexivity |]. split; [done |].
      intros _. by destruct info as [[? ? ?] ?].
  - intros info Hdepth Hdepth2 Hprobe.
    rewrite create_texture_eq, Hdepth, Hprobe. cbv zeta. unfold forwarded.
    set (info1 := set_format info _) in *.
    assert (format info1 = documented_fallback (format info)) as Hf1
      by (by destruct info).
    eexists _, info1, _. split; [reflexivity |].
    split; [done |]. split; [done |]. split; [done |].
    split; [intros Hp; rewrite Hf1; by apply fallback_flips |].
    split; [intros Hp; rewrite Hf1; by apply fallback_unpaired |].
    intros Hprobe2.
    rewrite create_texture_eq, Hf1, Hdepth2, Hprobe2. cbv zeta.
    rewrite fallback_twice. subst info1.
    rewrite set_format_twice. unfold forwarded.
    case_decide as Hf.
    + rewrite set_format_same.
      eexists _, _, _. split; [reflexivity |]. by split.
    + rewrite (fallback_unpaired _ Hf).
      eexists _, _, _. split; [reflexivity |]. split; [done |].
      intros _. by destruct info.
Qed.

(** ** Device creation *)





(** ** Shader creation at the edges *)

(** X15.  Shader creation at the edges.  On a [NULL] device
    [SDL_GpuCreateShader] dereferences the device, whatever the assertion
    level and the format.  SPIR-V for a device whose backend is none of
    Vulkan, D3D11 and Metal sets the error of the unexpected backend and
    returns [NULL] without reaching the backend; SPIR-V for a Vulkan
    device, and any other format, go to [CreateShader] unchanged. *)
Theorem create_shader_edges info s :
  SDL_GpuCreateShader None info s = Crash NullDereference s
  /\ (forall dev,
        shaderFormat info = SDL_GPU_SHADERFORMAT_SPIRV ->
        backend dev <> SDL_GPU_BACKEND_VULKAN ->
        backend dev <> SDL_GPU_BACKEND_D3D11 ->
        backend dev <> SDL_GPU_BACKEND_METAL ->
        SDL_GpuCreateShader (Some dev) info s
        = Ok None
            (logged
               (EvSetError
                  "SDL_CreateShaderFromSPIRV: Unexpected SDL_GpuBackend") s))
  /\ (forall dev,
        shaderFormat info = SDL_GPU_SHADERFORMAT_SPIRV ->
        backend dev = SDL_GPU_BACKEND_VULKAN ->
        SDL_GpuCreateShader (Some dev) info s
        = call dev (CreateShader (driverData dev) info) s)
  /\ (forall dev,
        shaderFormat info <> SDL_GPU_SHADERFORMAT_SPIRV ->
        SDL_GpuCreateShader (Some dev) info s
        = call dev (CreateShader (driverData dev) info) s).
Proof.
  split; [| split; [| split]].
  - unfold SDL_GpuCreateShader. unfold bind at 1.
    by destruct (shaderFormat info =? _).
  - intros dev Hspirv Hv Hd Hm.
    unfold SDL_GpuCreateShader, SDL_CreateShaderFromSPIRV, SDL_GpuGetBackend.
    unfold bind at 1. rewrite Hspirv, Z.eqb_refl. cbn.
    apply Z.eqb_neq in Hv, Hd, Hm. by rewrite Hv, Hd, Hm.
  - intros dev Hspirv Hv.
    unfold SDL_GpuCreateShader. unfold bind at 1.
    rewrite Hspirv, Z.eqb_refl. cbn. by rewrite Hv, Z.eqb_refl.
  - intros dev Hspirv. apply Z.eqb_neq in Hspirv.
    unfold SDL_GpuCreateShader. unfold bind at 1. by rewrite Hspirv.
Qed.


(** ** What a backend reads when it is called *)

Lemma headers_same s a h :
  heap s !! a = Some h -> <[a := view h]> (headers s) = headers s.
Proof. intros Hl. apply insert_id. unfold headers. by rewrite lookup_fmap, Hl. Qed.

Lemma headers_with_header a h s :
  headers (with_header a h s) = <[a := view h]> (headers s).
Proof. unfold headers. cbn. apply fmap_insert. Qed.

(** The events of a call from [s] to [s'] are permitted. *)
Definition conforms (c : ApiCall) (s s' : State) : Prop :=
  exists evs,
    trace s' = (trace s ++ evs)%list /\ Forall (permitted c s s') evs.

Lemma conforms_refl c s : conforms c s s.
Proof. exists []. by rewrite app_nil_r. Qed.

Lemma conforms_logged c s msg : conforms c s (logged (EvLogError msg) s).
Proof. exists [EvLogError msg]. split; [done |]. by repeat constructor. Qed.

(** An entry called on the header as it was found. *)
Lemma conforms_called_at {R} c s s' a h dev (e : DriverCall Blob R) :
  acquired s a h dev ->
  target c = Some a ->
  receiver e = OnCommandBuffer (Some a) ->
  read_at e h h ->
  shows e h = true ->
  trace s' = trace (called dev e s) ->
  world s' = world (called dev e s) ->
  conforms c s s'.
Proof.
  intros (Hl & Hd & _) Hc Hrc Hread Hshows Ht Hw.
  exists [EvCall dev e (fst (driver dev R e (headers s) (world s)))].
  split; [done |]. repeat constructor. cbn [permitted]. rewrite Hrc.
  exists a, h, h. rewrite (headers_same _ _ _ Hl). by repeat split.
Qed.

(** The same, whatever the call then writes to the header at [a]. *)
Lemma conforms_changed {R} c s a h dev (e : DriverCall Blob R) s' :
  s' = called dev e s
  \/ (exists h', s' = with_header a h' (called dev e s)) ->
  acquired s a h dev ->
  target c = Some a ->
  receiver e = OnCommandBuffer (Some a) ->
  read_at e h h ->
  shows e h = true ->
  conforms c s s'.
Proof.
  intros [-> | [h' ->]] Ha Hc Hrc Hread Hshows;
    by eapply conforms_called_at.
Qed.

(** An entry called after an assignment to the header. *)
Lemma conforms_called_after {R} c s a h hc dev (e : DriverCall Blob R) :
  acquired s a h dev ->
  target c = Some a ->
  receiver e = OnCommandBuffer (Some a) ->
  read_at e h hc ->
  shows e hc = true ->
  conforms c s (called dev e (with_header a hc s)).
Proof.
  intros (Hl & Hd & _) Hc Hrc Hread Hshows.
  exists [EvCall dev e
            (fst (driver dev R e (headers (with_header a hc s)) (world s)))].
  split; [done |]. repeat constructor. cbn [permitted]. rewrite Hrc.
  exists a, h, hc. rewrite <- headers_with_header. by repeat split.
Qed.

Lemma conforms_acquired s dev s' :
  let e := AcquireCommandBuffer (driverData dev) in
  trace s' = trace (called dev e s) ->
  conforms (ApiAcquireCommandBuffer (Some dev)) s s'.
Proof.
  intros e Ht.
  exists [EvCall dev e (fst (driver dev _ e (headers s) (world s)))].
  split; [done |]. by repeat constructor.
Qed.

(** *** The resource functions are quiet *)

Lemma quiet_ret {A} (x : A) : quiet (ret x).
Proof.
  intros s y s' [= _ <-]. exists [].
  split; [by rewrite app_nil_r |]. intros e He. by apply elem_of_nil in He.
Qed.

Lemma quiet_bind {A B} (m : M A) (k : A -> M B) :
  quiet m -> (forall x, quiet (k x)) -> quiet (bind m k).
Proof.
  intros Hm Hk s y s'. unfold bind.
  destruct (m s) as [x s1 |] eqn:E; [| done]. intros E'.
  destruct (Hm _ _ _ E) as (evs1 & Ht1 & H1).
  destruct (Hk _ _ _ _ E') as (evs2 & Ht2 & H2).
  exists (evs1 ++ evs2)%list.
  split; [by rewrite Ht2, Ht1, <- app_assoc |].
  intros e He. apply elem_of_app in He as [He | He];
    [by apply H1 | by apply H2].
Qed.

Lemma quiet_call {R} dev (e : DriverCall Blob R) :
  receiver e = OnDriver (driverData dev) -> quiet (call dev e).
Proof.
  intros Hrc s y s' [= _ <-].
  exists [EvCall dev e (fst (driver dev R e (headers s) (world s)))].
  split; [done |]. by intros ev ->%list_elem_of_singleton.
Qed.

Lemma quiet_log msg : quiet (SDL_LogError msg).
Proof.
  intros s y s' [= _ <-]. exists [EvLogError msg].
  split; [done |]. by intros ev ->%list_elem_of_singleton.
Qed.

Lemma quiet_warn msg args : quiet (SDL_LogWarn msg args).
Proof.
  intros s y s' [= _ <-]. exists [EvLogWarn msg args].
  split; [done |]. by intros ev ->%list_elem_of_singleton.
Qed.

Lemma quiet_error msg : quiet (SDL_SetError msg).
Proof.
  intros s y s' [= _ <-]. exists [EvSetError msg].
  split; [done |]. by intros ev ->%list_elem_of_singleton.
Qed.

Lemma quiet_deref {A} (p : option A) : quiet (deref p).
Proof.
  intros s y s'. unfold deref. destruct p; [| done]. intros [= _ <-].
  by eapply (quiet_ret tt).
Qed.

Lemma quiet_assert c t : quiet (SDL_assert c t).
Proof.
  intros s y s'. unfold SDL_assert. destruct (_ && _); [done |].
  intros [= _ <-]. by eapply (quiet_ret tt).
Qed.

Lemma quiet_translate t i : quiet (translate t i).
Proof.
  intros s y s' [= _ <-]. exists [].
  split; [by rewrite app_nil_r |]. intros e He. by apply elem_of_nil in He.
Qed.

Ltac quietly :=
  repeat first
    [ apply quiet_ret
    | apply quiet_call; reflexivity
    | apply quiet_log
    | apply quiet_warn
    | apply quiet_error
    | apply quiet_deref
    | apply quiet_assert
    | apply quiet_translate
    | apply quiet_bind; [| intros ?]
    | match goal with
      | |- quiet (if ?b then _ else _) => destruct b
      | |- quiet (match ?x with _ => _ end) => destruct x
      end ].

Lemma run_resource_quiet device op : quiet (run_resource device op).
Proof.
  destruct op; cbn [run_resource]; unfold discard;
    unfold SDL_GpuCreateComputePipeline, SDL_GpuCreateGraphicsPipeline,
      SDL_GpuCreateSampler, SDL_GpuCreateShader, SDL_GpuCreateTexture,
      SDL_GpuCreateBuffer, SDL_GpuCreateTransferBuffer,
      SDL_GpuCreateOcclusionQuery, SDL_GpuReleaseTexture,
      SDL_GpuReleaseSampler, SDL_GpuReleaseBuffer,
      SDL_GpuReleaseTransferBuffer, SDL_GpuReleaseShader,
      SDL_GpuReleaseComputePipeline, SDL_GpuReleaseGraphicsPipeline,
      SDL_GpuReleaseOcclusionQuery, SDL_GpuReleaseFence,
      SDL_CreateShaderFromSPIRV, NULL_ASSERT;
    quietly.
Qed.

Lemma quiet_conforms {A} (m : M A) c s x s' :
  quiet m -> m s = Ok x s' -> conforms c s s'.
Proof.
  intros Hq E. destruct (Hq _ _ _ E) as (evs & Ht & Hevs).
  exists evs. split; [done |]. apply Forall_forall. intros ev Hev.
  specialize (Hevs ev Hev). destruct ev; try done.
  cbn [permitted]. by rewrite Hevs.
Qed.

(** *** Every call keeps to the protocol *)

(** The checks a call passed, as the cases of its equation left them. *)
Ltac passed :=
  cbn [shows]; unfold any_pass_in_progress in *; cbn;
  repeat match goal with
         | H : ?b = _ |- context [?b] => rewrite H
         end;
  reflexivity.

Ltac conforming :=
  first
    [ apply conforms_refl
    | apply conforms_logged
    | eapply conforms_changed;
        [ first [ left; reflexivity | right; eexists; reflexivity ]
        | eassumption | reflexivity | reflexivity | reflexivity | passed ]
    | eapply conforms_called_after;
        [ eassumption | reflexivity | reflexivity
        | split; [assumption | by_members] | passed ] ].

Ltac by_protocol eqn E :=
  unfold discard, bind, ret in E; rewrite eqn in E;
  repeat case_match; simplify_eq;
  right; conforming.

Lemma exec_conforms c s s' :
  heap_ok s -> exec c s = Ok tt s' -> s' = s \/ conforms c s s'.
Proof.
  intros Hok E.
  destruct c as
    [ device | cb ? ? ? | rp ? | rp ? | rp ? | rp op | rp | cb ? ? ? ?
    | cp ? | cp op | cp | cb | xp op | xp | cb ? | cb ? ? ? ? | cb ? ? ?
    | cb | cb | cb ? | cb ? | device op ];
    cbn [exec] in E.
  - right. destruct device as [dev |].
    + unfold discard, bind, ret in E. rewrite acquire_eq in E.
      destruct (fst _) as [a |] eqn:Ea; simplify_eq;
        by apply conforms_acquired.
    + exfalso. unfold discard, SDL_GpuAcquireCommandBuffer in E.
      unfold bind at 1 2 in E. rewrite NULL_ASSERT_None in E.
      by destruct (2 <=? _).
  - on_pointer cb s Hok E.
    by_protocol (begin_render_eq _ _ _ _ colorAttachmentInfos
                   colorAttachmentCount depthStencilAttachmentInfo Hacq) E.
  - on_pointer rp s Hok E.
    by_protocol (bind_graphics_eq _ _ _ _ graphicsPipeline Hacq) E.
  - on_pointer rp s Hok E.
    by_protocol (set_viewport_eq _ _ _ _ viewport Hacq) E.
  - on_pointer rp s Hok E.
    by_protocol (set_scissor_eq _ _ _ _ scissor Hacq) E.
  - on_pointer_with ltac:(destruct op; cbn [run_render] in E) rp s Hok E.
    unfold discard, bind, ret in E. rewrite (run_render_eq _ _ _ _ op Hacq) in E.
    repeat case_match; simplify_eq; right;
      destruct op; cbn [render_call]; conforming.
  - on_pointer rp s Hok E.
    by_protocol (end_render_eq _ _ _ _ Hacq) E.
  - on_pointer cb s Hok E.
    by_protocol (begin_compute_eq _ _ _ _ storageTextureBindings
                   storageTextureBindingCount storageBufferBindings
                   storageBufferBindingCount Hacq) E.
  - on_pointer cp s Hok E.
    by_protocol (bind_compute_eq _ _ _ _ computePipeline Hacq) E.
  - on_pointer_with ltac:(destruct op; cbn [run_compute] in E) cp s Hok E.
    unfold discard, bind, ret in E.
    rewrite (run_compute_eq _ _ _ _ op Hacq) in E.
    repeat case_match; simplify_eq; right;
      destruct op; cbn [compute_call]; conforming.
  - on_pointer cp s Hok E.
    by_protocol (end_compute_eq _ _ _ _ Hacq) E.
  - on_pointer cb s Hok E.
    by_protocol (begin_copy_eq _ _ _ _ Hacq) E.
  - on_pointer_with ltac:(destruct op; cbn [run_copy] in E) xp s Hok E.
    unfold discard, bind, ret in E. rewrite (run_copy_eq _ _ _ _ op Hacq) in E.
    destruct op; cbn [copy_checked andb copy_call] in E;
      repeat case_match; simplify_eq; right;
      try match goal with
          | H : negb _ = false |- _ => apply negb_false_iff in H
          end;
      conforming.
  - on_pointer xp s Hok E.
    by_protocol (end_copy_eq _ _ _ _ Hacq) E.
  - on_pointer cb s Hok E.
    by_protocol (set_string_marker_eq _ _ _ _ text Hacq) E.
  - on_pointer cb s Hok E.
    by_protocol (blit_eq _ _ _ _ source destination filterMode cycle Hacq) E.
  - on_pointer cb s Hok E.
    by_protocol (acquire_swapchain_eq _ _ _ _ window pWidth pHeight Hacq) E.
  - on_pointer cb s Hok E.
    by_protocol (submit_eq _ _ _ _ Hacq) E.
  - on_pointer cb s Hok E.
    by_protocol (submit_fence_eq _ _ _ _ Hacq) E.
  - on_pointer cb s Hok E.
    by_protocol (occlusion_begin_eq _ _ _ _ query Hacq) E.
  - on_pointer cb s Hok E.
    by_protocol (occlusion_end_eq _ _ _ _ query Hacq) E.
  - right. exact (quiet_conforms _ _ _ _ _ (run_resource_quiet _ _) E).
Qed.

(** X21.  What a backend reads when it is called.  Every event that a
    call of the API adds to the trace of a reachable state is permitted:
    an entry on the driver (creation, release, acquisition, the support
    probe) is handed the private data of the device whose table it is in;
    an entry on a command buffer is the one backend call of an API call
    on that buffer, the buffer is not [NULL] and was acquired from the
    device whose table the entry is in, and the header of the buffer that
    the backend reads during the call shows: not submitted and no pass
    in progress for the three begin-pass entries, which are called
    before the flag of their pass is set; submitted, with no pass in
    progress, for [Submit] and [SubmitAndAcquireFence], which are called
    after the flag has been set on a buffer that was not submitted; the
    render pass in progress for [SetViewport], [SetScissor] and
    [EndRenderPass], and the graphics pipeline bound as well for the
    fourteen draw, bind and push entries; the compute pass in progress
    for [BindComputePipeline] and [EndComputePass], and the compute
    pipeline bound as well for the four gated compute entries; the copy
    pass in progress for [UploadToTexture] and [EndCopyPass]; not
    submitted for [SetStringMarker], [Blit] and
    [AcquireSwapchainTexture].  [BindGraphicsPipeline], the six other
    transfers and the two occlusion-query entries are called on any
    header. *)
Theorem backend_protocol s c s' :
  reachable s -> exec c s = Ok tt s' ->
  exists evs,
    trace s' = (trace s ++ evs)%list /\ Forall (permitted c s s') evs.
Proof.
  intros Hs E.
  destruct (exec_conforms _ _ _ (reachable_heap_ok _ Hs) E) as [-> | H];
    [apply conforms_refl | exact H].
Qed.

End Core.

Arguments Ok {World Blob A} a s.
Arguments Crash {World Blob A} f s.

(** * The translation shim of SDL_gpu_spirv.c, statement by statement

    [SDL_CreateShaderFromSPIRV] above takes the SPIRV-Cross library as one
    step.  Here the function is followed statement by statement: the
    shared object and its nine entry points are loaded into the static
    variables of the file, the library is called through those pointers,
    and every call of the loader, of the library and of the device is
    traced in order. *)

Module Spirv.
Section Shim.
Context {hdr : SDL_gpu_h} {World Blob : Type}.

(** The enumerators of [spirv_cross_c.h] that the file names. *)
Inductive spvc_capture_mode :=
| SPVC_CAPTURE_MODE_TAKE_OWNERSHIP.

Inductive spvc_compiler_option :=
| SPVC_COMPILER_OPTION_HLSL_SHADER_MODEL
| SPVC_COMPILER_OPTION_HLSL_NONWRITABLE_UAV_TEXTURE_AS_SRV.

(** The calls that leave the file: into the dynamic loader of SDL and,
    through the function pointer [fn], into SPIRV-Cross.  The index is
    what comes back; a call with an out-parameter gives its [spvc_result]
    and the value it leaves behind the pointer. *)
Inductive LibCall : Type -> Type :=
| SDL_LoadObject (sofile : string) : LibCall ptr
| SDL_LoadFunction (handle : ptr) (name : string) : LibCall ptr
| spvc_context_create (fn : N) : LibCall (Z * ptr)
| spvc_context_destroy (fn : N) (context : ptr) : LibCall unit
| spvc_context_parse_spirv (fn : N) (context spirv : ptr) (word_count : Z)
    : LibCall (Z * ptr)
| spvc_context_create_compiler (fn : N) (context : ptr)
    (backend : spvc_backend) (parsed_ir : ptr) (mode : spvc_capture_mode)
    : LibCall (Z * ptr)
| spvc_compiler_create_compiler_options (fn : N) (compiler : ptr)
    : LibCall (Z * ptr)
| spvc_compiler_options_set_uint (fn : N) (options : ptr)
    (option : spvc_compiler_option) (value : Z) : LibCall Z
| spvc_compiler_install_compiler_options (fn : N) (compiler options : ptr)
    : LibCall Z
| spvc_compiler_compile (fn : N) (compiler : ptr) : LibCall (Z * string)
| spvc_context_get_last_error_string (fn : N) (context : ptr)
    : LibCall string.

(** What a run of the shim leaves behind in its trace. *)
Inductive ShimEvent :=
| ShimSetError (fmt : string) (args : list (Z + string))
| ShimLibrary {R : Type} (call : LibCall R) (res : R)
| ShimDevice (dev : SDL_GpuDevice (World := World) (Blob := Blob))
    {R : Type} (call : DriverCall Blob R) (res : R).

(** The static variables of the file, the world outside and the trace.
    [SDL_spvc] holds the nine function pointers [SDL_spvc_...] by the name
    of their entry point; a name without an entry is a [NULL] pointer. *)
Record Shim := {
  outside : World;
  spirvcross_dll : ptr;
  SDL_spvc : gmap string N;
  log : list ShimEvent
}.

Inductive Result (A : Type) :=
| Returns (a : A) (s : Shim)
| Faults (f : Fault) (s : Shim).
Arguments Returns {A} a s.
Arguments Faults {A} f s.

Definition SM (A : Type) : Type := Shim -> Result A.

Definition ret {A} (a : A) : SM A := fun s => Returns a s.

Definition bind {A B} (m : SM A) (k : A -> SM B) : SM B :=
  fun s => match m s with
           | Returns a s' => k a s'
           | Faults f s' => Faults f s'
           end.

Notation "'let*' x := m 'in' k" := (bind m (fun x => k))
  (at level 10, x name, m at level 100, k at level 200, only parsing).
Notation "m ;;; k" := (bind m (fun _ => k))
  (at level 100, k at level 200, right associativity, only parsing).

(** [SPIRV_CROSS_DLL], by platform, the world's answers to the calls that
    leave the file, and the command buffers of the program as the device
    reads them: the shim has no access to them. *)
Context (SPIRV_CROSS_DLL : string).
Context (library : forall R, LibCall R -> World -> R * World).
Context (commandBuffers : gmap N HeaderView).

(** The state after [evs] more events, in the world [w]. *)
Definition after (evs : list ShimEvent) (w : World) (s : Shim) : Shim :=
  {| outside := w;
     spirvcross_dll := spirvcross_dll s;
     SDL_spvc := SDL_spvc s;
     log := log s ++ evs |}.

Definition SDL_SetError (fmt : string) (args : list (Z + string)) : SM unit :=
  fun s => Returns tt (after [ShimSetError fmt args] (outside s) s).

(** A call of the loader or of the library. *)
Definition lib {R} (c : LibCall R) : SM R :=
  fun s => let r := library R c (outside s) in
           Returns (fst r) (after [ShimLibrary c (fst r)] (snd r) s).

(** [device->Entry(args)] *)
Definition on_device {R} (dev : SDL_GpuDevice) (c : DriverCall Blob R)
    : SM R :=
  fun s => let r := driver dev R c commandBuffers (outside s) in
           Returns (fst r) (after [ShimDevice dev c (fst r)] (snd r) s).

(** [device->member] *)
Definition deref {A} (p : option A) : SM A :=
  fun s => match p with
           | Some d => Returns d s
           | None => Faults NullDereference s
           end.

(** [spirvcross_dll = p] and [SDL_##func = p] *)
Definition set_spirvcross_dll (p : ptr) : SM unit :=
  fun s => Returns tt {| outside := outside s;
                         spirvcross_dll := p;
                         SDL_spvc := SDL_spvc s;
                         log := log s |}.

Definition set_SDL_spvc (func : string) (p : ptr) : SM unit :=
  fun s => Returns tt {| outside := outside s;
                         spirvcross_dll := spirvcross_dll s;
                         SDL_spvc := match p with
                                     | Some fn => <[func := fn]> (SDL_spvc s)
                                     | None => delete func (SDL_spvc s)
                                     end;
                         log := log s |}.

(** [SDL_##func(args)]: a call through the static function pointer. *)
Definition through {R} (func : string) (c : N -> LibCall R) : SM R :=
  fun s => match SDL_spvc s !! func with
           | Some fn => lib (c fn) s
           | None => Faults NullDereference s
           end.

(** [if (spirvcross_dll == NULL) { spirvcross_dll = SDL_LoadObject(...);
       if (spirvcross_dll == NULL) return NULL; }] *)
Definition load_library (k : SM ptr) : SM ptr :=
  fun s => match spirvcross_dll s with
           | Some _ => k s
           | None =>
               (let* handle := lib (SDL_LoadObject SPIRV_CROSS_DLL) in
                set_spirvcross_dll handle ;;;
                match handle with
                | None => ret None
                | Some _ => k
                end) s
           end.

(** [#define CHECK_FUNC(func)
       if (SDL_##func == NULL) {
         SDL_##func = (pfn_##func) SDL_LoadFunction(spirvcross_dll, #func);
         if (SDL_##func == NULL) return NULL; }] *)
Definition CHECK_FUNC (func : string) (k : SM ptr) : SM ptr :=
  fun s => match SDL_spvc s !! func with
           | Some _ => k s
           | None =>
               (let* fn := lib (SDL_LoadFunction (spirvcross_dll s) func) in
                set_SDL_spvc func fn ;;;
                match fn with
                | None => ret None
                | Some _ => k
                end) s
           end.

(** [#define SPVC_ERROR(func)
       SDL_SetError(#func " failed: %s",
                    SDL_spvc_context_get_last_error_string(context))] *)
Definition SPVC_ERROR (func : string) (context : ptr) : SM unit :=
  let* message :=
    through "spvc_context_get_last_error_string"
      (fun fn => spvc_context_get_last_error_string fn context) in
  SDL_SetError (func ++ " failed: %s") [inr message].

(** [SDL_spvc_context_destroy(context)] *)
Definition destroy (context : ptr) : SM unit :=
  through "spvc_context_destroy" (fun fn => spvc_context_destroy fn context).

(** The function from [/* Create the SPIRV-Cross context */] to its end:
    lines 105 to 162. *)
Definition cross_compile (backend : spvc_backend)
    (device : option SDL_GpuDevice) (createInfo : SDL_GpuShaderCreateInfo)
    : SM ptr :=
  (* Create the SPIRV-Cross context *)
  let* created := through "spvc_context_create" spvc_context_create in
  let '(result, context) := created in
  if result <? 0
  then SDL_SetError "spvc_context_create failed: %X" [inl result] ;;; ret None
  else
  (* Parse the SPIR-V into IR *)
  let* parsed :=
    through "spvc_context_parse_spirv"
      (fun fn => spvc_context_parse_spirv fn context (code createInfo)
                   (codeSize createInfo / 4)) in
  let '(result, ir) := parsed in
  if result <? 0
  then SPVC_ERROR "spvc_context_parse_spirv" context ;;;
       destroy context ;;; ret None
  else
  (* Create the cross-compiler *)
  let* made :=
    through "spvc_context_create_compiler"
      (fun fn => spvc_context_create_compiler fn context backend ir
                   SPVC_CAPTURE_MODE_TAKE_OWNERSHIP) in
  let '(result, compiler) := made in
  if result <? 0
  then SPVC_ERROR "spvc_context_create_compiler" context ;;;
       destroy context ;;; ret None
  else
  (* Set up the cross-compiler options *)
  let* opened :=
    through "spvc_compiler_create_compiler_options"
      (fun fn => spvc_compiler_create_compiler_options fn compiler) in
  let '(result, options) := opened in
  if result <? 0
  then SPVC_ERROR "spvc_compiler_create_compiler_options" context ;;;
       destroy context ;;; ret None
  else
  (match backend with
   | SPVC_BACKEND_HLSL =>
       through "spvc_compiler_options_set_uint"
         (fun fn => spvc_compiler_options_set_uint fn options
                      SPVC_COMPILER_OPTION_HLSL_SHADER_MODEL 50) ;;;
       through "spvc_compiler_options_set_uint"
         (fun fn => spvc_compiler_options_set_uint fn options
                      SPVC_COMPILER_OPTION_HLSL_NONWRITABLE_UAV_TEXTURE_AS_SRV
                      1) ;;;
       ret tt
   | SPVC_BACKEND_MSL => ret tt
   end) ;;;
  let* result :=
    through "spvc_compiler_install_compiler_options"
      (fun fn => spvc_compiler_install_compiler_options fn compiler options) in
  if result <? 0
  then SPVC_ERROR "spvc_compiler_install_compiler_options" context ;;;
       destroy context ;;; ret None
  else
  (* Compile to the target shader language *)
  let* compiled :=
    through "spvc_compiler_compile"
      (fun fn => spvc_compiler_compile fn compiler) in
  let '(result, translated) := compiled in
  if result <? 0
  then SPVC_ERROR "spvc_compiler_compile" context ;;;
       destroy context ;;; ret None
  else
  (* Compile the shader *)
  let* dev := deref device in
  let* shader :=
    on_device dev
      (CompileFromSPIRVCross (driverData dev) (stage createInfo)
         (entryPointName createInfo) translated) in
  (* Clean up *)
  destroy context ;;;
  ret shader.

(** [SDL_CreateShaderFromSPIRV] *)
Definition SDL_CreateShaderFromSPIRV (device : option SDL_GpuDevice)
    (createInfo : SDL_GpuShaderCreateInfo) : SM ptr :=
  let backend :=
    if SDL_GpuGetBackend device =? SDL_GPU_BACKEND_D3D11
    then Some SPVC_BACKEND_HLSL
    else if SDL_GpuGetBackend device =? SDL_GPU_BACKEND_METAL
    then Some SPVC_BACKEND_MSL
    else None in
  match backend with
  | None =>
      SDL_SetError "SDL_CreateShaderFromSPIRV: Unexpected SDL_GpuBackend" [] ;;;
      ret None
  | Some backend =>
      load_library (
      CHECK_FUNC "spvc_context_create" (
      CHECK_FUNC "spvc_context_destroy" (
      CHECK_FUNC "spvc_context_parse_spirv" (
      CHECK_FUNC "spvc_context_create_compiler" (
      CHECK_FUNC "spvc_compiler_create_compiler_options" (
      CHECK_FUNC "spvc_compiler_options_set_uint" (
      CHECK_FUNC "spvc_compiler_install_compiler_options" (
      CHECK_FUNC "spvc_compiler_compile" (
      CHECK_FUNC "spvc_context_get_last_error_string" (
      cross_compile backend device createInfo))))))))))
  end.

(** ** The shim, in words *)

(** The nine entry points, in the order of the [CHECK_FUNC] block. *)
Definition entry_points : list string :=
  [ "spvc_context_create";
    "spvc_context_destroy";
    "spvc_context_parse_spirv";
    "spvc_context_create_compiler";
    "spvc_compiler_create_compiler_options";
    "spvc_compiler_options_set_uint";
    "spvc_compiler_install_compiler_options";
    "spvc_compiler_compile";
    "spvc_context_get_last_error_string" ].

(** The library is loaded and its entry points are resolved. *)
Definition ready (s : Shim) : Prop :=
  is_Some (spirvcross_dll s)
  /\ Forall (fun func => is_Some (SDL_spvc s !! func)) entry_points.

(** An event of the dynamic loader. *)
Definition is_load (e : ShimEvent) : bool :=
  match e with
  | ShimLibrary c _ =>
      match c with
      | SDL_LoadObject _ | SDL_LoadFunction _ _ => true
      | _ => false
      end
  | _ => false
  end.

(** The context that an event creates (a context is created when
    [spvc_context_create] does not fail), and the contexts that [evs]
    create. *)
Definition creates (e : ShimEvent) : option ptr :=
  match e with
  | ShimLibrary c res =>
      match c in LibCall R return R -> option ptr with
      | spvc_context_create _ =>
          fun res => if fst res <? 0 then None else Some (snd res)
      | _ => fun _ => None
      end res
  | _ => None
  end.

Definition created (evs : list ShimEvent) : list ptr := omap creates evs.

(** The contexts that [evs] destroy. *)
Definition destroys (e : ShimEvent) : option ptr :=
  match e with
  | ShimLibrary c _ =>
      match c with
      | spvc_context_destroy _ context => Some context
      | _ => None
      end
  | _ => None
  end.

Definition destroyed (evs : list ShimEvent) : list ptr := omap destroys evs.

(** The shaders that the device returned in [evs]. *)
Definition compiles (e : ShimEvent) : option ptr :=
  match e with
  | ShimDevice _ c res =>
      match c in DriverCall _ R return R -> option ptr with
      | CompileFromSPIRVCross _ _ _ _ => fun res => Some res
      | _ => fun _ => None
      end res
  | _ => None
  end.

Definition compiled (evs : list ShimEvent) : list ptr := omap compiles evs.

(** The options that [evs] set, each with its value. *)
Definition sets (e : ShimEvent) : option (spvc_compiler_option * Z) :=
  match e with
  | ShimLibrary c _ =>
      match c with
      | spvc_compiler_options_set_uint _ _ option value => Some (option, value)
      | _ => None
      end
  | _ => None
  end.

Definition options_set (evs : list ShimEvent)
    : list (spvc_compiler_option * Z) :=
  omap sets evs.

(** The errors that [evs] set, by their format. *)
Definition reports (e : ShimEvent) : option string :=
  match e with
  | ShimSetError fmt _ => Some fmt
  | _ => None
  end.

Definition errors (evs : list ShimEvent) : list string := omap reports evs.

(** The target languages that [evs] ask a compiler for. *)
Definition asks (e : ShimEvent) : option spvc_backend :=
  match e with
  | ShimLibrary c _ =>
      match c with
      | spvc_context_create_compiler _ _ backend _ _ => Some backend
      | _ => None
      end
  | _ => None
  end.

Definition targets (evs : list ShimEvent) : list spvc_backend :=
  omap asks evs.

(** The code and the word count of the modules that [evs] parse. *)
Definition parses (e : ShimEvent) : option (ptr * Z) :=
  match e with
  | ShimLibrary c _ =>
      match c with
      | spvc_context_parse_spirv _ _ spirv word_count =>
          Some (spirv, word_count)
      | _ => None
      end
  | _ => None
  end.

Definition parsed (evs : list ShimEvent) : list (ptr * Z) := omap parses evs.

(** The options of an HLSL compiler. *)
Definition hlsl_options : list (spvc_compiler_option * Z) :=
  [ (SPVC_COMPILER_OPTION_HLSL_SHADER_MODEL, 50);
    (SPVC_COMPILER_OPTION_HLSL_NONWRITABLE_UAV_TEXTURE_AS_SRV, 1) ].

(** The target language of a device, as the [switch] on its backend has
    it. *)
Definition target_of
    (device : option (SDL_GpuDevice (World := World) (Blob := Blob)))
    : option spvc_backend :=
  if SDL_GpuGetBackend device =? SDL_GPU_BACKEND_D3D11
  then Some SPVC_BACKEND_HLSL
  else if SDL_GpuGetBackend device =? SDL_GPU_BACKEND_METAL
  then Some SPVC_BACKEND_MSL
  else None.

(** ** Properties of the shim *)

Implicit Types (s : Shim) (evs : list ShimEvent).

(** What the loading block does to the state: it appends loader events,
    keeps the library once it is loaded, and only adds entry points. *)
Definition loads (s s1 : Shim) : Prop :=
  exists evs,
    log s1 = (log s ++ evs)%list
    /\ forallb is_load evs = true
    /\ SDL_spvc s ⊆ SDL_spvc s1
    /\ (is_Some (spirvcross_dll s) -> spirvcross_dll s1 = spirvcross_dll s).

Lemma loads_refl s : loads s s.
Proof. exists []. by rewrite app_nil_r. Qed.

Lemma loads_trans s s1 s2 : loads s s1 -> loads s1 s2 -> loads s s2.
Proof.
  intros (evs1 & Hl1 & Hf1 & Hm1 & Hd1) (evs2 & Hl2 & Hf2 & Hm2 & Hd2).
  exists (evs1 ++ evs2)%list. split; [by rewrite Hl2, Hl1, app_assoc |].
  split; [by rewrite forallb_app, Hf1, Hf2 |].
  split; [by etrans |].
  intros Hd. rewrite Hd2, Hd1; [done | done |]. by rewrite Hd1.
Qed.

Lemma load_library_spec k s :
  exists s1,
    loads s s1
    /\ (is_Some (spirvcross_dll s) -> s1 = s)
    /\ ((is_Some (spirvcross_dll s1) /\ load_library k s = k s1)
        \/ load_library k s = Returns None s1).
Proof.
  unfold load_library.
  destruct (spirvcross_dll s) as [d |] eqn:Hd.
  - exists s. split; [apply loads_refl |]. split; [done |].
    left. rewrite Hd. eauto.
  - unfold bind, lib, set_spirvcross_dll, ret.
    destruct (library _ _ _) as [[d |] w]; cbn [fst snd]; eexists.
    + refine (conj _ (conj _ (or_introl (conj _ eq_refl)))); cbn;
        [| by intros [? ?] | eauto].
      eexists [_]. cbn. rewrite Hd.
      split; [reflexivity | split; [reflexivity | split; [done |]]].
      by intros [? ?].
    + refine (conj _ (conj _ (or_intror eq_refl))); [| by intros [? ?]].
      eexists [_]. cbn. rewrite Hd.
      split; [reflexivity | split; [reflexivity | split; [done |]]].
      by intros [? ?].
Qed.

Lemma CHECK_FUNC_spec func k s :
  exists s1,
    loads s s1
    /\ spirvcross_dll s1 = spirvcross_dll s
    /\ (is_Some (SDL_spvc s !! func) -> s1 = s)
    /\ ((is_Some (SDL_spvc s1 !! func) /\ CHECK_FUNC func k s = k s1)
        \/ CHECK_FUNC func k s = Returns None s1).
Proof.
  unfold CHECK_FUNC.
  destruct (SDL_spvc s !! func) as [fn |] eqn:Hfn.
  - exists s. split; [apply loads_refl |]. split; [done |]. split; [done |].
    left. rewrite Hfn. eauto.
  - unfold bind, lib, set_SDL_spvc, ret.
    destruct (library _ _ _) as [[fn |] w]; cbn [fst snd]; eexists.
    + refine (conj _ (conj _ (conj _ (or_introl (conj _ eq_refl))))); cbn;
        [| done | by intros [? ?] | rewrite lookup_insert_eq; eauto].
      eexists [_]. cbn.
      split; [reflexivity | split; [reflexivity | split; [| done]]].
      by apply insert_subseteq.
    + refine (conj _ (conj _ (conj _ (or_intror eq_refl)))); cbn;
        [| done | by intros [? ?]].
      eexists [_]. cbn.
      split; [reflexivity | split; [reflexivity | split; [| done]]].
      by rewrite delete_id.
Qed.

Lemma checks_spec funcs k s :
  exists s1,
    loads s s1
    /\ spirvcross_dll s1 = spirvcross_dll s
    /\ (Forall (fun func => is_Some (SDL_spvc s !! func)) funcs -> s1 = s)
    /\ ((Forall (fun func => is_Some (SDL_spvc s1 !! func)) funcs
         /\ foldr CHECK_FUNC k funcs s = k s1)
        \/ foldr CHECK_FUNC k funcs s = Returns None s1).
Proof.
  revert s. induction funcs as [| func funcs IH]; intros s; cbn [foldr].
  - exists s. split; [apply loads_refl |]. split; [done |]. split; [done |].
    left. eauto.
  - destruct (CHECK_FUNC_spec func (foldr CHECK_FUNC k funcs) s)
      as (s1 & Hloads1 & Hdll1 & Hsame1 & [(Hfn & ->) | ->]).
    + destruct (IH s1)
        as (s2 & Hloads2 & Hdll2 & Hsame2 & [(Hall & ->) | ->]).
      * exists s2. split; [by eapply loads_trans |].
        split; [congruence |].
        split.
        { intros [Hhd Htl]%Forall_cons. rewrite Hsame2; rewrite Hsame1; done. }
        left. split; [| done].
        constructor; [| done].
        destruct Hloads2 as (_ & _ & _ & Hsub & _).
        by eapply lookup_weaken_is_Some.
      * exists s2. split; [by eapply loads_trans |].
        split; [congruence |].
        split; [| by right].
        intros [Hhd Htl]%Forall_cons. rewrite Hsame2; rewrite Hsame1; done.
    + exists s1. split; [done |]. split; [done |].
      split; [| by right]. intros [Hhd _]%Forall_cons. auto.
Qed.

(** The loading block of [SDL_CreateShaderFromSPIRV]: the library, then
    the nine entry points. *)
Definition prologue (k : SM ptr) : SM ptr :=
  load_library (foldr CHECK_FUNC k entry_points).

Lemma prologue_spec k s :
  exists s1,
    loads s s1
    /\ (ready s -> s1 = s)
    /\ ((ready s1 /\ prologue k s = k s1)
        \/ prologue k s = Returns None s1).
Proof.
  unfold prologue.
  destruct (load_library_spec (foldr CHECK_FUNC k entry_points) s)
    as (s1 & Hloads1 & Hsame1 & [(Hdll & ->) | ->]).
  - destruct (checks_spec entry_points k s1)
      as (s2 & Hloads2 & Hdll2 & Hsame2 & [(Hall & ->) | ->]).
    + exists s2. split; [by eapply loads_trans |].
      split.
      { intros (Hd & Hf). rewrite Hsame2; rewrite Hsame1; done. }
      left. split; [| done]. split; [by rewrite Hdll2 | done].
    + exists s2. split; [by eapply loads_trans |].
      split; [| by right].
      intros (Hd & Hf). rewrite Hsame2; rewrite Hsame1; done.
  - exists s1. split; [done |]. split; [| by right].
    intros (Hd & _). auto.
Qed.

Lemma after_after evs1 evs2 w1 w2 s :
  after evs2 w2 (after evs1 w1 s) = after (evs1 ++ evs2) w2 s.
Proof. unfold after. cbn. by rewrite app_assoc. Qed.

(** What [cross_compile] leaves in the trace when it returns [r]. *)
Definition translation (backend : spvc_backend)
    (device : option SDL_GpuDevice) (createInfo : SDL_GpuShaderCreateInfo)
    (s : Shim) (r : ptr) (evs : list ShimEvent) : Prop :=
  List.filter is_load evs = []
  /\ created evs = destroyed evs
  /\ (length (created evs) <= 1)%nat
  /\ (forall context,
        created evs = [context] ->
        exists fn,
          SDL_spvc s !! "spvc_context_destroy" = Some fn
          /\ last evs = Some (ShimLibrary (spvc_context_destroy fn context) tt))
  /\ ((compiled evs = [] /\ r = None /\ length (errors evs) = 1%nat)
      \/ (exists dev fn compiler res translated fn' context,
            device = Some dev
            /\ compiled evs = [r]
            /\ errors evs = []
            /\ (0 <= res)
            /\ drop (length evs - 3) evs
               = [ShimLibrary (spvc_compiler_compile fn compiler)
                    (res, translated);
                  ShimDevice dev
                    (CompileFromSPIRVCross (driverData dev)
                       (stage createInfo) (entryPointName createInfo)
                       translated) r;
                  ShimLibrary (spvc_context_destroy fn' context) tt]
            /\ options_set evs
               = match backend with
                 | SPVC_BACKEND_HLSL => hlsl_options
                 | SPVC_BACKEND_MSL => []
                 end))
  /\ (targets evs = [] \/ targets evs = [backend])
  /\ (parsed evs = []
      \/ parsed evs = [(code createInfo, codeSize createInfo / 4)])
  /\ (options_set evs = []
      \/ (backend = SPVC_BACKEND_HLSL /\ options_set evs = hlsl_options)).

(** Run the shim on a ready state: look the pointers up, split on what
    the library answers and on the sign of each result. *)
Ltac run_shim :=
  repeat first
    [ progress cbn [SDL_spvc after outside log fst snd spirvcross_dll]
    | match goal with
      | H : SDL_spvc ?s !! ?f = Some _ |- context [SDL_spvc ?s !! ?f] =>
          rewrite H
      | |- context [library ?R ?c ?w] =>
          let res := fresh "res" in
          let w' := fresh "w" in
          destruct (library R c w) as [res w'];
          lazymatch type of res with
          | (_ * _)%type => let result := fresh "result" in
                            destruct res as [result ?]
          | unit => destruct res
          | _ => idtac
          end
      | |- context [?r <? 0] =>
          let Hlt := fresh "Hlt" in destruct (r <? 0) eqn:Hlt
      end ].

Ltac signs :=
  repeat match goal with
         | H : (?r <? 0) = _ |- context [?r <? 0] => rewrite H
         end.

Ltac translated :=
  unfold translation, hlsl_options;
  unfold created, destroyed, compiled, options_set, errors, targets, parsed;
  cbn [List.filter is_load omap list_omap creates destroys compiles sets
       reports asks parses fst snd length app last drop Nat.sub];
  signs;
  cbn [omap list_omap length app last drop Nat.sub];
  repeat match goal with |- _ /\ _ => split end;
  try done; try (cbn; lia);
  try (intros context [= <-]; eexists; split; [eassumption | reflexivity]);
  try (by left); try (by right);
  try (left; repeat split; done);
  try (right; eexists _, _, _, _, _, _, _;
       refine (conj eq_refl (conj eq_refl (conj eq_refl
                 (conj _ (conj eq_refl eq_refl)))));
       apply Z.ltb_ge; eassumption).

Ltac leaf :=
  first
    [ left; eexists _, _, _;
      split; [ rewrite ?after_after; reflexivity | cbn [app]; translated ]
    | right; split; [ reflexivity | ];
      eexists _, _; rewrite ?after_after; reflexivity ].

Lemma cross_compile_spec backend device createInfo s :
  ready s ->
  (exists r evs w,
      cross_compile backend device createInfo s = Returns r (after evs w s)
      /\ translation backend device createInfo s r evs)
  \/ (device = None
      /\ exists evs w,
           cross_compile backend device createInfo s
           = Faults NullDereference (after evs w s)).
Proof.
  intros (_ & Hall). unfold entry_points in Hall.
  repeat match type of Hall with
         | Forall _ (_ :: _) => apply Forall_cons in Hall as [[? ?] Hall]
         end.
  clear Hall.
  unfold cross_compile, SPVC_ERROR, destroy, through, bind, lib, on_device,
    deref, SDL_SetError, ret.
  destruct backend, device as [dev |]; run_shim; leaf.
Qed.

Lemma shim_unfold device createInfo :
  SDL_CreateShaderFromSPIRV device createInfo
  = match target_of device with
    | None =>
        bind
          (SDL_SetError
             "SDL_CreateShaderFromSPIRV: Unexpected SDL_GpuBackend" [])
          (fun _ => ret None)
    | Some backend => prologue (cross_compile backend device createInfo)
    end.
Proof. reflexivity. Qed.

(** An event of the loader creates, destroys, compiles, sets, reports,
    asks and parses nothing. *)
Lemma loading_omap {A} (f : ShimEvent -> option A) evs :
  (forall e, is_load e = true -> f e = None) ->
  forallb is_load evs = true -> omap f evs = [].
Proof.
  intros Hf. induction evs as [| e evs IH]; [done |].
  cbn. intros [He Hevs]%andb_true_iff. by rewrite (Hf e He), IH.
Qed.

Ltac loader_event :=
  let e := fresh "e" in
  intros e; destruct e as [? ? | ? c ? | ? ? c ?]; try done; by destruct c.

Lemma loading_quiet evs :
  forallb is_load evs = true ->
  created evs = [] /\ destroyed evs = [] /\ compiled evs = []
  /\ options_set evs = [] /\ errors evs = [] /\ targets evs = []
  /\ parsed evs = [].
Proof.
  intros Hevs. repeat split; apply loading_omap; try done; loader_event.
Qed.

(** How a run that returns is made up: events of the loader, then the
    error of an unexpected backend, nothing, or a translation. *)
Lemma shim_returns device createInfo s r s' :
  SDL_CreateShaderFromSPIRV device createInfo s = Returns r s' ->
  exists loading rest,
    log s' = (log s ++ loading ++ rest)%list
    /\ forallb is_load loading = true
    /\ SDL_spvc s ⊆ SDL_spvc s'
    /\ (is_Some (spirvcross_dll s) -> spirvcross_dll s' = spirvcross_dll s)
    /\ (ready s -> loading = [] /\ ready s')
    /\ ((target_of device = None /\ r = None
         /\ rest = [ShimSetError
                      "SDL_CreateShaderFromSPIRV: Unexpected SDL_GpuBackend"
                      []])
        \/ (target_of device <> None /\ r = None /\ rest = [])
        \/ (exists backend,
              target_of device = Some backend /\ ready s'
              /\ translation backend device createInfo s' r rest)).
Proof.
  rewrite shim_unfold.
  destruct (target_of device) as [backend |] eqn:Htarget.
  - destruct (prologue_spec (cross_compile backend device createInfo) s)
      as (s1 & (loading & Hlog & Hload & Hsub & Hdll) & Hsame
          & [(Hready & ->) | ->]).
    + destruct (cross_compile_spec backend device createInfo s1 Hready)
        as [(r' & evs & w & -> & Htr) | (_ & evs & w & ->)]; [| done].
      intros [= <- <-]. exists loading, evs. cbn.
      split; [by rewrite Hlog, app_assoc |]. split; [done |].
      split; [done |]. split; [done |].
      split.
      { intros Hs. pose proof (Hsame Hs) as ->. split; [| exact Hs].
        destruct loading; [done |].
        apply (f_equal length) in Hlog. rewrite length_app in Hlog.
        cbn in Hlog. lia. }
      right; right. exists backend.
      split; [done | split; [exact Hready | exact Htr]].
    + intros [= <- <-]. exists loading, []. rewrite app_nil_r.
      split; [done |]. split; [done |]. split; [done |]. split; [done |].
      split.
      { intros Hs. pose proof (Hsame Hs) as ->. split; [| exact Hs].
        destruct loading; [done |].
        apply (f_equal length) in Hlog. rewrite length_app in Hlog.
        cbn in Hlog. lia. }
      right; left. done.
  - unfold bind, SDL_SetError, ret. intros [= <- <-].
    exists [], [ShimSetError
                  "SDL_CreateShaderFromSPIRV: Unexpected SDL_GpuBackend" []].
    split; [done |]. split; [done |]. split; [done |]. split; [done |].
    split; [intros Hs; split; [done | exact Hs] |]. by left.
Qed.

(** X16.  The library and its entry points are loaded once.  A run of
    [SDL_CreateShaderFromSPIRV] that returns never unloads: the resolved
    entry points only grow and a loaded library handle stays.  Its trace
    is a block of loader events followed by events that are none; on a
    state in which the library and the nine entry points are there the
    block is empty; and when anything follows the block for a device with
    a target language, the state it leaves is such a state.  From such a
    state no later run calls the loader. *)
Theorem shim_loads_once device createInfo s r s' :
  SDL_CreateShaderFromSPIRV device createInfo s = Returns r s' ->
  SDL_spvc s ⊆ SDL_spvc s'
  /\ (is_Some (spirvcross_dll s) -> spirvcross_dll s' = spirvcross_dll s)
  /\ (exists loading rest,
        log s' = (log s ++ loading ++ rest)%list
        /\ forallb is_load loading = true
        /\ List.filter is_load rest = []
        /\ (ready s -> loading = [] /\ ready s')
        /\ (target_of device <> None -> rest <> [] -> ready s'))
  /\ (ready s' ->
      forall device2 createInfo2 r2 s2,
        SDL_CreateShaderFromSPIRV device2 createInfo2 s' = Returns r2 s2 ->
        ready s2
        /\ List.filter is_load (drop (length (log s')) (log s2)) = []).
Proof.
  assert (forall device createInfo s r s',
    SDL_CreateShaderFromSPIRV device createInfo s = Returns r s' ->
    exists loading rest,
      log s' = (log s ++ loading ++ rest)%list
      /\ forallb is_load loading = true
      /\ List.filter is_load rest = []
      /\ (ready s -> loading = [] /\ ready s')
      /\ (target_of device <> None -> rest <> [] -> ready s')) as Hrun.
  { clear. intros device createInfo s r s' Hrun.
    destruct (shim_returns _ _ _ _ _ Hrun)
      as (loading & rest & Hlog & Hload & _ & _ & Hready & Hrest).
    exists loading, rest. do 2 (split; [done |]).
    split; [| split; [done |]].
    - destruct Hrest as [(_ & _ & ->) | [(_ & _ & ->) | (b & _ & _ & Htr)]];
        [done | done | apply Htr].
    - intros Htarget Hne.
      destruct Hrest as [(? & _) | [(_ & _ & ->) | (b & _ & ? & _)]]; done. }
  intros Hrun1.
  destruct (shim_returns _ _ _ _ _ Hrun1) as (_ & _ & _ & _ & Hsub & Hdll & _).
  split; [done |]. split; [done |]. split; [by eapply Hrun |].
  intros Hready device2 createInfo2 r2 s2 Hrun2.
  destruct (Hrun _ _ _ _ _ Hrun2)
    as (loading & rest & Hlog & _ & Hrest & Hagain & _).
  destruct (Hagain Hready) as (-> & Hready2). split; [done |].
  by rewrite Hlog, drop_app_length.
Qed.

(** X17.  The shim leaks no SPIRV-Cross context.  In a run that returns,
    a context is created at most once, the contexts created are exactly
    the contexts destroyed, and the destruction of the context is the last
    event of the run, after the device has compiled the shader or after
    the error of the failing step has been set. *)
Theorem shim_releases_context device createInfo s r s' :
  SDL_CreateShaderFromSPIRV device createInfo s = Returns r s' ->
  exists evs,
    log s' = (log s ++ evs)%list
    /\ created evs = destroyed evs
    /\ (length (created evs) <= 1)%nat
    /\ (forall context,
          created evs = [context] ->
          exists fn,
            SDL_spvc s' !! "spvc_context_destroy" = Some fn
            /\ last evs
               = Some (ShimLibrary (spvc_context_destroy fn context) tt)).
Proof.
  intros Hrun.
  destruct (shim_returns _ _ _ _ _ Hrun)
    as (loading & rest & Hlog & Hload & _ & _ & _ & Hrest).
  destruct (loading_quiet _ Hload) as (Hc & Hd & _).
  exists (loading ++ rest)%list. split; [done |].
  unfold created, destroyed in *. rewrite !omap_app, Hc, Hd. cbn [app].
  destruct Hrest as [(_ & _ & ->) | [(_ & _ & ->) | (b & _ & _ & Htr)]];
    [cbn; split; [done | split; [lia | by intros ? [=]]] ..|].
  destruct Htr as (_ & Hbal & Hone & Hlast & _).
  split; [done |]. split; [done |].
  intros context Hcreated. destruct (Hlast _ Hcreated) as (fn & Hfn & Hl).
  exists fn. split; [done |]. rewrite last_app, Hl. done.
Qed.

(** X18.  The shader that [SDL_CreateShaderFromSPIRV] returns is the
    answer of the device.  Either the run returns [NULL] without having
    reached the device, having set at most one error, and none only where
    it stopped in the loader; or the run ends with
    [spvc_compiler_compile] succeeding, the device compiling the text it
    produced for the stage and the entry point of the create-info, and the
    context being destroyed, no error is set, and what the device
    answered is returned. *)
Theorem shim_result device createInfo s r s' :
  SDL_CreateShaderFromSPIRV device createInfo s = Returns r s' ->
  exists evs,
    log s' = (log s ++ evs)%list
    /\ ((r = None /\ compiled evs = []
         /\ (length (errors evs) <= 1)%nat
         /\ (errors evs = [] -> forallb is_load evs = true))
        \/ (exists dev fn compiler res translated fn' context,
              device = Some dev
              /\ compiled evs = [r]
              /\ errors evs = []
              /\ 0 <= res
              /\ drop (length evs - 3) evs
                 = [ShimLibrary (spvc_compiler_compile fn compiler)
                      (res, translated);
                    ShimDevice dev
                      (CompileFromSPIRVCross (driverData dev)
                         (stage createInfo) (entryPointName createInfo)
                         translated) r;
                    ShimLibrary (spvc_context_destroy fn' context) tt])).
Proof.
  intros Hrun.
  destruct (shim_returns _ _ _ _ _ Hrun)
    as (loading & rest & Hlog & Hload & _ & _ & _ & Hrest).
  destruct (loading_quiet _ Hload) as (_ & _ & Hc & _ & He & _).
  exists (loading ++ rest)%list. split; [done |].
  unfold compiled, errors in *. rewrite !omap_app, Hc, He. cbn [app].
  destruct Hrest as [(_ & -> & ->) | [(_ & -> & ->) | (b & _ & _ & Htr)]].
  - left. cbn. repeat split; try done; lia.
  - left. cbn. rewrite app_nil_r. repeat split; try done; lia.
  - destruct Htr as (_ & _ & _ & _ & Hres & _).
    destruct Hres
      as [(Hnone & -> & Herr)
         | (dev & fn & compiler & res & translated & fn' & context
            & -> & Hcomp & Herr & Hres & Hdrop & _)].
    + left. unfold compiled, errors in *. rewrite Hnone.
      repeat split; try done; [lia |].
      intros Hno. rewrite Hno in Herr. done.
    + right. exists dev, fn, compiler, res, translated, fn', context.
      do 4 (split; [done |]).
      assert (3 <= length rest)%nat as Hlen.
      { apply (f_equal length) in Hdrop. rewrite length_drop in Hdrop.
        cbn in Hdrop. lia. }
      rewrite length_app.
      replace (length loading + length rest - 3)%nat
        with (length loading + (length rest - 3))%nat by lia.
      by rewrite drop_app_add.
Qed.

(** X19.  What the shim asks of SPIRV-Cross.  The compiler is created
    for the target language of the device (HLSL for D3D11, MSL for
    Metal); the module is parsed as [codeSize / 4] words of the code of
    the create-info; options are set only for HLSL, and then they are
    shader model 50 and non-writable UAV textures as SRV, both set whenever
    the device is reached. *)
Theorem shim_targets_and_options device createInfo s r s' :
  SDL_CreateShaderFromSPIRV device createInfo s = Returns r s' ->
  exists evs,
    log s' = (log s ++ evs)%list
    /\ (forall backend,
          backend ∈ targets evs -> target_of device = Some backend)
    /\ (parsed evs = []
        \/ parsed evs = [(code createInfo, codeSize createInfo / 4)])
    /\ (options_set evs = []
        \/ (target_of device = Some SPVC_BACKEND_HLSL
            /\ options_set evs = hlsl_options))
    /\ (compiled evs <> [] ->
        target_of device = Some SPVC_BACKEND_HLSL ->
        options_set evs = hlsl_options).
Proof.
  intros Hrun.
  destruct (shim_returns _ _ _ _ _ Hrun)
    as (loading & rest & Hlog & Hload & _ & _ & _ & Hrest).
  destruct (loading_quiet _ Hload) as (_ & _ & Hc & Ho & _ & Ht & Hp).
  exists (loading ++ rest)%list. split; [done |].
  unfold compiled, options_set, targets, parsed in *.
  rewrite !omap_app, Hc, Ho, Ht, Hp. cbn [app].
  destruct Hrest as [(_ & _ & ->) | [(_ & _ & ->) | (b & Hb & _ & Htr)]].
  - cbn. split; [by intros ? ?%elem_of_nil |].
    split; [by left |]. split; [by left |]. done.
  - cbn. split; [by intros ? ?%elem_of_nil |].
    split; [by left |]. split; [by left |]. done.
  - destruct Htr as (_ & _ & _ & _ & Hres & Htargets & Hparsed & Hopts).
    unfold compiled, options_set, targets, parsed in *.
    split; [| split; [done | split]].
    + intros backend Hin.
      destruct Htargets as [Hnil | Hone].
      * rewrite Hnil in Hin. by apply elem_of_nil in Hin.
      * rewrite Hone in Hin. apply list_elem_of_singleton in Hin. by subst.
    + destruct Hopts as [? | (-> & ?)]; auto.
    + intros Hcomp Hhlsl.
      destruct Hres as [(Hnone & _) | (? & ? & ? & ? & ? & ? & ? & Hres)];
        [done |].
      destruct Hres as (_ & _ & _ & _ & _ & Hset).
      rewrite Hset. rewrite Hb in Hhlsl. by injection Hhlsl as ->.
Qed.

(** X20.  [SDL_CreateShaderFromSPIRV] always returns on a device, and on
    [NULL] when the invalid backend is no target: no function pointer of
    the file is called before it is resolved and the device is not
    dereferenced where it is [NULL]. *)
Theorem shim_never_faults device createInfo s :
  (device = None -> target_of device = None) ->
  exists r s', SDL_CreateShaderFromSPIRV device createInfo s = Returns r s'.
Proof.
  intros Hdevice. rewrite shim_unfold.
  destruct (target_of device) as [backend |] eqn:Htarget.
  - destruct (prologue_spec (cross_compile backend device createInfo) s)
      as (s1 & _ & _ & [(Hready & ->) | ->]); [| eauto].
    destruct (cross_compile_spec backend device createInfo s1 Hready)
      as [(r & evs & w & -> & _) | (Hnull & _)]; [eauto |].
    by specialize (Hdevice Hnull).
  - unfold bind, SDL_SetError, ret. eauto.
Qed.

End Shim.

Arguments Returns {World Blob A} a s.
Arguments Faults {World Blob A} f s.

End Spirv.

(** * A stub backend

    One build of the library over a backend that records nothing and
    answers with fixed values: the concrete ground on which the
    statements above are exercised. *)

(** A debug build ([SDL_assert] compiled in) with the backend bits and the
    depth formats of the public header. *)
#[local]
Instance debug_build : SDL_gpu_h := {|
  SDL_GPU_BACKEND_INVALID := 0;
  SDL_GPU_BACKEND_VULKAN := 1;
  SDL_GPU_BACKEND_D3D11 := 2;
  SDL_GPU_BACKEND_METAL := 4;
  SDL_GPU_SHADERFORMAT_SPIRV := 1;
  SDL_GPU_TEXTUREUSAGE_DEPTH_STENCIL_TARGET_BIT := 32;
  IsDepthFormat := fun f =>
    match f with
    | SDL_GPU_TEXTUREFORMAT_D16_UNORM
    | SDL_GPU_TEXTUREFORMAT_D24_UNORM
    | SDL_GPU_TEXTUREFORMAT_D32_SFLOAT
    | SDL_GPU_TEXTUREFORMAT_D24_UNORM_S8_UINT
    | SDL_GPU_TEXTUREFORMAT_D32_SFLOAT_S8_UINT => true
    | _ => false
    end;
  SDL_ASSERT_LEVEL := 2
|}.

(** The same build with [SDL_assert] compiled out. *)
Definition release_build : SDL_gpu_h := {|
  SDL_GPU_BACKEND_INVALID := 0;
  SDL_GPU_BACKEND_VULKAN := 1;
  SDL_GPU_BACKEND_D3D11 := 2;
  SDL_GPU_BACKEND_METAL := 4;
  SDL_GPU_SHADERFORMAT_SPIRV := 1;
  SDL_GPU_TEXTUREUSAGE_DEPTH_STENCIL_TARGET_BIT := 32;
  IsDepthFormat := @IsDepthFormat debug_build;
  SDL_ASSERT_LEVEL := 1
|}.

(** The answer of the stub to a call, by the return type of the entry. *)
Definition stub_answer {R} (c : DriverCall unit R) : R :=
  match c with
  | IsTextureFormatSupported _ _ _ _ => false
  | CreateComputePipeline _ _ => None
  | CreateGraphicsPipeline _ _ => None
  | CreateSampler _ _ => None
  | CreateShader _ _ => None
  | CompileFromSPIRVCross _ _ _ _ => None
  | CreateTexture _ _ => None
  | CreateBuffer _ _ _ => None
  | CreateTransferBuffer _ _ _ _ => None
  | CreateOcclusionQuery _ => None
  | ReleaseTexture _ _ => tt
  | ReleaseSampler _ _ => tt
  | ReleaseBuffer _ _ => tt
  | ReleaseTransferBuffer _ _ => tt
  | ReleaseShader _ _ => tt
  | ReleaseComputePipeline _ _ => tt
  | ReleaseGraphicsPipeline _ _ => tt
  | ReleaseOcclusionQuery _ _ => tt
  | ReleaseFence _ _ => tt
  | BeginRenderPass _ _ _ _ => tt
  | BindGraphicsPipeline _ _ => tt
  | SetViewport _ _ => tt
  | SetScissor _ _ => tt
  | BindVertexBuffers _ _ _ _ => tt
  | BindIndexBuffer _ _ _ => tt
  | BindVertexSamplers _ _ _ _ => tt
  | BindVertexStorageTextures _ _ _ _ => tt
  | BindVertexStorageBuffers _ _ _ _ => tt
  | BindFragmentSamplers _ _ _ _ => tt
  | BindFragmentStorageTextures _ _ _ _ => tt
  | BindFragmentStorageBuffers _ _ _ _ => tt
  | PushVertexUniformData _ _ _ _ => tt
  | PushFragmentUniformData _ _ _ _ => tt
  | DrawIndexedPrimitives _ _ _ _ _ => tt
  | DrawPrimitives _ _ _ => tt
  | DrawPrimitivesIndirect _ _ _ _ _ => tt
  | DrawIndexedPrimitivesIndirect _ _ _ _ _ => tt
  | EndRenderPass _ => tt
  | BeginComputePass _ _ _ _ _ => tt
  | BindComputePipeline _ _ => tt
  | BindComputeStorageTextures _ _ _ _ => tt
  | BindComputeStorageBuffers _ _ _ _ => tt
  | PushComputeUniformData _ _ _ _ => tt
  | DispatchCompute _ _ _ _ => tt
  | EndComputePass _ => tt
  | BeginCopyPass _ => tt
  | UploadToTexture _ _ _ _ _ => tt
  | UploadToBuffer _ _ _ _ _ => tt
  | CopyTextureToTexture _ _ _ _ => tt
  | CopyBufferToBuffer _ _ _ _ _ => tt
  | GenerateMipmaps _ _ => tt
  | DownloadFromTexture _ _ _ _ => tt
  | DownloadFromBuffer _ _ _ _ => tt
  | EndCopyPass _ => tt
  | SetStringMarker _ _ => tt
  | Blit _ _ _ _ _ => tt
  | AcquireCommandBuffer _ => None
  | AcquireSwapchainTexture _ _ _ _ => None
  | Submit _ => tt
  | SubmitAndAcquireFence _ => None
  | OcclusionQueryBegin _ _ => tt
  | OcclusionQueryEnd _ _ => tt
  end.

(** The stub has no D24 depth formats (a Metal-like backend), hands out
    the command buffer at address 1 and answers every other call with
    [NULL] or nothing. *)
Definition stub_driver (R : Type) (c : DriverCall unit R)
    (read : gmap N HeaderView) (w : unit)
    : R * unit :=
  (match c in DriverCall _ R return R -> R with
   | IsTextureFormatSupported _ fmt _ _ =>
       fun _ =>
         match fmt with
         | SDL_GPU_TEXTUREFORMAT_D24_UNORM
         | SDL_GPU_TEXTUREFORMAT_D24_UNORM_S8_UINT => false
         | _ => true
         end
   | AcquireCommandBuffer _ => fun _ => Some 1%N
   | SubmitAndAcquireFence _ => fun _ => Some 2%N
   | _ => fun answer => answer
   end (stub_answer c), w).

Definition stub_device : SDL_GpuDevice (World := unit) (Blob := unit) :=
  {| backend := 4; driverData := Some 7%N; driver := stub_driver |}.

(** No SPIRV-Cross library is installed. *)
Definition no_spirv_cross {W : Type} (target : spvc_backend) (code : ptr)
    (size : Z) (w : W) : option string * W :=
  (None, w).

(** Before any call. *)
Definition boot : State (World := unit) (Blob := unit) :=
  {| world := tt; heap := ∅; trace := [] |}.

(** After acquiring the command buffer of the stub. *)
Definition idle : State :=
  with_header 1 (fresh_header (Some stub_device) (Some 1%N))
    (called stub_device (AcquireCommandBuffer (Some 7%N)) boot).

(** With its render pass begun, no pipeline bound. *)
Definition rendering : State :=
  with_header 1
    (set_renderPass_inProgress true
       (fresh_header (Some stub_device) (Some 1%N)))
    (called stub_device (BeginRenderPass (Some 1%N) None 0 None) idle).

(** With its copy pass begun. *)
Definition copying : State :=
  with_header 1
    (set_copyPass_inProgress true
       (fresh_header (Some stub_device) (Some 1%N)))
    (called stub_device (BeginCopyPass (Some 1%N)) idle).

(** The state that a call leaves. *)
Definition state_after {W : Type} (c : ApiCall (World := W) (Blob := unit))
    (s : State) : State :=
  match exec no_spirv_cross c s with
  | Ok _ s' => s'
  | Crash _ s' => s'
  end.

(** With the graphics pipeline bound outside a pass: the render pass was
    begun and ended, and the pipeline was bound through its handle. *)
Definition bound_outside : State :=
  state_after (ApiBindGraphicsPipeline (Some 1%N) (Some 9%N))
    (state_after (ApiEndRenderPass (Some 1%N)) rendering).

(** A backend that answers as the stub does and writes down, at every
    call, the header at address 1 as it reads it. *)
Definition watcher_driver (R : Type) (c : DriverCall unit R)
    (read : gmap N HeaderView) (w : list (option HeaderView))
    : R * list (option HeaderView) :=
  (fst (stub_driver R c read tt), (w ++ [read !! 1%N])%list).

Definition watcher
    : SDL_GpuDevice (World := list (option HeaderView)) (Blob := unit) :=
  {| backend := 4; driverData := Some 7%N; driver := watcher_driver |}.

(** Before any call and after acquiring the command buffer, on the
    watching backend. *)
Definition watched_boot
    : State (World := list (option HeaderView)) (Blob := unit) :=
  {| world := []; heap := ∅; trace := [] |}.

Definition watched_idle : State :=
  with_header 1 (fresh_header (Some watcher) (Some 1%N))
    (called watcher (AcquireCommandBuffer (Some 7%N)) watched_boot).

(** A depth texture and a pipeline with a depth attachment, both in the
    D24 format the stub does not have. *)
Definition d24_texture : SDL_GpuTextureCreateInfo unit :=
  {| format := SDL_GPU_TEXTUREFORMAT_D24_UNORM;
     usageFlags := 32;
     textureRest := tt |}.

Definition d24s8_pipeline : SDL_GpuGraphicsPipelineCreateInfo unit :=
  {| attachmentInfo :=
       {| hasDepthStencilAttachment := true;
          depthStencilFormat := SDL_GPU_TEXTUREFORMAT_D24_UNORM_S8_UINT;
          attachmentRest := tt |};
     pipelineRest := tt |}.

(** A registry of one backend that fails its probe. *)
Definition broken_vulkan : SDL_GpuDriver (World := unit) (Blob := unit) :=
  {| Name := "Vulkan";
     backendflag := 1;
     PrepareDriver := fun w => (false, w);
     CreateDevice := fun _ w => (None, w) |}.

(** A registry over a world that counts the probes made: the probe of
    its Vulkan backend fails the first time it runs and succeeds from
    then on; its Metal backend is never there. *)
Definition flaky_vulkan : SDL_GpuDriver (World := nat) (Blob := unit) :=
  {| Name := "Vulkan";
     backendflag := 1;
     PrepareDriver := fun n => ((0 <? n)%nat, S n);
     CreateDevice := fun _ n => (None, n) |}.

Definition absent_metal : SDL_GpuDriver (World := nat) (Blob := unit) :=
  {| Name := "Metal";
     backendflag := 4;
     PrepareDriver := fun n => (false, S n);
     CreateDevice := fun _ n => (None, n) |}.

Definition unprobed : State (World := nat) (Blob := unit) :=
  {| world := 0%nat; heap := ∅; trace := [] |}.

(** [SDL_strcasecmp] on ASCII, as far as its sign. *)
Definition lower (c : Ascii.ascii) : Ascii.ascii :=
  let n := Ascii.nat_of_ascii c in
  if (65 <=? n)%nat && (n <=? 90)%nat
  then Ascii.ascii_of_nat (n + 32)
  else c.

Fixpoint lowercase (t : string) : string :=
  match t with
  | EmptyString => EmptyString
  | String c t' => String (lower c) (lowercase t')
  end.

Definition strcasecmp (x y : string) : Z :=
  if String.eqb (lowercase x) (lowercase y) then 0 else 1.

(** ** The claims on the stub *)

Lemma idle_reachable : reachable no_spirv_cross idle.
Proof.
  apply (reachable_step no_spirv_cross boot idle
           (ApiAcquireCommandBuffer (Some stub_device))).
  - apply (reachable_init no_spirv_cross tt).
  - vm_compute. reflexivity.
Defined.

Lemma rendering_reachable : reachable no_spirv_cross rendering.
Proof.
  apply (reachable_step no_spirv_cross idle rendering
           (ApiBeginRenderPass (Some 1%N) None 0 None)).
  - exact idle_reachable.
  - vm_compute. reflexivity.
Defined.

Lemma copying_reachable : reachable no_spirv_cross copying.
Proof.
  apply (reachable_step no_spirv_cross idle copying
           (ApiBeginCopyPass (Some 1%N))).
  - exact idle_reachable.
  - vm_compute. reflexivity.
Defined.

Lemma bound_outside_reachable : reachable no_spirv_cross bound_outside.
Proof.
  apply (reachable_step no_spirv_cross
           (state_after (ApiEndRenderPass (Some 1%N)) rendering)
           bound_outside (ApiBindGraphicsPipeline (Some 1%N) (Some 9%N))).
  - apply (reachable_step no_spirv_cross rendering _
             (ApiEndRenderPass (Some 1%N))).
    + exact rendering_reachable.
    + vm_compute. reflexivity.
  - vm_compute. reflexivity.
Defined.

Lemma watched_idle_reachable : reachable no_spirv_cross watched_idle.
Proof.
  apply (reachable_step no_spirv_cross watched_boot watched_idle
           (ApiAcquireCommandBuffer (Some watcher))).
  - apply (reachable_init no_spirv_cross []).
  - vm_compute. reflexivity.
Defined.

(** C1 at work: the idle buffer of the watching backend accepts a render
    pass.  During [BeginRenderPass] the backend reads the flag of the
    render pass as false; afterwards it is true and the flags of the two
    other passes are false.  Begin-pass on [NULL] leaves the state
    alone. *)
Lemma begin_pass_guard_witness :
  (exists s' h' v,
      SDL_GpuBeginRenderPass (Some 1%N) None 0 None watched_idle
      = Ok (Some 1%N) s'
      /\ last (world s') = Some (Some v)
      /\ inProgress (viewRenderPass v) = false
      /\ heap s' !! 1%N = Some h'
      /\ inProgress (renderPass h') = true
      /\ inProgress (computePass h') = false
      /\ inProgress (copyPass h') = false)
  /\ SDL_GpuBeginCopyPass None watched_idle = Ok None watched_idle.
Proof.
  destruct (begin_pass_guard no_spirv_cross watched_idle
              watched_idle_reachable)
    as (_ & _ & _ & Hnull & Hbuf).
  split; [| exact Hnull].
  destruct (Hbuf 1%N (fresh_header (Some watcher) (Some 1%N)))
    as (dev & Hdev & _ & Haccept); [vm_compute; reflexivity |].
  injection Hdev as <-.
  destruct (Haccept eq_refl) as (Hrender & _).
  destruct (Hrender None 0 None)
    as (s' & h' & Hrun & Hworld & _ & Hheap & Hflag & Hothers & _).
  exists s', h'. eexists. split; [exact Hrun |].
  split; [rewrite Hworld; vm_compute; reflexivity |].
  split; [reflexivity |].
  split; [rewrite Hheap; apply lookup_insert_eq |].
  split; [exact Hflag |].
  split.
  - exact (Hothers Compute ltac:(discriminate)).
  - exact (Hothers Copy ltac:(discriminate)).
Defined.

(** C2 at work: submission is refused while the render pass of the stub
    is in progress.  On the idle buffer of the watching backend it goes
    through: during [Submit] the backend reads the submitted flag as true,
    the flag is true afterwards, and a second submission is refused. *)
Lemma submit_guard_witness :
  SDL_GpuSubmit (Some 1%N) rendering
  = Ok tt
      (logged
         (EvLogError "Cannot submit command buffer while a pass is in progress!")
         rendering)
  /\ exists s1 h1 v,
       SDL_GpuSubmit (Some 1%N) watched_idle = Ok tt s1
       /\ last (world s1) = Some (Some v)
       /\ viewSubmitted v = true
       /\ heap s1 !! 1%N = Some h1
       /\ submitted h1 = true
       /\ SDL_GpuSubmit (Some 1%N) s1
          = Ok tt (logged (EvLogError "Command buffer already submitted!") s1).
Proof.
  split.
  - destruct (submit_guard no_spirv_cross rendering 1%N
                (set_renderPass_inProgress true
                   (fresh_header (Some stub_device) (Some 1%N)))
                rendering_reachable)
      as (dev & _ & Hrefuse & _); [vm_compute; reflexivity |].
    apply Hrefuse; vm_compute; reflexivity.
  - destruct (submit_guard no_spirv_cross watched_idle 1%N
                (fresh_header (Some watcher) (Some 1%N))
                watched_idle_reachable)
      as (dev & Hdev & _ & Haccept & _); [vm_compute; reflexivity |].
    injection Hdev as <-.
    destruct (Haccept eq_refl eq_refl)
      as (s1 & fence & s2 & Hrun & Hsubmits & _ & _ & Hafter).
    destruct Hsubmits as (h1 & (Hflag & _) & Hheap & Hworld & _).
    destruct (Hafter s1 (or_introl eq_refl)) as (_ & _ & _ & Hagain & _).
    exists s1, h1. eexists. split; [exact Hrun |].
    split.
    { rewrite Hworld, Hheap. cbn [driver watcher watcher_driver snd].
      rewrite last_snoc, lookup_fmap, lookup_insert_eq. reflexivity. }
    split; [exact Hflag |].
    split; [rewrite Hheap; apply lookup_insert_eq |].
    split; [exact Hflag | exact Hagain].
Defined.

(** C3 at work: a draw in a render pass with no pipeline bound is
    refused. *)
Lemma gated_calls_guard_witness :
  run_render (Some 1%N) (OpDrawPrimitives 0 3) rendering
  = Ok tt (logged (EvLogError "Graphics pipeline not bound!") rendering).
Proof.
  destruct (gated_calls_guard no_spirv_cross rendering 1%N
              (set_renderPass_inProgress true
                 (fresh_header (Some stub_device) (Some 1%N)))
              rendering_reachable)
    as (dev & _ & Hrender & _); [vm_compute; reflexivity |].
  exact (Hrender (OpDrawPrimitives 0 3)).
Defined.

(** C7 at work: the stub gets D32 for D24 and D32_S8 for D24_S8. *)
Lemma depth_format_fallback_witness :
  (exists s' info',
      SDL_GpuCreateTexture (Some stub_device) d24_texture boot
      = Ok (None, info') s'
      /\ format info' = SDL_GPU_TEXTUREFORMAT_D32_SFLOAT
      /\ last (trace s')
         = Some (EvCall stub_device (CreateTexture (Some 7%N) info') None))
  /\ (exists s' info',
        SDL_GpuCreateGraphicsPipeline (Some stub_device) d24s8_pipeline boot
        = Ok (None, info') s'
        /\ depthStencilFormat (attachmentInfo info')
           = SDL_GPU_TEXTUREFORMAT_D32_SFLOAT_S8_UINT
        /\ last (trace s')
           = Some (EvCall stub_device
                     (CreateGraphicsPipeline (Some 7%N) info') None)).
Proof.
  destruct (depth_format_fallback boot stub_device) as (Htex & Hpipe).
  split.
  - destruct (Htex d24_texture eq_refl eq_refl)
      as (info' & Hformat & _ & _ & Hrun).
    eexists _, info'. split; [exact Hrun |]. split; [exact Hformat |].
    reflexivity.
  - destruct (Hpipe d24s8_pipeline eq_refl eq_refl)
      as (info' & Hformat & _ & _ & _ & Hrun).
    eexists _, info'. split; [exact Hrun |]. split; [exact Hformat |].
    reflexivity.
Defined.

(** C8 as stated fails: with a [NULL] device buffer creation does not
    return [NULL]; in a debug build it ends on the assertion, in a release
    build on the dereference of the device. *)
Lemma create_on_null_device_does_not_return :
  SDL_GpuCreateBuffer (hdr := debug_build) None 0 16 boot
  = Crash (AssertionFailure "device != NULL") boot
  /\ SDL_GpuCreateBuffer (hdr := release_build) None 0 16 boot
     = Crash NullDereference boot
  /\ SDL_GpuCreateBuffer (hdr := debug_build) None 0 16 boot <> Ok None boot
  /\ SDL_GpuCreateBuffer (hdr := release_build) None 0 16 boot <> Ok None boot.
Proof. repeat split; try (vm_compute; reflexivity); vm_compute; discriminate.
    Qed.

(** C8 as amended, at work. *)
Lemma resource_calls_forward_witness :
  run_resource no_spirv_cross None (OpCreateBuffer 0 16) boot
  = Crash (AssertionFailure "device != NULL") boot
  /\ SDL_GpuCreateBuffer (Some stub_device) 0 16 boot
     = Ok None (called stub_device (CreateBuffer (Some 7%N) 0 16) boot).
Proof.
  destruct (resource_calls_forward no_spirv_cross boot) as (Hnull & Hdev).
  split.
  - exact (Hnull (OpCreateBuffer 0 16) eq_refl).
  - destruct (Hdev stub_device) as (_ & _ & Hbuffer & _).
    rewrite Hbuffer. reflexivity.
Defined.

(** C6 at work.  With the mask on Vulkan and no override, the Vulkan
    backend is probed and fails, the Metal backend is passed over, the
    warning is logged, and in the last strategy the Vulkan backend is
    probed again, in the world its first probe has left, and selected.
    With the override naming a backend that is not registered no backend
    is probed and no device is created, although the mask prefers the
    registered one. *)
Lemma backend_selection_witness :
  SDL_GpuSelectBackend [flaky_vulkan; absent_metal] (fun _ => None)
    strcasecmp 1 unprobed
  = Ok 1 {| world := 2%nat;
            heap := ∅;
            trace := [EvPrepareDriver "Vulkan" false;
                      EvLogWarn "No preferred SDL_Gpu backend found!" [];
                      EvPrepareDriver "Vulkan" true] |}
  /\ SDL_GpuCreateDevice [broken_vulkan] (fun _ => Some "metal") strcasecmp
       1 false boot
     = Ok None
         (logged (EvLogError "SDL_HINT_GPU_BACKEND metal unsupported!") boot).
Proof.
  split.
  - destruct (backend_selection [flaky_vulkan; absent_metal] (fun _ => None)
                strcasecmp 1 unprobed)
      as (Hselect & _).
    cbv beta iota in Hselect.
    change (1 =? SDL_GPU_BACKEND_INVALID) with false in Hselect.
    cbv iota in Hselect.
    destruct Hselect as (evs & w & found & Hpreferred & Hfound).
    assert (probing (fun b => Z.land 1 (backendflag b) <> 0)
              [flaky_vulkan; absent_metal] 0%nat
              [EvPrepareDriver "Vulkan" false] 1%nat None) as Hfirst.
    { apply (probing_miss _ flaky_vulkan); [discriminate | reflexivity |].
      apply probing_pass; [intros Hmask; by apply Hmask |].
      apply probing_done. }
    destruct (probing_deterministic _ _ _ _ _ _ _ _ _ Hpreferred Hfirst)
      as (-> & -> & ->).
    destruct Hfound as (evs & w & found & Hevery & Hresult).
    assert (probing (fun _ => True) [flaky_vulkan; absent_metal] 1%nat
              [EvPrepareDriver "Vulkan" true] 2%nat (Some flaky_vulkan))
      as Hlast.
    { by apply (probing_hit _ flaky_vulkan). }
    destruct (probing_deterministic _ _ _ _ _ _ _ _ _ Hevery Hlast)
      as (-> & -> & ->).
    exact Hresult.
  - destruct (backend_selection [broken_vulkan] (fun _ => Some "metal")
                strcasecmp 1 boot)
      as (_ & Hcreate & _).
    apply Hcreate. vm_compute. reflexivity.
Defined.

(** C4 fails on the code: after a render pass has been begun and ended,
    [SDL_GpuBindGraphicsPipeline] through the handle of that pass reaches
    the backend and sets the bound gate although no render pass is in
    progress. *)
Theorem bind_graphics_pipeline_outside_pass :
  exists s h,
    bind (SDL_GpuAcquireCommandBuffer (Some stub_device))
      (fun commandBuffer =>
         bind (SDL_GpuBeginRenderPass commandBuffer None 0 None)
           (fun renderPass =>
              bind (SDL_GpuEndRenderPass renderPass)
                (fun _ => SDL_GpuBindGraphicsPipeline renderPass (Some 9%N))))
      boot
    = Ok tt s
    /\ heap s !! 1%N = Some h
    /\ inProgress (renderPass h) = false
    /\ graphicsPipelineBound h = true
    /\ last (trace s)
       = Some (EvCall stub_device
                 (BindGraphicsPipeline (Some 1%N) (Some 9%N)) tt).
Proof.
  eexists _, _. split; [vm_compute; reflexivity |].
  split; [vm_compute; reflexivity |].
  repeat split.
Qed.

(** C5 fails on the code: after a copy pass has been begun and ended,
    [SDL_GpuUploadToBuffer] through the handle of that pass reaches the
    backend although no copy pass is in progress, where
    [SDL_GpuUploadToTexture] is refused. *)
Theorem upload_to_buffer_outside_pass :
  exists s h,
    bind (SDL_GpuAcquireCommandBuffer (Some stub_device))
      (fun commandBuffer =>
         bind (SDL_GpuBeginCopyPass commandBuffer)
           (fun copyPass =>
              bind (SDL_GpuEndCopyPass copyPass)
                (fun _ =>
                   SDL_GpuUploadToBuffer copyPass (Some 3%N) (Some 4%N)
                     (Some 5%N) false)))
      boot
    = Ok tt s
    /\ heap s !! 1%N = Some h
    /\ inProgress (copyPass h) = false
    /\ last (trace s)
       = Some (EvCall stub_device
                 (UploadToBuffer (Some 1%N) (Some 3%N) (Some 4%N) (Some 5%N)
                    false) tt)
    /\ SDL_GpuUploadToTexture (Some 1%N) (Some 3%N) (Some 4%N) (Some 5%N)
         false s
       = Ok tt (logged (EvLogError "Copy pass not in progress!") s).
Proof.
  eexists _, _. split; [vm_compute; reflexivity |].
  split; [vm_compute; reflexivity |].
  repeat split.
Qed.

(** X1 at work: ending the render pass of the stub clears its gate. *)
Lemma compute_gate_needs_pass_witness :
  exists s' h',
    SDL_GpuEndRenderPass (Some 1%N) rendering = Ok tt s'
    /\ heap s' !! 1%N = Some h'
    /\ inProgress (renderPass h') = false
    /\ graphicsPipelineBound h' = false.
Proof.
  destruct (compute_gate_needs_pass no_spirv_cross rendering 1%N
              (set_renderPass_inProgress true
                 (fresh_header (Some stub_device) (Some 1%N)))
              rendering_reachable)
    as (dev & _ & _ & _ & Hend & _); [vm_compute; reflexivity |].
  apply Hend. reflexivity.
Defined.

(** X2 at work: an upload to a texture on the idle buffer of the stub is
    refused; ending the copy pass of the stub leaves the flag of the pass
    false. *)
Lemma copy_pass_gate_witness :
  SDL_GpuUploadToTexture (Some 1%N) None None None false idle
  = Ok tt (logged (EvLogError "Copy pass not in progress!") idle)
  /\ exists s' h',
       SDL_GpuEndCopyPass (Some 1%N) copying = Ok tt s'
       /\ heap s' !! 1%N = Some h'
       /\ inProgress (copyPass h') = false.
Proof.
  split.
  - destruct (copy_pass_gate no_spirv_cross idle 1%N
                (fresh_header (Some stub_device) (Some 1%N)) idle_reachable)
      as (dev & _ & Hupload & _); [vm_compute; reflexivity |].
    exact (Hupload None None None false).
  - destruct (copy_pass_gate no_spirv_cross copying 1%N
                (set_copyPass_inProgress true
                   (fresh_header (Some stub_device) (Some 1%N)))
                copying_reachable)
      as (dev & _ & _ & _ & Hend); [vm_compute; reflexivity |].
    destruct (Hend eq_refl) as (h' & Hrun & Hflag & _).
    eexists _, h'. split; [exact Hrun |].
    split; [apply lookup_insert_eq | exact Hflag].
Defined.

(** X3 at work: the viewport is set in a render pass that has no pipeline
    bound. *)
Lemma viewport_scissor_need_pass_only_witness :
  SDL_GpuSetViewport (Some 1%N) None rendering
  = Ok tt (called stub_device (SetViewport (Some 1%N) None) rendering).
Proof.
  destruct (viewport_scissor_need_pass_only no_spirv_cross rendering 1%N
              (set_renderPass_inProgress true
                 (fresh_header (Some stub_device) (Some 1%N)))
              rendering_reachable)
    as (dev & Hdev & Hviewport & _); [vm_compute; reflexivity |].
  injection Hdev as <-. exact (Hviewport None).
Defined.

(** ** The further properties on the stub *)

(** The command buffer of the stub, submitted from idle. *)
Definition handed_in : State :=
  called stub_device (Submit (Some 1%N))
    (with_header 1
       (set_submitted true (fresh_header (Some stub_device) (Some 1%N))) idle).

Lemma handed_in_reachable : reachable no_spirv_cross handed_in.
Proof.
  apply (reachable_step no_spirv_cross idle handed_in (ApiSubmit (Some 1%N))).
  - exact idle_reachable.
  - vm_compute. reflexivity.
Defined.

(** A backend that knows no depth format at all. *)
Definition bare_device : SDL_GpuDevice (World := unit) (Blob := unit) :=
  {| backend := 1;
     driverData := None;
     driver := fun R c read w => (stub_answer c, w) |}.

(** X4 at work: submitting the stub's buffer in its render pass returns,
    refused. *)
Lemma call_outcome_witness :
  exists s',
    exec no_spirv_cross (ApiSubmit (Some 1%N)) rendering = Ok tt s'
    /\ (refused rendering s'
        \/ dispatched stub_device 1
             (set_renderPass_inProgress true
                (fresh_header (Some stub_device) (Some 1%N)))
             rendering s').
Proof.
  destruct (call_outcome no_spirv_cross rendering 1%N
              (set_renderPass_inProgress true
                 (fresh_header (Some stub_device) (Some 1%N)))
              (ApiSubmit (Some 1%N)) rendering_reachable)
    as (dev & s' & Hdev & Hexec & Hout);
    [vm_compute; reflexivity | reflexivity |].
  injection Hdev as <-. by exists s'.
Defined.

(** X5 at work: creating a buffer on the device leaves the command buffer
    in its render pass as it is. *)
Lemma command_buffers_are_isolated_witness :
  heap (called stub_device (CreateBuffer (Some 7%N) 0 16) rendering) !! 1%N
  = Some (set_renderPass_inProgress true
            (fresh_header (Some stub_device) (Some 1%N))).
Proof.
  destruct (command_buffers_are_isolated no_spirv_cross rendering
              (called stub_device (CreateBuffer (Some 7%N) 0 16) rendering)
              (ApiResource (Some stub_device) (OpCreateBuffer 0 16)) 1%N
              (set_renderPass_inProgress true
                 (fresh_header (Some stub_device) (Some 1%N)))
              rendering_reachable)
    as (hb' & Hl & [-> | [(Ht & _) | (dev & Hc & _)]] & _);
    [vm_compute; reflexivity | vm_compute; reflexivity | exact Hl
    | discriminate Ht | discriminate Hc].
Defined.

(** X6 at work: a blit on the submitted buffer of the stub is refused. *)
Lemma submitted_is_final_witness :
  exists s',
    SDL_GpuBlit (Some 1%N) None None 0 false handed_in = Ok tt s'
    /\ refused handed_in s'.
Proof.
  destruct (submitted_is_final no_spirv_cross handed_in 1%N
              (set_submitted true (fresh_header (Some stub_device) (Some 1%N)))
              handed_in_reachable)
    as (_ & _ & _ & _ & Hfinal);
    [vm_compute; reflexivity | reflexivity |].
  exact (Hfinal (ApiBlit (Some 1%N) None None 0 false) eq_refl
           ltac:(discriminate) ltac:(discriminate) ltac:(discriminate)
           ltac:(discriminate)).
Defined.

(** X7 at work: in the render pass of the stub the compute pass cannot be
    ended. *)
Lemma calls_of_another_pass_refused_witness :
  SDL_GpuEndComputePass (Some 1%N) rendering
  = Ok tt (logged (EvLogError "Compute pass not in progress!") rendering).
Proof.
  exact (calls_of_another_pass_refused no_spirv_cross rendering 1%N
           (set_renderPass_inProgress true
              (fresh_header (Some stub_device) (Some 1%N)))
           (ApiEndComputePass (Some 1%N)) Compute Render
           rendering_reachable ltac:(vm_compute; reflexivity) eq_refl eq_refl
           ltac:(discriminate) eq_refl).
Defined.

(** X8 at work: a copy pass begun and ended on the idle buffer leaves the
    heap of the stub as it was; a render pass begun and ended on the
    buffer whose pipeline was bound outside a pass leaves the gate
    false. *)
Lemma pass_round_trip_witness :
  (exists s',
      bind (SDL_GpuBeginCopyPass (Some 1%N)) SDL_GpuEndCopyPass idle = Ok tt s'
      /\ heap s' = heap idle)
  /\ (exists h0 s' h',
        heap bound_outside !! 1%N = Some h0
        /\ graphicsPipelineBound h0 = true
        /\ bind (SDL_GpuBeginRenderPass (Some 1%N) None 0 None)
             SDL_GpuEndRenderPass bound_outside = Ok tt s'
        /\ heap s' !! 1%N = Some h'
        /\ graphicsPipelineBound h' = false).
Proof.
  split.
  - destruct (pass_round_trip no_spirv_cross idle 1%N
                (fresh_header (Some stub_device) (Some 1%N)) idle_reachable)
      as (dev & _ & _ & (s' & Hrun & Hheap & _) & _);
      [vm_compute; reflexivity | split; reflexivity |].
    by exists s'.
  - set (h0 := set_graphicsPipelineBound true
                 (fresh_header (Some stub_device) (Some 1%N))).
    destruct (pass_round_trip no_spirv_cross bound_outside 1%N h0
                bound_outside_reachable)
      as (dev & _ & _ & _ & Hrender);
      [vm_compute; reflexivity | split; reflexivity |].
    destruct (Hrender None 0 None) as (s' & Hrun & (h' & Hheap & Hgate & _) & _).
    exists h0, s', h'. split; [vm_compute; reflexivity |].
    split; [reflexivity |]. split; [exact Hrun |].
    split; [rewrite Hheap; apply lookup_insert_eq | exact Hgate].
Defined.

(** X9 at work: two uploads in one frame of the stub. *)
Lemma copy_frame_runs_witness :
  exists s',
    copy_frame (Some stub_device)
      [OpUploadToBuffer (Some 3%N) (Some 4%N) None false;
       OpUploadToTexture (Some 3%N) (Some 5%N) None false] boot
    = Ok (Some 2%N) s'
    /\ length (trace s') = 6%nat.
Proof.
  destruct (copy_frame_runs stub_device
              [OpUploadToBuffer (Some 3%N) (Some 4%N) None false;
               OpUploadToTexture (Some 3%N) (Some 5%N) None false]
              boot 1%N eq_refl)
    as (fence & s' & Hrun & Htrace & _).
  exists s'. split; [| by rewrite Htrace].
  rewrite Hrun. f_equal. vm_compute in Hrun. by injection Hrun as <- _.
Defined.

(** X10 at work: a frame of one draw on the stub ends with the buffer
    submitted. *)
Lemma gated_frames_run_witness :
  exists s' h',
    render_frame (Some stub_device) None 0 None (Some 9%N)
      [OpDrawPrimitives 0 3] boot = Ok tt s'
    /\ length (trace s') = 6%nat
    /\ heap s' !! 1%N = Some h'
    /\ submitted h' = true
    /\ inProgress (renderPass h') = false
    /\ graphicsPipelineBound h' = false.
Proof.
  destruct (gated_frames_run stub_device boot 1%N eq_refl) as (Hrender & _).
  destruct (Hrender None 0 None (Some 9%N) [OpDrawPrimitives 0 3])
    as (s' & Hrun & Htrace & (h' & Hheap & Hretired) & _).
  destruct Hretired as (Hsubmitted & Hpass & _ & _ & Hgate & _).
  exists s', h'. split; [exact Hrun |].
  split; [by rewrite Htrace |].
  split; [rewrite Hheap; apply lookup_insert_eq |].
  split; [exact Hsubmitted |]. split; [exact Hpass | exact Hgate].
Defined.

(** X11 at work: a blit inside the render pass of the stub goes to the
    backend. *)
Lemma unpassed_calls_guard_witness :
  SDL_GpuBlit (Some 1%N) None None 0 false rendering
  = Ok tt (called stub_device (Blit (Some 1%N) None None 0 false) rendering).
Proof.
  destruct (unpassed_calls_guard no_spirv_cross rendering 1%N
              (set_renderPass_inProgress true
                 (fresh_header (Some stub_device) (Some 1%N)))
              rendering_reachable)
    as (dev & Hdev & Hopen & _); [vm_compute; reflexivity |].
  injection Hdev as <-.
  destruct (Hopen eq_refl) as (_ & Hblit & _). apply Hblit.
Defined.

(** X13 at work: on a backend without depth formats a D24 pipeline comes
    back as D32 and, created again, as D24. *)
Lemma negotiation_flips_witness :
  exists pipeline info1 s1 pipeline2 s2,
    SDL_GpuCreateGraphicsPipeline (Some bare_device) d24s8_pipeline boot
    = Ok (pipeline, info1) s1
    /\ depthStencilFormat (attachmentInfo info1)
       = SDL_GPU_TEXTUREFORMAT_D32_SFLOAT_S8_UINT
    /\ SDL_GpuCreateGraphicsPipeline (Some bare_device) info1 s1
       = Ok (pipeline2, d24s8_pipeline) s2.
Proof.
  destruct (negotiation_flips boot bare_device) as (Hpipe & _).
  destruct (Hpipe d24s8_pipeline eq_refl eq_refl)
    as (pipeline & info1 & s1 & Hfirst & Hformat & _ & _ & _ & _ & _
        & Hsecond).
  vm_compute in Hfirst. injection Hfirst as <- <- <-.
  destruct (Hsecond eq_refl) as (pipeline2 & info2 & s2 & Hagain & Hback & _).
  rewrite (Hback ltac:(apply (bool_decide_unpack _); vm_compute; exact I))
    in Hagain.
  eexists _, _, _, pipeline2, s2. split; [vm_compute; reflexivity |].
  split; [reflexivity |]. exact Hagain.
Defined.

(** ** The translation shim on a stub library *)

(** A SPIRV-Cross that is installed and accepts everything. *)
Definition stub_library (R : Type) (c : Spirv.LibCall R) (w : unit)
    : R * unit :=
  (match c in Spirv.LibCall R return R with
   | Spirv.SDL_LoadObject _ => Some 100%N
   | Spirv.SDL_LoadFunction _ _ => Some 200%N
   | Spirv.spvc_context_create _ => (0, Some 300%N)
   | Spirv.spvc_context_destroy _ _ => tt
   | Spirv.spvc_context_parse_spirv _ _ _ _ => (0, Some 301%N)
   | Spirv.spvc_context_create_compiler _ _ _ _ _ => (0, Some 302%N)
   | Spirv.spvc_compiler_create_compiler_options _ _ => (0, Some 303%N)
   | Spirv.spvc_compiler_options_set_uint _ _ _ _ => 0
   | Spirv.spvc_compiler_install_compiler_options _ _ _ => 0
   | Spirv.spvc_compiler_compile _ _ => (0, "translated")
   | Spirv.spvc_context_get_last_error_string _ _ => "no error"
   end, w).

(** The same library with a parser that rejects every module. *)
Definition strict_library (R : Type) (c : Spirv.LibCall R) (w : unit)
    : R * unit :=
  (match c in Spirv.LibCall R return R -> R with
   | Spirv.spvc_context_parse_spirv _ _ _ _ => fun _ => (-1, None)
   | Spirv.spvc_context_get_last_error_string _ _ => fun _ => "bad module"
   | _ => fun answer => answer
   end (fst (stub_library R c w)), w).

(** Before the first call: nothing is loaded. *)
Definition cold : Spirv.Shim (World := unit) (Blob := unit) :=
  {| Spirv.outside := tt;
     Spirv.spirvcross_dll := None;
     Spirv.SDL_spvc := ∅;
     Spirv.log := [] |}.

Definition spirv_shader : SDL_GpuShaderCreateInfo :=
  {| shaderFormat := 1;
     stage := 0;
     entryPointName := "main";
     code := Some 50%N;
     codeSize := 1024 |}.

Definition so_file : string := "libspirv-cross-c-shared.so".

(** The first translation on the stub, a Metal device, and the state it
    leaves. *)
Definition first_run : Spirv.Result ptr :=
  Spirv.SDL_CreateShaderFromSPIRV so_file stub_library ∅ (Some stub_device)
    spirv_shader cold.

Definition warm : Spirv.Shim :=
  match first_run with
  | Spirv.Returns _ s | Spirv.Faults _ s => s
  end.

Lemma first_run_returns : first_run = Spirv.Returns None warm.
Proof. vm_compute. reflexivity. Defined.

(** The same on the strict library. *)
Definition strict_run : Spirv.Result ptr :=
  Spirv.SDL_CreateShaderFromSPIRV so_file strict_library ∅ (Some stub_device)
    spirv_shader cold.

Definition rejected : Spirv.Shim :=
  match strict_run with
  | Spirv.Returns _ s | Spirv.Faults _ s => s
  end.

Lemma strict_run_returns : strict_run = Spirv.Returns None rejected.
Proof. vm_compute. reflexivity. Defined.

(** X16 at work: the first translation has loaded the library and its
    entry points, and the one after it loads nothing. *)
Lemma shim_loads_once_witness :
  Spirv.ready warm
  /\ exists r2 s2,
       Spirv.SDL_CreateShaderFromSPIRV so_file stub_library ∅ (Some stub_device)
         spirv_shader warm = Spirv.Returns r2 s2
       /\ List.filter Spirv.is_load
            (drop (length (Spirv.log warm)) (Spirv.log s2)) = [].
Proof.
  destruct (Spirv.shim_loads_once so_file stub_library ∅ _ _ _ _ _
              first_run_returns)
    as (_ & _ & (loading & rest & Hlog & Hload & _ & _ & Hready) & Hagain).
  assert (Spirv.ready warm) as Hwarm.
  { apply Hready; [discriminate |]. intros ->.
    rewrite app_nil_r in Hlog. cbn [Spirv.log cold app] in Hlog.
    rewrite <- Hlog in Hload. vm_compute in Hload. discriminate Hload. }
  split; [exact Hwarm |].
  eassert (Spirv.SDL_CreateShaderFromSPIRV so_file stub_library ∅
             (Some stub_device) spirv_shader warm = Spirv.Returns _ _)
    as Hrun2 by (vm_compute; reflexivity).
  eexists _, _. split; [exact Hrun2 |].
  eapply Hagain; [exact Hwarm | exact Hrun2].
Defined.

(** X17 at work: the parser of the strict library fails, and the context
    that was created is destroyed. *)
Lemma shim_releases_context_witness :
  Spirv.created (Spirv.log rejected) = [Some 300%N]
  /\ Spirv.destroyed (Spirv.log rejected) = [Some 300%N].
Proof.
  destruct (Spirv.shim_releases_context so_file strict_library ∅ _ _ _ _ _
              strict_run_returns)
    as (evs & Hlog & Hbalance & _).
  cbn [Spirv.log cold app] in Hlog. rewrite Hlog, <- Hbalance, <- Hlog.
  split; vm_compute; reflexivity.
Defined.

(** X18 at work: on the stub the shader is what the device answers, and no
    error is set. *)
Lemma shim_result_witness :
  Spirv.compiled (Spirv.log warm) = [None]
  /\ Spirv.errors (Spirv.log warm) = [].
Proof.
  destruct (Spirv.shim_result so_file stub_library ∅ _ _ _ _ _
              first_run_returns)
    as (evs & Hlog & [(_ & Hnone & _) | (? & ? & ? & ? & ? & ? & ? & Hres)]).
  - cbn [Spirv.log cold app] in Hlog. rewrite <- Hlog in Hnone.
    vm_compute in Hnone. discriminate Hnone.
  - destruct Hres as (_ & Hcompiled & Herrors & _).
    cbn [Spirv.log cold app] in Hlog. rewrite Hlog.
    exact (conj Hcompiled Herrors).
Defined.

(** X19 at work: the stub is a Metal device, so the compiler is asked for
    MSL, the module is parsed as 256 words and no option is set. *)
Lemma shim_targets_and_options_witness :
  Spirv.targets (Spirv.log warm) = [SPVC_BACKEND_MSL]
  /\ Spirv.parsed (Spirv.log warm) = [(Some 50%N, 256)]
  /\ Spirv.options_set (Spirv.log warm) = [].
Proof.
  destruct (Spirv.shim_targets_and_options so_file stub_library ∅ _ _ _ _ _
              first_run_returns)
    as (evs & Hlog & _ & _ & [Hnone | (Hhlsl & _)] & _).
  - cbn [Spirv.log cold app] in Hlog. rewrite <- Hlog in Hnone.
    split; [vm_compute; reflexivity |]. split; [vm_compute; reflexivity |].
    exact Hnone.
  - vm_compute in Hhlsl. discriminate Hhlsl.
Defined.

(** X20 at work: without a device the shim returns [NULL]. *)
Lemma shim_never_faults_witness :
  exists r s',
    Spirv.SDL_CreateShaderFromSPIRV so_file stub_library ∅ None spirv_shader cold
    = Spirv.Returns r s'.
Proof.
  apply (Spirv.shim_never_faults so_file stub_library ∅ None spirv_shader cold).
  reflexivity.
Defined.

(** X21 at work: the submission of the idle buffer of the watching
    backend adds one event, which is permitted, and the backend has read
    the submitted flag as true during it. *)
Lemma backend_protocol_witness :
  exists s' v,
    exec no_spirv_cross (ApiSubmit (Some 1%N)) watched_idle = Ok tt s'
    /\ last (world s') = Some (Some v)
    /\ viewSubmitted v = true
    /\ exists evs,
         trace s' = (trace watched_idle ++ evs)%list
         /\ Forall (permitted (ApiSubmit (Some 1%N)) watched_idle s') evs.
Proof.
  eexists _, _. split; [vm_compute; reflexivity |].
  split; [vm_compute; reflexivity |]. split; [reflexivity |].
  apply (backend_protocol no_spirv_cross watched_idle (ApiSubmit (Some 1%N))).
  - exact watched_idle_reachable.
  - vm_compute. reflexivity.
Defined.
